(* ===== verification/_CoqProject ===== *)
-Q . S2P
Prelude.v
PyStr.v
Values.v
Version.v
VersionTranslator.v
Dom.v
Helper.v
Scrubber.v
Scrubbers.v
Actions.v
Factory.v
Files.v
Waits.v
InitHelper.v
Setup.v
Mail.v
Packaging.v
