(* ===== verification/Prelude.v ===== *)
(** * A verification of lbrc_selenium

    lbrc_selenium drives a browser through Selenium and scrapes pages into
    records.  [src/lbrc_selenium/selenium.py] is the current module;
    [src/lbrc_selenium/__init__.py] is an older copy of its browser part
    that the package still exports; [src/setup.py] is packaging metadata.
    The parts and how they interact:
    - [get_selenium] reads the environment and builds a helper around a
      remote Chrome (Selenium grid) or a local Firefox driver; the helper's
      constructor creates and empties the download directory and creates
      the output directory; [close] quits or closes the driver;
    - [Selector] and its six subclasses name a Selenium lookup strategy and
      a query;
    - [SeleniumHelper] wraps the driver: it loads pages ([get]), finds
      elements, waits for them to appear or disappear ([WebDriverWait]),
      clicks and types, reads and normalises their text ([normalise_text]
      strips tags with [RE_REMOVE_HTML_TAGS] and folds whitespace), and
      picks version-keyed items ([get_compare_version_item],
      [get_version_item]), and saves or mails screenshots;
    - [Action] and its subclasses retry a browser action up to four times;
    - [VersionTranslator] keeps, per application version, a column
      allow-list and two rename tables; [_get_version] resolves the table
      registered at the greatest version not above a target, and
      [translate_dictionary] and [cleanse_headers] apply them to a scraped
      record and to table headers;
    - [Scrubber] extracts one field from a container ([get_value]: the
      value elements sorted by tag, reconciled by [get_parent_elements],
      each read by [get_element_contents]), and its three variants scrape a
      key/value list, a flat list and a table, translating records with a
      [VersionTranslator].

    ** Files

    - [Prelude.v] (this file): the exceptions the code raises ([py_exc]),
      the result monad [result] with [let*] (a Python call that returns or
      raises), loops that stop at the first exception ([mapR], [foldlR]),
      [list.remove] ([list_remove]), Python's stable [sorted]
      ([sort_stable], [sort_by]), [str] order ([str_leb]), [max]
      ([py_max], [ValueError] on an empty sequence) and dictionaries that
      keep insertion order ([dict_set], [dict_get]); the hint database [py]
      and the tactics [case_rbind], [py_simpl] and [list_members].
    - [PyStr.v] (Module [PyStr]): the [str] built-ins the code calls
      ([split], [join], [strip], [replace], [startswith], [str(int)],
      [repr]) on Latin-1 strings, with their round-trip lemmas.
    - [Values.v] (Module [Values]): [None], [str] and the [Link] dataclass
      (lines 468-471) as [pyval], with [str()] ([py_str]) and truthiness.
    - [Version.v] (Module [Version]): the part of [packaging.version] the
      code uses, modelled from the spec: release tuples, parsing, printing,
      the comparison key (trailing zeros dropped) and the order.
    - [VersionTranslator.v] (Modules [VersionTranslator] and [Translator]):
      the state [state] holds the three dictionaries ([columns],
      [label_translations], [value_translations]), keyed by version keys;
      each setter ([set_columns_for_version], [add_column], ...) is a
      function of the state that raises where Python does; [get_version] is
      [_get_version]; [translate_item] is one iteration of the loop of
      [translate_dictionary]; [cleanse_headers] is the header filter.
    - [Dom.v] (Module [Dom]): [Selector] and its subclasses (lines 30-57);
      the class [Driver], the calls the code makes on Selenium's
      [WebDriver]/[WebElement]; the class [DomLaws], what the one XPath
      query the code evaluates ([.//ancestor-or-self::*]) returns; and
      concrete pages ([page], [tag_page]) that instantiate both, checked
      well formed by [page_wf], on which the witnesses run.
    - [Helper.v] (Module [Helper]): the text, element, URL and version-item
      methods of [SeleniumHelper] over any [Driver] (Section [helper]), the
      tag-stripping scan [remove_html_tags], and [Action.do] ([do_loop],
      [action_do]) over the sequence of outcomes of [_do()].
    - [Scrubber.v] (Module [Scrubber]): [Scrubber]'s [cleanse],
      [get_element_contents], [get_parent_elements] (its loop is
      [first_uncovered]), [get_value] and [get_details], over a [Driver];
      the reconciliation's theorems are proved against [DomLaws].
    - [Scrubbers.v] (Module [Scrubbers]): the selectors and
      [_scrape_details] of [KeyValuePairScrubber], [ListScrubber] and
      [TableScrubber], with Python's [sorted] on scraped values
      ([py_sorted_vals], [TypeError] on mixed types) and the table's row
      sort ([table_sort], [IndexError]/[KeyError] from its key).
    - [Actions.v] (Module [Actions]): the browser as the class [Browser]
      (a page state that lookups read and clicks and keys change, with the
      page an open alert leaves once dismissed), the monad [M] of state,
      trace and exceptions over a [world], and in it [get], [get_parent],
      [get_element], [type_in_textbox], [click_element], [click_all],
      [Action.do] ([do_run]) and the [_do()] of each [Action] subclass.
      A command sent while an alert is open ([find_element], [navigate])
      dismisses it and raises [UnexpectedAlertPresentException], as
      WebDriver's default prompt handler ("dismiss and notify") does.
    - [Factory.v] (Module [Factory]): both [get_selenium] factories
      (selenium.py lines 312-377, __init__.py lines 23-43 and 194-239) as
      functions of the environment, an association list: the arguments
      read ([read_args], [init_read_args]), the driver requested
      ([driver_spec]: [webdriver.Remote] with its capabilities or
      [webdriver.Firefox] with its profile), the helper's constructor call
      ([helper_call]) and the capabilities dictionary after the call (the
      default [DesiredCapabilities.CHROME] is shared and mutated); [close].
      Python's [float()] is a parameter of Section [factory].
    - [Files.v] (Module [Files]): the filesystem as a list of paths with
      their kind; [Path.mkdir(parents=True, exist_ok=True)] ([mkdir_p]),
      [unlink], [_clear_directory] ([clear_directory]) and the filesystem
      part of both constructors ([helper_init], [init_helper_init]).
    - [Waits.v] (Module [Waits]): [WebDriverWait.until] and [until_not]
      ([until], [until_not]) over the monad of [Actions], the page changing
      by [tick] between attempts, and [wait_to_appear],
      [wait_to_disappear], whose number of attempts ([attempts]) follows
      from the timeout, the poll interval and the time a failed lookup
      takes (the driver's implicit wait).
    - [InitHelper.v] (Module [InitHelper]): every method of __init__.py's
      [SeleniumHelper] written out from that file: [get] waits with
      [wait_to_appear]; [get_text], [get_href], [get_value] have no [None]
      guard; [get_element] also catches [TimeoutException]; the rest is
      the code of selenium.py again.
    - [Setup.v] (Module [Setup]): the attributes both constructors set
      ([helper], [init_helper]), the constructors ([SeleniumHelper_init],
      [InitSeleniumHelper_init]) with their filesystem effects, and
      [make_helper], [get_selenium()] composed with the constructor.
    - [Mail.v] (Module [Mail]): [email_screenshot] of both files, the MIME
      message it builds ([screenshot_message]) and its three SMTP calls in
      a logging monad [MailM] whose server answers are parameters; and
      [save_screenshot] as a write into [Files]' filesystem whose failure
      is swallowed.
    - [Packaging.v] (Module [Packaging]): [setup()] of [src/setup.py] and
      the imports each module runs when it is loaded ([import_package],
      [import_selenium_module]).

    ** What the theorems show

    - Version resolution (C1, C2): [_get_version] returns the table of the
      greatest registered version [<=] the target, and [None] below all of
      them.
    - Record translation (C3-C8): the label tables are never read (the
      code reads the value table twice), the value table renames labels,
      records come back with distinct labels in code-point order, the
      allow-list filters labels, the only exception is [InvalidVersion],
      and an empty allow-list filters no header.
    - Reconciliation and values (C9-C11): [get_parent_elements] returns at
      most the first uncovered element (never the outer element of a
      nested pair); an anchor gives a [Link] breaking its [str]
      annotations exactly when one of its [href] and text is empty and the
      other is not.
    - Scrapers (C12-C16): a table's rows are a sorted permutation of the
      translated rows, or [IndexError]/[KeyError]; a [ListScrubber] raises
      [TypeError] exactly when two or more items include a [None] or
      [Link] value, and otherwise sorts them; the labels of a key/value
      record are distinct and non-empty; a scrubber built without a
      [version_comparator] returns them sorted and untranslated.
    - Browser actions (C17-C20): [TypeInTextboxAction] and [EnsureAction]
      always raise [AttributeError]; [get] with WebDriver's default prompt
      handler (an alert is dismissed by the first lookup, whose exception
      [get] swallows); [click_all] terminates under a decreasing measure of
      its scope, and searches inside the element it clicked last.
    - Setup (C21-C28): [get_selenium()] with its constructor raises
      [KeyError], [ValueError] or, from the directories, [OSError], as
      stated; a helper quits its driver on [close] exactly when it is a
      grid helper; the shared Chrome capabilities are mutated; a local
      driver is headless whenever [SELENIUM_HEADLESS] is non-empty, ["false"]
      included; after the constructor the directories exist, the download
      directory holds no file and nothing else changed; a subdirectory in
      the download directory makes the constructor raise; [get_selenium()]
      composed with the constructor gives a helper with the environment's
      settings; the modules need [selenium] and [packaging], and
      [setup.py] declares only the first.
    - Screenshots (C29): the screenshot of a helper from [get_selenium()]
      is mailed to and from [EMAIL_ADDRESS] with the URL and the PNG, and
      the connection is not quit when sending fails.
    - Waits (C30): [wait_to_appear] returns at the first attempt that finds
      the element, for any attempt the timeout allows.
    - The two helpers (C31): their [get]s agree on a loaded page.
    - Helper (C32, C33): [get_compare_version_item] compares key strings;
      [Action.do]'s loop returns after the first success or re-raises the
      fourth exception.
    - Further theorems, not numbered: [get_value]'s two branches, the
      [get]s' divergence on an alert the loaded page opens, the methods
      the two helpers share, __init__.py's unguarded getters, the fuel of
      the tag-stripping scan, [save_screenshot]'s silent failure,
      [_get_version] after
      [set_columns_for_version], [add_column]'s errors, a flat set of
      elements yields only its first, link extraction and its [None] case,
      the [str()] of a single [Link] value, the table scraper's [KeyError]
      on a renamed header, no one-line tag survives [remove_html_tags],
      [normalise_text] gives single-spaced words and is not idempotent,
      [get_version_item] raises [KeyError] on non-canonical keys,
      [Action.do] calls [_do()] at most four times,
      [convert_to_relative_url] round trips, [type_in_textbox] and
      [click_element] step by step, [wait_to_appear]'s timeout,
      [wait_to_disappear]'s return, [email_screenshot]'s calls in every
      case, and parsing the printed version gives it back
      ([Version.parse_to_string]).

    ** Fuel and bounds

    [remove_html_tags] runs its scan with fuel [String.length s]: each step
    consumes at least one character, and [remove_tags_fuel_enough] shows
    that any larger fuel gives the same result.  [Action.do] is [do_loop]
    (and, in the monad, [do_run]) with fuel four: the loop raises once
    [retried > 2], after four calls.  [get]'s loop runs its twenty
    iterations as written.  [click_all] is a [while True] given fuel; C19
    shows any fuel above a decreasing measure of the search scope gives
    the same run.  A page's ancestor walk ([Dom.up]) takes the number of
    nodes as fuel, enough on an acyclic page.  A wait of [seconds_to_wait]
    makes [attempts (1000 * seconds_to_wait) lookup_ms] lookups:
    [WebDriverWait] sleeps [poll_frequency] (0.5 s) after each failed
    lookup, a failed lookup takes the implicit wait [lookup_ms], and the
    loop stops once the clock has passed the timeout, which
    [attempts_stop] shows is after [timeout / (lookup_ms + 500) + 1]
    attempts.  With the default implicit wait of one second, ten seconds
    allow seven attempts.  Time spent by the driver or the machine beyond
    these is not counted.

    ** Not modelled

    The drivers ([webdriver.Remote], [webdriver.Firefox]) and the SMTP
    server are external: [Factory] records which driver is requested and
    with what, [Actions.Browser] leaves what a click or a key press does to
    the page abstract, [Waits] takes the page's change between two
    attempts as a parameter, and [Mail] takes the server's answers as
    parameters.  Sleeps outside the waits leave the page as it is.  The
    base64 text of the attachment is not computed: the part records the
    bytes it encodes.  The warning [save_screenshot] gives for a name not
    ending in [.png] is not modelled.  The zip extraction of
    [unzip_download_directory_contents] is never reached: the method
    raises [AttributeError] first.  The debugging [print]s of
    [get_parent_elements] have no effect on the result.  The [Selector]
    classes of [__init__.py] (lines 46-57) are those of [selenium.py]
    again, modelled once in [Dom]; [Action.__init__] only stores its
    arguments, which [Actions] passes directly.  Installation is taken to
    install the declared [install_requires] (pip runs [setup.py] with
    setuptools loaded); the Python version is not modelled.  Python sets
    are ordered by hash; the model keeps first occurrences where the code
    makes a list of a set, which agrees with Python on the at most one
    value [get_value] meets. *)


From stdpp Require Export base list gmap strings sorting.
From Stdlib Require Ascii String.

(** * Python exceptions and the result monad *)

(** The exceptions that the modelled code can raise (or let propagate) on
    the paths we model.  [InvalidVersion] is [packaging.version.InvalidVersion];
    [NoSuchElementException], [UnexpectedAlertPresentException] and
    [TimeoutException] are Selenium's; [OSError] stands for its subclasses
    [FileExistsError], [NotADirectoryError] and [IsADirectoryError], which
    the code never catches. *)
Inductive py_exc : Set :=
  | KeyError
  | IndexError
  | TypeError
  | ValueError
  | InvalidVersion
  | AttributeError
  | NoSuchElementException
  | UnexpectedAlertPresentException
  | TimeoutException
  | OSError
  | ModuleNotFoundError.

#[export] Instance py_exc_eq_dec : EqDecision py_exc.
Proof. solve_decision. Defined.

(** A Python call either returns a value or raises. *)
Inductive result (A : Type) : Type :=
  | Ok (a : A)
  | Err (e : py_exc).
Arguments Ok {A} a.
Arguments Err {A} e.

Definition rbind {A B} (c : result A) (k : A -> result B) : result B :=
  match c with
  | Ok a => k a
  | Err e => Err e
  end.

Definition rmap {A B} (f : A -> B) (c : result A) : result B :=
  match c with
  | Ok a => Ok (f a)
  | Err e => Err e
  end.

Declare Scope py_scope.
Delimit Scope py_scope with py.
Notation "'let*' x ':=' c1 'in' c2" := (rbind c1 (fun x => c2))
  (at level 10, x name, c1 at level 100, c2 at level 200) : py_scope.
Open Scope py_scope.

(** [for x in l: y = f(x)] collecting the results; the first exception
    stops the loop. *)
Fixpoint mapR {A B} (f : A -> result B) (l : list A) : result (list B) :=
  match l with
  | [] => Ok []
  | x :: l' =>
      let* y := f x in
      let* ys := mapR f l' in
      Ok (y :: ys)
  end.

Lemma rbind_ok {A B} (a : A) (k : A -> result B) : rbind (Ok a) k = k a.
Proof. reflexivity. Qed.

Lemma rbind_err {A B} (e : py_exc) (k : A -> result B) : rbind (Err e) k = Err e.
Proof. reflexivity. Qed.

Lemma rbind_Ok_inv {A B} (c : result A) (k : A -> result B) (b : B) :
  rbind c k = Ok b -> exists a, c = Ok a /\ k a = Ok b.
Proof. destruct c; simpl; [eauto | discriminate]. Qed.

Lemma mapR_Ok_length {A B} (f : A -> result B) l ys :
  mapR f l = Ok ys -> length ys = length l.
Proof.
  revert ys; induction l as [|x l IH]; simpl; intros ys H.
  - by inversion H.
  - destruct (f x); simpl in H; [|discriminate].
    destruct (mapR f l) eqn:E; simpl in H; [|discriminate].
    inversion H; subst; simpl; f_equal; auto.
Qed.

Lemma mapR_ok_map {A B} (f : A -> B) (l : list A) :
  mapR (fun x => Ok (f x)) l = Ok (map f l).
Proof. induction l as [|x l IH]; simpl; [done | by rewrite IH]. Qed.

Lemma mapR_Ok_elem {A B} (f : A -> result B) l ys y :
  mapR f l = Ok ys -> y ∈ ys -> exists x, x ∈ l /\ f x = Ok y.
Proof.
  revert ys. induction l as [|x l IH]; simpl; intros ys H Hy.
  - injection H as <-. set_solver.
  - destruct (f x) as [y'|] eqn:Hfx; simpl in H; [|discriminate].
    destruct (mapR f l) as [ys'|] eqn:Hl; simpl in H; [|discriminate].
    injection H as <-. apply elem_of_cons in Hy as [->|Hy].
    + exists x. split; [apply list_elem_of_here|done].
    + destruct (IH ys' eq_refl Hy) as (x' & ? & ?). exists x'. split; [by right|done].
Qed.

Lemma mapR_Ok_elem_r {A B} (f : A -> result B) l ys x :
  mapR f l = Ok ys -> x ∈ l -> exists y, y ∈ ys /\ f x = Ok y.
Proof.
  revert ys. induction l as [|x' l IH]; simpl; intros ys H Hx; [set_solver|].
  destruct (f x') as [y'|] eqn:Hfx; simpl in H; [|discriminate].
  destruct (mapR f l) as [ys'|] eqn:Hl; simpl in H; [|discriminate].
  injection H as <-. apply elem_of_cons in Hx as [->|Hx].
  - exists y'. split; [apply list_elem_of_here|done].
  - destruct (IH ys' eq_refl Hx) as (y & ? & ?). exists y. split; [by right|done].
Qed.

(** Pairing each element with a computed key: the elements come back in
    order, each with its key. *)
Lemma mapR_keyed {A K} (f : A -> result K) l kl :
  mapR (fun x => let* k := f x in Ok (k, x)) l = Ok kl ->
  map snd kl = l /\ Forall (fun p => f p.2 = Ok p.1) kl.
Proof.
  revert kl. induction l as [|x l IH]; simpl; intros kl H.
  - by injection H as <-.
  - destruct (f x) as [k|] eqn:Hfx; simpl in H; [|discriminate].
    destruct (mapR _ l) as [kl'|] eqn:Hl; simpl in H; [|discriminate].
    injection H as <-. destruct (IH kl' eq_refl) as [<- ?]. split; [done|by constructor].
Qed.

(** When the only exception [f] raises is [e] and it raises on some
    element, the map raises [e]. *)
Lemma mapR_Err {A B} (f : A -> result B) l e :
  (forall x e', x ∈ l -> f x = Err e' -> e' = e) ->
  (exists x, x ∈ l /\ exists e', f x = Err e') -> mapR f l = Err e.
Proof.
  induction l as [|x l IH]; simpl; intros Honly (y & Hy & e' & Hfy); [set_solver|].
  destruct (f x) as [b|e''] eqn:Hfx; simpl.
  - apply elem_of_cons in Hy as [->|Hy]; [congruence|].
    rewrite IH; [done|set_solver|]. eauto.
  - f_equal. apply (Honly x); [set_solver|done].
Qed.

(** A sorted list stays sorted through a map that respects the orders on
    its elements. *)
Lemma Sorted_map_weaken {A B} (f : A -> B) (R : relation A) (S : relation B) l :
  (forall x y, x ∈ l -> y ∈ l -> R x y -> S (f x) (f y)) -> Sorted R l -> Sorted S (map f l).
Proof.
  intros HRS Hs. induction Hs as [|x l Hs IH Hhd]; simpl; constructor.
  - apply IH. intros; apply HRS; [by right|by right|done].
  - destruct Hhd as [|y l' Hxy]; simpl; constructor. apply HRS; [left|right; left|done].
Qed.

(** [acc = init; for x in l: acc = f(acc, x)], stopping at the first
    exception. *)
Fixpoint foldlR {A B} (f : B -> A -> result B) (acc : B) (l : list A) : result B :=
  match l with
  | [] => Ok acc
  | x :: l' => let* acc' := f acc x in foldlR f acc' l'
  end.

(** A property kept by every successful step is kept by the loop. *)
Lemma foldlR_invariant {A B} (P : B -> Prop) (f : B -> A -> result B) acc l r :
  (forall acc x acc', P acc -> x ∈ l -> f acc x = Ok acc' -> P acc') ->
  P acc -> foldlR f acc l = Ok r -> P r.
Proof.
  revert acc. induction l as [|x l IH]; simpl; intros acc Hstep Hacc H.
  - by injection H as <-.
  - destruct (f acc x) as [acc'|] eqn:E; simpl in H; [|discriminate].
    apply (IH acc'); [| |done].
    + intros a y a' Ha Hy Hf. eapply Hstep; [exact Ha| |exact Hf].
      by apply list_elem_of_further.
    + eapply Hstep; [exact Hacc|apply list_elem_of_here|exact E].
Qed.

(** A loop whose steps raise only [e] raises only [e]. *)
Lemma foldlR_err_only {A B} (f : B -> A -> result B) acc l e e' :
  (forall acc x e'', f acc x = Err e'' -> e'' = e') -> foldlR f acc l = Err e -> e = e'.
Proof.
  revert acc. induction l as [|x l IH]; simpl; intros acc Hf H; [discriminate|].
  destruct (f acc x) as [acc'|e''] eqn:E; simpl in H; [by eapply IH|].
  injection H as <-. by eapply Hf.
Qed.

(** A loop whose steps never raise [e] does not raise [e]. *)
Lemma foldlR_no_err {A B} (f : B -> A -> result B) acc l e :
  (forall acc x, x ∈ l -> f acc x <> Err e) -> foldlR f acc l <> Err e.
Proof.
  revert acc. induction l as [|x l IH]; simpl; intros acc Hstep; [done|].
  destruct (f acc x) as [acc'|e'] eqn:E; simpl.
  - apply IH. intros. apply Hstep. by apply list_elem_of_further.
  - intros [= ->]. by apply (Hstep acc x); [apply list_elem_of_here|].
Qed.

Create HintDb py discriminated.
Create Rewrite HintDb py_rw.
#[export] Hint Rewrite @rbind_ok @rbind_err @mapR_ok_map : py_rw.

(** [destruct] the first [rbind] scrutinee of the goal that is stuck. *)
Ltac case_rbind :=
  match goal with
  | |- context [rbind ?c _] =>
      lazymatch c with
      | Ok _ => fail
      | Err _ => fail
      | _ => let E := fresh "E" in destruct c eqn:E
      end
  end.

Ltac py_simpl := repeat (autorewrite with py_rw in *; simpl in *).

(** Case analysis on membership in a literal list: one goal per element. *)
Ltac list_members H :=
  rewrite ?elem_of_cons, ?elem_of_nil in H; repeat destruct H as [->|H]; try contradiction.

(** * Lists *)

(** [l.remove(x)]: drop the first occurrence, [ValueError] if there is
    none. *)
Fixpoint list_remove {A} `{EqDecision A} (x : A) (l : list A) : result (list A) :=
  match l with
  | [] => Err ValueError
  | y :: l' => if decide (x = y) then Ok l' else rmap (cons y) (list_remove x l')
  end.

Lemma list_remove_nodup {A} `{EqDecision A} (x : A) l :
  x ∈ l -> NoDup l -> exists l', list_remove x l = Ok l' /\ (forall y, y ∈ l' <-> y ∈ l /\ y <> x).
Proof.
  induction l as [|y l IH]; simpl; [set_solver|]. intros Hx Hnd.
  apply NoDup_cons in Hnd as [Hy Hnd].
  case_decide as Hxy.
  - subst. exists l. split; [done|]. set_solver.
  - destruct IH as (l' & -> & Hl'); [set_solver|done|]. exists (y :: l'). split; [done|].
    intros z. rewrite !elem_of_cons, Hl'. set_solver.
Qed.

(** * Stable sorting, as Python's [sorted] *)

(** Python's [sorted] is stable.  [sort_stable le] is insertion sort that
    puts an element before every later element it is [le]-below, so that
    elements with equal keys keep their input order. *)
Section stable_sort.
Context {A : Type} (le : A -> A -> bool).

Fixpoint insert_stable (x : A) (l : list A) : list A :=
  match l with
  | [] => [x]
  | y :: l' => if le x y then x :: l else y :: insert_stable x l'
  end.

Fixpoint sort_stable (l : list A) : list A :=
  match l with
  | [] => []
  | x :: l' => insert_stable x (sort_stable l')
  end.

Lemma insert_stable_perm x l : insert_stable x l ≡ₚ x :: l.
Proof.
  induction l as [|y l IH]; simpl; [done|].
  destruct (le x y); [done|]. rewrite IH. constructor.
Qed.

Lemma sort_stable_perm l : sort_stable l ≡ₚ l.
Proof.
  induction l as [|x l IH]; simpl; [done|].
  by rewrite insert_stable_perm, IH.
Qed.

Lemma sort_stable_length l : length (sort_stable l) = length l.
Proof. apply Permutation_length, sort_stable_perm. Qed.

Hypothesis le_total : forall x y, le x y = false -> le y x = true.
Hypothesis le_trans : forall x y z, le x y = true -> le y z = true -> le x z = true.

Lemma insert_stable_sorted x l :
  Sorted (fun a b => le a b = true) l ->
  Sorted (fun a b => le a b = true) (insert_stable x l).
Proof.
  induction 1 as [|y l Hs IH Hhd]; simpl; [by repeat constructor|].
  destruct (le x y) eqn:Exy; [by repeat constructor|].
  constructor; [done|].
  destruct l as [|z l]; simpl in *; [constructor; auto|].
  inversion Hhd; subst. destruct (le x z); constructor; auto.
Qed.

Lemma sort_stable_sorted l : Sorted (fun a b => le a b = true) (sort_stable l).
Proof. induction l; simpl; [constructor | by apply insert_stable_sorted]. Qed.

(** Stability: the elements equivalent to [k] (each [le] the other)
    appear in the output in their input order. *)
Definition equiv_to (k x : A) : bool := le k x && le x k.

Lemma insert_stable_filter k x l :
  filter (fun y => equiv_to k y = true) (insert_stable x l)
  = filter (fun y => equiv_to k y = true) (x :: l).
Proof.
  induction l as [|y l IH]; simpl; [done|].
  destruct (le x y) eqn:Exy; [done|].
  rewrite !filter_cons, IH, filter_cons.
  unfold equiv_to.
  destruct (le k x) eqn:Ekx, (le x k) eqn:Exk, (le k y) eqn:Eky, (le y k) eqn:Eyk;
    simpl; try done.
  exfalso. assert (le x y = true) by eauto. congruence.
Qed.

Lemma sort_stable_filter k l :
  filter (fun y => equiv_to k y = true) (sort_stable l)
  = filter (fun y => equiv_to k y = true) l.
Proof.
  induction l as [|x l IH]; simpl; [done|].
  by rewrite insert_stable_filter, !filter_cons, IH.
Qed.
End stable_sort.

(** [sorted(xs, key=key)] for a key order given by [kle]. *)
Definition sort_by {A K} (key : A -> K) (kle : K -> K -> bool) (l : list A) : list A :=
  sort_stable (fun a b => kle (key a) (key b)) l.

Lemma sort_by_perm {A K} (key : A -> K) kle (l : list A) : sort_by key kle l ≡ₚ l.
Proof. apply sort_stable_perm. Qed.

Lemma sort_by_sorted {A K} (key : A -> K) kle (l : list A) :
  (forall x y, kle x y = false -> kle y x = true) ->
  Sorted (fun a b => kle (key a) (key b) = true) (sort_by key kle l).
Proof. intros Htot. apply sort_stable_sorted. intros ??. apply Htot. Qed.

(** * Python [str] ordering: code-point lexicographic order *)

Definition str_leb (s t : string) : bool :=
  match String.compare s t with Gt => false | _ => true end.

Definition str_ltb (s t : string) : bool :=
  match String.compare s t with Lt => true | _ => false end.

Lemma ascii_compare_lt_trans (a b c : Ascii.ascii) :
  Ascii.compare a b = Lt -> Ascii.compare b c = Lt -> Ascii.compare a c = Lt.
Proof. unfold Ascii.compare. rewrite !N.compare_lt_iff. lia. Qed.

Lemma str_compare_not_gt_trans (s t u : string) :
  String.compare s t <> Gt -> String.compare t u <> Gt -> String.compare s u <> Gt.
Proof.
  revert t u. induction s as [|a s IH]; intros [|b t] [|c u]; simpl; try done.
  destruct (Ascii.compare a b) eqn:Eab, (Ascii.compare b c) eqn:Ebc; try done;
    repeat match goal with
    | H : Ascii.compare _ _ = Eq |- _ => apply Ascii.compare_eq_iff in H; subst
    end;
    rewrite ?Eab, ?Ebc; try done.
  - unfold Ascii.compare at 1. rewrite N.compare_refl. eauto.
  - by rewrite (ascii_compare_lt_trans _ _ _ Eab Ebc).
Qed.

Lemma str_leb_trans s t u : str_leb s t = true -> str_leb t u = true -> str_leb s u = true.
Proof.
  unfold str_leb. intros H1 H2.
  pose proof (str_compare_not_gt_trans s t u) as H.
  destruct (String.compare s t), (String.compare t u), (String.compare s u); naive_solver.
Qed.

Lemma str_leb_total s t : str_leb s t = false -> str_leb t s = true.
Proof.
  unfold str_leb. rewrite (String.compare_antisym t s).
  by destruct (String.compare s t).
Qed.

Lemma str_leb_antisym s t : str_leb s t = true -> str_leb t s = true -> s = t.
Proof.
  unfold str_leb. rewrite (String.compare_antisym t s).
  destruct (String.compare s t) eqn:E; simpl; try done.
  intros _ _. by apply String.compare_eq_iff.
Qed.

(** * [max(l)] *)

(** Python's [max]: the first element not exceeded by a later one;
    [ValueError] on an empty list. *)
Section py_max.
Context {A : Type} (le : A -> A -> bool).

Fixpoint max_from (cur : A) (l : list A) : A :=
  match l with
  | [] => cur
  | x :: l' => max_from (if negb (le x cur) then x else cur) l'
  end.

Definition py_max (l : list A) : result A :=
  match l with
  | [] => Err ValueError
  | x :: l' => Ok (max_from x l')
  end.

Hypothesis le_total : forall x y, le x y = false -> le y x = true.
Hypothesis le_trans : forall x y z, le x y = true -> le y z = true -> le x z = true.

Lemma max_from_spec cur l :
  max_from cur l ∈ cur :: l /\ le cur (max_from cur l) = true /\
  Forall (fun y => le y (max_from cur l) = true) l.
Proof.
  revert cur. induction l as [|x l IH]; intros cur; simpl.
  - split; [apply list_elem_of_here|]. split; [|constructor].
    destruct (le cur cur) eqn:E; [done|]. pose proof (le_total _ _ E). congruence.
  - destruct (le x cur) eqn:Exc; simpl.
    + destruct (IH cur) as (Hin & Hle & Hall). split; [set_solver|].
      split; [done|]. constructor; eauto.
    + destruct (IH x) as (Hin & Hle & Hall). split; [set_solver|].
      split; [apply le_trans with x; [by apply le_total|done]|].
      constructor; eauto.
Qed.

Lemma py_max_spec l m :
  py_max l = Ok m -> m ∈ l /\ Forall (fun y => le y m = true) l.
Proof.
  destruct l as [|x l]; simpl; [discriminate|]. intros [= <-].
  destruct (max_from_spec x l) as (? & ? & ?). split; [done|]. by constructor.
Qed.
End py_max.

(** * Insertion-ordered dictionaries *)

(** A Python [dict] with its insertion order: an association list whose
    keys are distinct.  [d[k] = v] replaces the value in place when [k] is
    present and appends otherwise. *)
Section dict.
Context {K V : Type} `{EqDecision K}.

Fixpoint dict_set (k : K) (v : V) (d : list (K * V)) : list (K * V) :=
  match d with
  | [] => [(k, v)]
  | (k', v') :: d' =>
      if decide (k = k') then (k, v) :: d' else (k', v') :: dict_set k v d'
  end.

Fixpoint dict_get (k : K) (d : list (K * V)) : option V :=
  match d with
  | [] => None
  | (k', v') :: d' => if decide (k = k') then Some v' else dict_get k d'
  end.

Lemma dict_get_set_eq k v d : dict_get k (dict_set k v d) = Some v.
Proof.
  induction d as [|[k' v'] d IH]; simpl; [by rewrite decide_True|].
  case_decide; simpl; [by rewrite decide_True|]. by rewrite decide_False.
Qed.

(** Setting a key to the value it already has changes nothing. *)
Lemma dict_set_same k v d : dict_get k d = Some v -> dict_set k v d = d.
Proof.
  induction d as [|[k' v'] d IH]; simpl; [discriminate|].
  case_decide as Hk; [subst; by intros [= ->]|]. intros Hg. by rewrite IH.
Qed.

Lemma dict_get_set_ne k k2 v d :
  k2 <> k -> dict_get k2 (dict_set k v d) = dict_get k2 d.
Proof.
  intros Hne. induction d as [|[k' v'] d IH]; simpl; [by rewrite decide_False|].
  case_decide; subst; simpl.
  - by rewrite !decide_False.
  - by case_decide; [|rewrite IH].
Qed.

Lemma dict_set_keys k v d :
  map fst (dict_set k v d) =
    if decide (k ∈ map fst d) then map fst d else map fst d ++ [k].
Proof.
  induction d as [|[k' v'] d IH]; simpl; [done|].
  destruct (decide (k = k')) as [->|Hk]; simpl.
  - rewrite decide_True; [done|]. apply list_elem_of_here.
  - rewrite IH. do 2 case_decide; simpl; try done; set_solver.
Qed.

Lemma dict_set_nodup k v d :
  NoDup (map fst d) -> NoDup (map fst (dict_set k v d)).
Proof.
  intros Hd. rewrite dict_set_keys. case_decide; [done|].
  apply NoDup_app; split; [done|split; [|apply NoDup_singleton]].
  intros x Hx ->%list_elem_of_singleton. done.
Qed.

Lemma dict_get_Some_in k v d : dict_get k d = Some v -> (k, v) ∈ d.
Proof.
  induction d as [|[k' v'] d IH]; simpl; [discriminate|].
  case_decide; [intros [= <-]; subst; left|intros; right; auto].
Qed.
Lemma dict_set_fresh k v d : k ∉ map fst d -> dict_set k v d = d ++ [(k, v)].
Proof.
  induction d as [|[k' v'] d IH]; simpl; [done|]. intros Hk.
  rewrite decide_False by set_solver. f_equal. apply IH. set_solver.
Qed.

Lemma dict_set_elem_of k v d kv : kv ∈ dict_set k v d -> kv = (k, v) \/ kv ∈ d.
Proof.
  induction d as [|[k' v'] d IH]; simpl; [set_solver|].
  case_decide; [set_solver|]. rewrite elem_of_cons.
  intros [->|Hin]; [set_solver|]. destruct (IH Hin); set_solver.
Qed.

Lemma dict_get_app k d1 d2 :
  dict_get k (d1 ++ d2) = match dict_get k d1 with Some v => Some v | None => dict_get k d2 end.
Proof. induction d1 as [|[k' v'] d1 IH]; simpl; [done|]. by case_decide. Qed.

(** Deleting every entry of a key. *)
Lemma dict_get_filter_key k k2 d :
  dict_get k2 (filter (fun e => e.1 <> k) d) = if decide (k2 = k) then None else dict_get k2 d.
Proof.
  induction d as [|[k' v'] d IH]; [simpl; by case_decide|].
  rewrite filter_cons. simpl fst. destruct (decide (k' = k)) as [->|Hk'].
  - rewrite decide_False by tauto. rewrite IH. cbn [dict_get]. by repeat case_decide; subst.
  - rewrite decide_True by done. cbn [dict_get]. rewrite IH. by repeat case_decide; subst.
Qed.

Lemma dict_get_Some_key k v d : dict_get k d = Some v -> k ∈ map fst d.
Proof. intros H. apply dict_get_Some_in in H. apply list_elem_of_fmap. by exists (k, v). Qed.

End dict.

#[export] Hint Resolve dict_set_nodup : py.
#[export] Hint Rewrite @dict_get_set_eq : py_rw.
