(* ===== verification/PyStr.v ===== *)
(** Python [str] built-ins that lbrc_selenium relies on, on strings whose
    code points are 0..255 (Latin-1): [str.isspace], [str.split()] without
    arguments, [sep.join], [str.strip()], [str.replace], [str.startswith],
    slicing, [str(int)] and [repr] of a string.  These are library semantics,
    not code of the repository; the files that model the repository use them
    where the source calls them.  The lemmas are the canonical-form and round
    trip facts about [split] and [join] that the text normalisation needs. *)

From S2P Require Import Prelude.
From Stdlib Require Import Ascii DecimalString.

Module PyStr.

(** ** Characters *)

(** [c.isspace()] for a Latin-1 code point: TAB..CR, the four information
    separators 0x1C..0x1F, SPACE, NEL (0x85) and NO-BREAK SPACE (0xA0). *)
Definition is_space (c : ascii) : bool :=
  let n := nat_of_ascii c in
  ((9 <=? n) && (n <=? 13)) || ((28 <=? n) && (n <=? 32)) || (n =? 133) || (n =? 160).

Definition space : ascii := ascii_of_nat 32.
Definition newline : ascii := ascii_of_nat 10.

Fixpoint str_forallb (f : ascii -> bool) (s : string) : bool :=
  match s with
  | EmptyString => true
  | String c s' => f c && str_forallb f s'
  end.

Fixpoint str_existsb (f : ascii -> bool) (s : string) : bool :=
  match s with
  | EmptyString => false
  | String c s' => f c || str_existsb f s'
  end.

(** A word of [str.split()]: non-empty and without whitespace. *)
Definition word (w : string) : Prop :=
  w <> EmptyString /\ str_forallb (fun c => negb (is_space c)) w = true.

(** ** [str.split()], [sep.join(words)], [str.strip()] *)

(** [split_from cur s]: the words of [cur ++ s], where [cur] is the part
    of the current word already read. *)
Fixpoint split_from (cur : string) (s : string) : list string :=
  match s with
  | EmptyString => if String.eqb cur EmptyString then [] else [cur]
  | String c s' =>
      if is_space c
      then (if String.eqb cur EmptyString then split_from EmptyString s'
            else cur :: split_from EmptyString s')
      else split_from (cur +:+ String c EmptyString) s'
  end.

(** [s.split()] *)
Definition split (s : string) : list string := split_from EmptyString s.

(** [sep.join(l)] *)
Fixpoint join (sep : string) (l : list string) : string :=
  match l with
  | [] => EmptyString
  | [w] => w
  | w :: l' => w +:+ sep +:+ join sep l'
  end.

Fixpoint lstrip (s : string) : string :=
  match s with
  | EmptyString => EmptyString
  | String c s' => if is_space c then lstrip s' else s
  end.

Fixpoint rstrip (s : string) : string :=
  match s with
  | EmptyString => EmptyString
  | String c s' =>
      let r := rstrip s' in
      if is_space c && String.eqb r EmptyString then EmptyString else String c r
  end.

(** [s.strip()] *)
Definition strip (s : string) : string := rstrip (lstrip s).

(** ** [str.replace], [str.startswith], slicing *)

(** [s.replace(old, new)] for a non-empty [old]: left to right,
    non-overlapping; [skip] counts the characters of a replaced
    occurrence still to be dropped. *)
Fixpoint replace_go (old new : string) (skip : nat) (s : string) : string :=
  match s with
  | EmptyString => EmptyString
  | String c s' =>
      match skip with
      | S k => replace_go old new k s'
      | 0 =>
          if String.prefix old s
          then new +:+ replace_go old new (String.length old - 1) s'
          else String c (replace_go old new 0 s')
      end
  end.

Definition replace (old new s : string) : string := replace_go old new 0 s.

(** [s.split(sep)] for a one-character separator: empty pieces are kept. *)
Fixpoint split_sep_from (sep : ascii) (cur : string) (s : string) : list string :=
  match s with
  | EmptyString => [cur]
  | String c s' =>
      if (c =? sep)%char then cur :: split_sep_from sep EmptyString s'
      else split_sep_from sep (cur +:+ String c EmptyString) s'
  end.

Definition split_sep (sep : ascii) (s : string) : list string :=
  split_sep_from sep EmptyString s.

(** [s.startswith(p)] *)
Definition startswith (s p : string) : bool := String.prefix p s.

(** [s[n:]] *)
Fixpoint drop (n : nat) (s : string) : string :=
  match n, s with
  | 0, _ => s
  | S _, EmptyString => EmptyString
  | S n', String _ s' => drop n' s'
  end.

(** ** [str(n)] and [repr(s)] *)

(** [str(n)] for a non-negative [int]: its decimal digits. *)
Definition str_nat (n : nat) : string :=
  NilEmpty.string_of_uint (Nat.to_uint n).

Definition hex_digit (n : nat) : ascii :=
  ascii_of_nat (if n <? 10 then 48 + n else 87 + n).

(** [c.isprintable()] for a Latin-1 code point. *)
Definition printable (c : ascii) : bool :=
  let n := nat_of_ascii c in
  negb ((n <? 32) || (n =? 127) || ((128 <=? n) && (n <=? 160)) || (n =? 173)).

Definition backslash : ascii := ascii_of_nat 92.
Definition squote : ascii := ascii_of_nat 39.
Definition dquote : ascii := ascii_of_nat 34.

(** The escape of one character inside a [repr] quoted with [q]. *)
Definition escape_char (q c : ascii) : string :=
  let n := nat_of_ascii c in
  if (c =? q)%char || (c =? backslash)%char then String backslash (String c EmptyString)
  else if n =? 9 then String backslash "t"
  else if n =? 10 then String backslash "n"
  else if n =? 13 then String backslash "r"
  else if printable c then String c EmptyString
  else String backslash (String "x" (String (hex_digit (n / 16))
                                        (String (hex_digit (n mod 16)) EmptyString))).

Fixpoint escape (q : ascii) (s : string) : string :=
  match s with
  | EmptyString => EmptyString
  | String c s' => escape_char q c +:+ escape q s'
  end.

(** [repr(s)]: single quotes unless the text has a single quote and no
    double quote. *)
Definition repr (s : string) : string :=
  let q := if str_existsb (fun c => (c =? squote)%char) s
               && negb (str_existsb (fun c => (c =? dquote)%char) s)
           then dquote else squote in
  String q (escape q s +:+ String q EmptyString).

(** ** Lemmas *)

(** stdpp makes [String.append] [simpl never]; these are its equations. *)
Lemma app_nil_l (s : string) : EmptyString +:+ s = s.
Proof. reflexivity. Qed.

Lemma app_cons c (s1 s2 : string) : String c s1 +:+ s2 = String c (s1 +:+ s2).
Proof. reflexivity. Qed.

Lemma app_nil_r (s : string) : s +:+ EmptyString = s.
Proof. induction s as [|c s IH]; [done|]. by rewrite app_cons, IH. Qed.

Lemma app_assoc (s1 s2 s3 : string) : s1 +:+ s2 +:+ s3 = (s1 +:+ s2) +:+ s3.
Proof. induction s1 as [|c s1 IH]; [done|]. by rewrite !app_cons, IH. Qed.

Lemma str_forallb_app f (s1 s2 : string) :
  str_forallb f (s1 +:+ s2) = str_forallb f s1 && str_forallb f s2.
Proof.
  induction s1 as [|c s1 IH]; [done|]. rewrite app_cons. simpl.
  rewrite IH. apply andb_assoc.
Qed.

#[export] Hint Rewrite app_nil_l app_cons app_nil_r str_forallb_app : py_rw.

Lemma split_from_word cur w s :
  str_forallb (fun c => negb (is_space c)) w = true ->
  split_from cur (w +:+ s) = split_from (cur +:+ w) s.
Proof.
  revert cur. induction w as [|c w IH]; intros cur Hw.
  - by rewrite app_nil_l, app_nil_r.
  - simpl in Hw. apply andb_prop in Hw as [Hc Hw]. apply negb_true_iff in Hc.
    rewrite app_cons. simpl. rewrite Hc, IH by done. by rewrite <- app_assoc.
Qed.

Lemma split_from_space cur c s :
  is_space c = true ->
  split_from cur (String c s) =
    (if String.eqb cur EmptyString then [] else [cur]) ++ split_from EmptyString s.
Proof. intros Hc. simpl. rewrite Hc. by destruct (String.eqb cur EmptyString). Qed.

Lemma word_eqb_false w : word w -> String.eqb w EmptyString = false.
Proof. intros [Hw _]. by apply String.eqb_neq. Qed.

(** Splitting words joined by single spaces gives the words back. *)
Lemma split_join (ws : list string) :
  Forall word ws -> split (join " " ws) = ws.
Proof.
  unfold split. induction 1 as [|w ws Hw Hws IH]; [done|].
  destruct ws as [|w' ws].
  - simpl. pose proof Hw as [_ Hf].
    rewrite <- (app_nil_r w) at 1. rewrite split_from_word by done.
    simpl. by rewrite word_eqb_false.
  - change (join " " (w :: w' :: ws)) with (w +:+ " " +:+ join " " (w' :: ws)).
    pose proof Hw as [_ Hf].
    rewrite split_from_word by done. rewrite app_nil_l, app_cons, app_nil_l.
    rewrite split_from_space by reflexivity.
    rewrite word_eqb_false by done. by rewrite IH.
Qed.

Lemma split_from_words cur s :
  (cur = EmptyString \/ word cur) -> Forall word (split_from cur s).
Proof.
  revert cur. induction s as [|c s IH]; intros cur Hcur; simpl.
  - destruct (String.eqb_spec cur EmptyString); [done|].
    destruct Hcur; [done|]. constructor; [done|constructor].
  - destruct (is_space c) eqn:Hc.
    + destruct (String.eqb_spec cur EmptyString); [by apply IH; left|].
      destruct Hcur as [|Hw]; [done|]. constructor; [done|]. by apply IH; left.
    + apply IH. right. split.
      * destruct cur; rewrite ?app_nil_l, ?app_cons; discriminate.
      * destruct Hcur as [->|[_ Hw]]; simpl; [by rewrite Hc|].
        rewrite str_forallb_app, Hw. simpl. by rewrite Hc.
Qed.

Lemma split_sep_from_piece sep cur w s :
  str_forallb (fun c => negb (c =? sep)%char) w = true ->
  split_sep_from sep cur (w +:+ s) = split_sep_from sep (cur +:+ w) s.
Proof.
  revert cur. induction w as [|c w IH]; intros cur Hw.
  - by rewrite app_nil_l, app_nil_r.
  - simpl in Hw. apply andb_prop in Hw as [Hc Hw]. apply negb_true_iff in Hc.
    rewrite app_cons. simpl. rewrite Hc, IH by done. by rewrite <- app_assoc.
Qed.

(** Splitting at [sep] pieces joined with [sep] gives the pieces back. *)
Lemma split_sep_join sep (ws : list string) :
  ws <> [] -> Forall (fun w => str_forallb (fun c => negb (c =? sep)%char) w = true) ws ->
  split_sep sep (join (String sep EmptyString) ws) = ws.
Proof.
  unfold split_sep. intros Hne Hall. induction Hall as [|w ws Hw Hws IH]; [done|].
  destruct ws as [|w' ws].
  - simpl. rewrite <- (app_nil_r w) at 1. rewrite split_sep_from_piece by done.
    by rewrite app_nil_l.
  - change (join _ (w :: w' :: ws))
      with (w +:+ String sep EmptyString +:+ join (String sep EmptyString) (w' :: ws)).
    rewrite split_sep_from_piece, app_nil_l, app_cons, app_nil_l by done.
    simpl. rewrite Ascii.eqb_refl. f_equal. by apply IH.
Qed.

Lemma join_forallb f sep ws :
  str_forallb f sep = true -> Forall (fun w => str_forallb f w = true) ws ->
  str_forallb f (join sep ws) = true.
Proof.
  intros Hsep. induction 1 as [|w ws Hw Hws IH]; [done|].
  destruct ws as [|w' ws]; [done|].
  change (join sep (w :: w' :: ws)) with (w +:+ sep +:+ join sep (w' :: ws)).
  by rewrite !str_forallb_app, Hw, Hsep, IH.
Qed.

Lemma lstrip_id s :
  match s with EmptyString => True | String c _ => is_space c = false end ->
  lstrip s = s.
Proof. destruct s as [|c s]; simpl; [done|]. by intros ->. Qed.

Lemma rstrip_no_space s :
  str_forallb (fun c => negb (is_space c)) s = true -> rstrip s = s.
Proof.
  induction s as [|c s IH]; simpl; [done|].
  intros [Hc Hs]%andb_prop. apply negb_true_iff in Hc. by rewrite IH, Hc.
Qed.

(** [s.strip()] leaves a string without whitespace unchanged. *)
Lemma strip_no_space s :
  str_forallb (fun c => negb (is_space c)) s = true -> strip s = s.
Proof.
  intros Hs. unfold strip. rewrite lstrip_id; [by apply rstrip_no_space|].
  destruct s as [|c s]; simpl in *; [done|].
  apply andb_prop in Hs as [Hc _]. by apply negb_true_iff.
Qed.


Lemma rstrip_app a b :
  rstrip b <> EmptyString -> rstrip (a +:+ b) = a +:+ rstrip b.
Proof.
  intros Hb. induction a as [|c a IH]; [done|].
  rewrite !app_cons. simpl. rewrite IH.
  destruct (a +:+ rstrip b) eqn:E; [|by rewrite andb_false_r].
  exfalso. destruct a; [done|discriminate].
Qed.

Lemma join_word_cons_first w ws :
  word w -> exists c r, join " " (w :: ws) = String c r /\ is_space c = false.
Proof.
  intros [Hne Hw]. destruct w as [|c w']; [done|]. simpl in Hw.
  apply andb_prop in Hw as [Hc _]. apply negb_true_iff in Hc.
  destruct ws; [by eauto|]. simpl. rewrite app_cons. eauto.
Qed.

Lemma rstrip_join ws : Forall word ws -> rstrip (join " " ws) = join " " ws.
Proof.
  induction 1 as [|w ws Hw Hws IH]; [done|].
  destruct ws as [|w' ws].
  - apply rstrip_no_space, Hw.
  - inversion Hws as [|? ? Hw' _]; subst.
    change (join " " (w :: w' :: ws)) with (w +:+ " " +:+ join " " (w' :: ws)).
    destruct (join_word_cons_first w' ws Hw') as (c & r & Hj & Hc).
    assert (rstrip (join " " (w' :: ws)) <> EmptyString) as Hne by (rewrite IH, Hj; done).
    rewrite rstrip_app.
    + f_equal. rewrite rstrip_app by done. by rewrite IH.
    + rewrite rstrip_app by done. rewrite IH, Hj. discriminate.
Qed.

(** Words joined by single spaces have no surrounding whitespace:
    [strip] leaves them unchanged. *)
Lemma strip_join ws : Forall word ws -> strip (join " " ws) = join " " ws.
Proof.
  intros Hws. unfold strip. destruct ws as [|w ws]; [done|].
  inversion Hws as [|? ? Hw _]; subst.
  destruct (join_word_cons_first w ws Hw) as (c & r & Hj & Hc).
  rewrite lstrip_id; [by apply rstrip_join|]. by rewrite Hj.
Qed.


(** A string that starts with [p] is [p] followed by the rest. *)
Lemma startswith_drop s p : startswith s p = true -> p +:+ drop (String.length p) s = s.
Proof.
  unfold startswith. revert s. induction p as [|c p IH]; intros [|d s]; simpl; try done.
  destruct (Ascii.ascii_dec c d) as [->|]; [|done].
  intros H. rewrite app_cons. f_equal. by apply IH.
Qed.

(** Every piece of [s.split()] is a word. *)
Lemma split_words s : Forall word (split s).
Proof. apply split_from_words. by left. Qed.

#[export] Hint Resolve split_words : py.

End PyStr.
