(* ===== verification/Values.v ===== *)
(** The values that flow through the scrapers' dictionaries: Python [None],
    a [str], or a [Link] (the frozen dataclass of [selenium.py]), with
    [str(v)] and truthiness as Python defines them. *)

From S2P Require Import Prelude PyStr.
From Stdlib Require Import Ascii.

Module Values.

(** [@dataclass(frozen=True, eq=True) class Link: href: str; name: str].
    The fields hold whatever [Scrubber.cleanse] returned, which is [None]
    for an empty string, so each field is an optional string. *)
Record Link := mkLink { href : option string; name : option string }.

#[export] Instance Link_eq_dec : EqDecision Link.
Proof. solve_decision. Defined.

(** The dataclass's annotations [href: str] and [name: str]: both fields
    hold a string. *)
Definition link_well_typed (l : Link) : bool :=
  bool_decide (is_Some (href l)) && bool_decide (is_Some (name l)).

(** A value of a scraped field. *)
Inductive pyval :=
  | VNone
  | VStr (s : string)
  | VLink (l : Link).

#[export] Instance pyval_eq_dec : EqDecision pyval.
Proof. solve_decision. Defined.

(** [bool(v)]: [None] and [''] are false; a [Link] defines neither
    [__bool__] nor [__len__], so it is always true. *)
Definition truthy (v : pyval) : bool :=
  match v with
  | VNone => false
  | VStr s => negb (String.eqb s EmptyString)
  | VLink _ => true
  end.

(** [repr] of an optional string field. *)
Definition repr_opt (o : option string) : string :=
  match o with
  | None => "None"
  | Some s => PyStr.repr s
  end.

(** [str(v)]; for a [Link] this is the dataclass [__repr__]. *)
Definition py_str (v : pyval) : string :=
  match v with
  | VNone => "None"
  | VStr s => s
  | VLink l => "Link(href=" +:+ repr_opt (href l) +:+ ", name=" +:+ repr_opt (name l) +:+ ")"
  end.

End Values.
