(* ===== verification/Version.v ===== *)
(** Versions as [packaging.version] parses, compares and prints them,
    restricted to plain release versions ["N(.N)*"] with optional
    surrounding whitespace and a leading ["v"].  [packaging] is a library the
    sources only call ([version.parse] in [VersionTranslator] and in
    [SeleniumHelper.get_*version_item]); this file models the part of it the
    development needs, from the spec (section 6: dotted numeric versions,
    compared component-wise).  Pre-, post-, dev-, local and epoch segments
    are outside the modelled subset: the model rejects them. *)

From S2P Require Import Prelude PyStr.
From Stdlib Require Import Ascii DecimalString DecimalNat.

Module Version.

(** A parsed version: its release segment as parsed (printing keeps its
    trailing zeros). *)
Record version := mkVersion { release : list nat }.

#[export] Instance version_eq_dec : EqDecision version.
Proof. solve_decision. Defined.

Definition is_digit (c : ascii) : bool :=
  let n := nat_of_ascii c in (48 <=? n) && (n <=? 57).

(** The value of a run of ASCII digits, read left to right into [acc]. *)
Fixpoint digits_value (acc : nat) (s : string) : option nat :=
  match s with
  | EmptyString => Some acc
  | String c s' =>
      if is_digit c then digits_value (10 * acc + (nat_of_ascii c - 48)) s' else None
  end.

(** [int(s)] for the regex group [[0-9]+]. *)
Definition parse_number (s : string) : option nat :=
  if String.eqb s EmptyString then None else digits_value 0 s.

(** Drop one leading ["v"] or ["V"]. *)
Definition drop_v (s : string) : string :=
  match s with
  | String c r => if (c =? "v")%char || (c =? "V")%char then r else s
  | EmptyString => EmptyString
  end.

(** [version.parse(s)]: [InvalidVersion] unless [s] is, after stripping
    whitespace and a leading ["v"], dot-separated digit runs. *)
Definition parse (s : string) : result version :=
  match mapM parse_number (PyStr.split_sep "." (drop_v (PyStr.strip s))) with
  | Some rel => Ok (mkVersion rel)
  | None => Err InvalidVersion
  end.

(** [str(v)]: the release numbers joined by dots. *)
Definition to_string (v : version) : string :=
  PyStr.join "." (map PyStr.str_nat (release v)).

(** [Version._key]: trailing zeros of the release do not count, so
    [1.0 == 1] and both hash alike. *)
Fixpoint trim_zeros (l : list nat) : list nat :=
  match l with
  | [] => []
  | x :: l' =>
      let t := trim_zeros l' in
      if (x =? 0) && bool_decide (t = []) then [] else x :: t
  end.

Definition key (v : version) : list nat := trim_zeros (release v).

(** Tuple comparison [a <= b] on release keys. *)
Fixpoint lex_leb (a b : list nat) : bool :=
  match a, b with
  | [], _ => true
  | _ :: _, [] => false
  | x :: a', y :: b' => (x <? y) || ((x =? y) && lex_leb a' b')
  end.

(** [v <= w] and [v < w] on versions. *)
Definition leb (v w : version) : bool := lex_leb (key v) (key w).
Definition ltb (v w : version) : bool := negb (leb w v).

(** ** The order *)

Lemma lex_leb_refl a : lex_leb a a = true.
Proof. induction a; simpl; [done|]. rewrite Nat.eqb_refl, IHa. apply orb_true_r. Qed.

Lemma lex_leb_trans a b c :
  lex_leb a b = true -> lex_leb b c = true -> lex_leb a c = true.
Proof.
  revert b c. induction a as [|x a IH]; intros [|y b] [|z c]; simpl; try done.
  rewrite !orb_true_iff, !andb_true_iff, !Nat.ltb_lt, !Nat.eqb_eq.
  intros [?|[-> Hab]] [?|[-> Hbc]]; [left; lia|left; lia|left; lia|eauto].
Qed.

Lemma lex_leb_total a b : lex_leb a b = false -> lex_leb b a = true.
Proof.
  revert b. induction a as [|x a IH]; intros [|y b]; simpl; try done.
  rewrite orb_false_iff, andb_false_iff, Nat.ltb_ge, Nat.eqb_neq, orb_true_iff,
    andb_true_iff, Nat.ltb_lt, Nat.eqb_eq.
  intros [Hge [Hne|Hab]]; [left; lia|].
  destruct (decide (x = y)) as [->|]; [right; auto|left; lia].
Qed.

Lemma lex_leb_antisym a b : lex_leb a b = true -> lex_leb b a = true -> a = b.
Proof.
  revert b. induction a as [|x a IH]; intros [|y b]; simpl; try done.
  rewrite !orb_true_iff, !andb_true_iff, !Nat.ltb_lt, !Nat.eqb_eq.
  intros [?|[-> Hab]] [?|[? Hba]]; try lia. f_equal. auto.
Qed.

#[export] Hint Resolve lex_leb_refl lex_leb_trans lex_leb_total lex_leb_antisym : py.

Lemma trim_zeros_idem l : trim_zeros (trim_zeros l) = trim_zeros l.
Proof.
  induction l as [|x l IH]; simpl; [done|].
  destruct (x =? 0) eqn:Hx, (bool_decide (trim_zeros l = [])) eqn:Ht; simpl;
    try done; rewrite IH, Hx, Ht; done.
Qed.

(** Two versions are equal as dictionary keys exactly when each is [<=]
    the other. *)
Lemma leb_antisym_key v w : leb v w = true -> leb w v = true -> key v = key w.
Proof. apply lex_leb_antisym. Qed.

(** ** Printing and parsing *)

Lemma digits_value_uint d acc :
  digits_value acc (NilEmpty.string_of_uint d) = Some (Nat.of_uint_acc d acc).
Proof.
  revert acc. induction d; intros acc; [done| ..]; simpl; rewrite IHd;
    do 2 f_equal; rewrite Nat.tail_mul_spec; lia.
Qed.

Lemma str_nat_nonempty n : PyStr.str_nat n <> EmptyString.
Proof.
  unfold PyStr.str_nat. intros H.
  assert (Nat.to_uint n = Decimal.Nil) as Hn.
  { destruct (Nat.to_uint n); simpl in H; done. }
  pose proof (Unsigned.of_to n) as E. rewrite Hn in E. simpl in E. subst n. done.
Qed.

Lemma parse_number_str_nat n : parse_number (PyStr.str_nat n) = Some n.
Proof.
  unfold parse_number. rewrite (proj2 (String.eqb_neq _ _)) by apply str_nat_nonempty.
  unfold PyStr.str_nat. rewrite digits_value_uint. f_equal. apply Unsigned.of_to.
Qed.

Lemma str_nat_digits n : PyStr.str_forallb is_digit (PyStr.str_nat n) = true.
Proof. unfold PyStr.str_nat. induction (Nat.to_uint n); simpl; auto. Qed.

Lemma digits_forallb f s :
  (forall c, is_digit c = true -> f c = true) ->
  PyStr.str_forallb is_digit s = true -> PyStr.str_forallb f s = true.
Proof.
  intros Hf. induction s as [|c s IH]; simpl; [done|].
  intros [Hc Hs]%andb_prop. rewrite Hf, IH; done.
Qed.

Lemma digit_not_dot c : is_digit c = true -> negb (c =? ".")%char = true.
Proof.
  unfold is_digit. intros H. apply andb_prop in H as [H1 H2].
  apply Nat.leb_le in H1, H2. apply negb_true_iff, Ascii.eqb_neq.
  intros ->. compute in H1. lia.
Qed.

Lemma digit_not_space c : is_digit c = true -> negb (PyStr.is_space c) = true.
Proof.
  unfold is_digit, PyStr.is_space. intros H. apply andb_prop in H as [H1 H2].
  apply Nat.leb_le in H1, H2. apply negb_true_iff.
  repeat apply orb_false_intro; try apply andb_false_iff;
    rewrite ?Nat.leb_gt, ?Nat.eqb_neq; lia.
Qed.

Lemma drop_v_id s :
  PyStr.str_forallb (fun c => negb ((c =? "v")%char || (c =? "V")%char)) s = true ->
  drop_v s = s.
Proof.
  destruct s as [|c s]; simpl; [done|].
  intros [Hc _]%andb_prop. apply negb_true_iff in Hc. by rewrite Hc.
Qed.

Lemma digit_not_v c : is_digit c = true -> negb ((c =? "v")%char || (c =? "V")%char) = true.
Proof.
  unfold is_digit. intros H. apply andb_prop in H as [H1 H2].
  apply Nat.leb_le in H1, H2. apply negb_true_iff, orb_false_iff.
  split; apply Ascii.eqb_neq; intros ->; compute in H2; lia.
Qed.

(** Every character of a printed version satisfies [f] when digits and
    the dot do. *)
Lemma to_string_forallb f v :
  (forall c, is_digit c = true -> f c = true) -> f "."%char = true ->
  PyStr.str_forallb f (to_string v) = true.
Proof.
  intros Hd Hdot. apply PyStr.join_forallb; [simpl; by rewrite Hdot|].
  apply Forall_forall. intros w (n & -> & _)%list_elem_of_fmap.
  apply digits_forallb, str_nat_digits. exact Hd.
Qed.

Lemma mapM_parse_number_str_nat rel :
  mapM parse_number (map PyStr.str_nat rel) = Some rel.
Proof.
  induction rel as [|n rel IH]; [done|]. simpl.
  by rewrite parse_number_str_nat, IH.
Qed.

(** ** Properties *)

(** Printing a version and parsing the text back gives the same
    release tuple: [version.parse(str(v)).release == v.release] for every
    non-empty release. *)
Theorem parse_to_string (v : version) :
  release v <> [] -> parse (to_string v) = Ok v.
Proof.
  intros Hne. destruct v as [rel]. unfold parse.
  rewrite PyStr.strip_no_space by (apply to_string_forallb; [apply digit_not_space|done]).
  rewrite drop_v_id by (apply to_string_forallb; [apply digit_not_v|done]).
  unfold to_string; simpl. rewrite PyStr.split_sep_join.
  - by rewrite mapM_parse_number_str_nat.
  - by destruct rel.
  - apply Forall_forall. intros w (n & -> & _)%list_elem_of_fmap.
    apply digits_forallb; [apply digit_not_dot|apply str_nat_digits].
Qed.

Lemma parse_to_string_witness :
  release (mkVersion [1; 20; 3]) <> [] /\
  parse (to_string (mkVersion [1; 20; 3])) = Ok (mkVersion [1; 20; 3]).
Proof. split; [discriminate|]. apply parse_to_string. discriminate. Defined.

End Version.
