(* ===== verification/VersionTranslator.v ===== *)
(** [VersionTranslator] and [Translator] of [src/lbrc_selenium/selenium.py]
    (lines 379-466): per-version column allow-lists and rename tables, the
    resolution of the table that applies to a version ([_get_version]), the
    translation of a scraped record ([translate_dictionary]) and the header
    filter ([cleanse_headers]).  The three tables are dictionaries keyed by
    [packaging] versions; two spellings of one version ([1.0], [1]) are one
    key, so they are [gmap]s keyed by [Version.key]. *)

From S2P Require Import Prelude PyStr Values Version.

Module VersionTranslator.
Import Values.

(** ** State *)

(** The value stored by [set_columns_for_version]: the annotation says
    [set], [add_column] calls [.append], so both shapes occur. *)
Inductive columns_val :=
  | ColList (l : list string)
  | ColSet (s : gset string).

(** [bool(ct)] *)
Definition col_truthy (c : columns_val) : bool :=
  match c with
  | ColList l => negb (bool_decide (l = []))
  | ColSet s => negb (bool_decide (s = ∅))
  end.

(** [k in ct] *)
Definition col_mem (k : string) (c : columns_val) : bool :=
  match c with
  | ColList l => bool_decide (k ∈ l)
  | ColSet s => bool_decide (k ∈ s)
  end.

(** [bool(d)] for a rename table. *)
Definition dict_truthy (m : gmap string string) : bool := negb (bool_decide (m = ∅)).

(** [self.columns], [self.label_translations], [self.value_translations]. *)
Record state := mkState {
  columns : gmap (list nat) columns_val;
  label_translations : gmap (list nat) (gmap string string);
  value_translations : gmap (list nat) (gmap string string)
}.

(** [VersionTranslator()] *)
Definition init : state := mkState ∅ ∅ ∅.

(** [cv = version.parse(ver)], as a dictionary key. *)
Definition parse_key (ver : string) : result (list nat) := rmap Version.key (Version.parse ver).

(** ** Registration *)

Definition set_columns_for_version (ver : string) (column_names : columns_val) (st : state)
    : result state :=
  let* cv := parse_key ver in
  Ok (mkState (<[cv := column_names]> (columns st)) (label_translations st)
         (value_translations st)).

(** [self.columns[cv].append(column_name)]: [KeyError] for an unknown
    version, [AttributeError] when the stored value is a [set]. *)
Definition add_column (ver : string) (column_name : string) (st : state) : result state :=
  let* cv := parse_key ver in
  match columns st !! cv with
  | None => Err KeyError
  | Some (ColSet _) => Err AttributeError
  | Some (ColList l) =>
      Ok (mkState (<[cv := ColList (l ++ [column_name])]> (columns st))
             (label_translations st) (value_translations st))
  end.

Definition set_label_translators_for_version (ver : string) (translations : gmap string string)
    (st : state) : result state :=
  let* cv := parse_key ver in
  Ok (mkState (columns st) (<[cv := translations]> (label_translations st))
         (value_translations st)).

Definition add_label_translator (ver from_value to_value : string) (st : state) : result state :=
  let* cv := parse_key ver in
  match label_translations st !! cv with
  | None => Err KeyError
  | Some m =>
      Ok (mkState (columns st) (<[cv := <[from_value := to_value]> m]> (label_translations st))
             (value_translations st))
  end.

Definition set_value_translators_for_version (ver : string) (translations : gmap string string)
    (st : state) : result state :=
  let* cv := parse_key ver in
  Ok (mkState (columns st) (label_translations st)
         (<[cv := translations]> (value_translations st))).

Definition add_value_translator (ver from_value to_value : string) (st : state) : result state :=
  let* cv := parse_key ver in
  match value_translations st !! cv with
  | None => Err KeyError
  | Some m =>
      Ok (mkState (columns st) (label_translations st)
             (<[cv := <[from_value := to_value]> m]> (value_translations st)))
  end.

(** ** Resolution *)

(** [[k for k in versions.keys() if k <= cv]] *)
Definition pre_versions {A} (cv : list nat) (versions : gmap (list nat) A) : list (list nat) :=
  filter (fun k => Version.lex_leb k cv = true) (map fst (map_to_list versions)).

(** [_get_version(ver, versions)]: the entry of the greatest key
    [<= version.parse(ver)], or [None] when there is none. *)
Definition get_version {A} (ver : string) (versions : gmap (list nat) A) : result (option A) :=
  let* cv := parse_key ver in
  let pre_versions := pre_versions cv versions in
  match pre_versions with
  | [] => Ok None
  | _ =>
      let* latest_version := py_max Version.lex_leb pre_versions in
      match versions !! latest_version with
      | Some p => Ok (Some p)
      | None => Err KeyError
      end
  end.

(** ** Translation *)

(** One iteration of the loop of [translate_dictionary] over
    [input.items()], adding the pair to [result] unless it is dropped. *)
Definition translate_item (ct : option columns_val) (lt vt : option (gmap string string))
    (result : list (string * pyval)) (kv : string * pyval) : Prelude.result (list (string * pyval)) :=
  let k :=
    match lt with
    | Some m => if dict_truthy m then default kv.1 (m !! kv.1) else kv.1
    | None => kv.1
    end in
  if match ct with Some c => col_truthy c && negb (col_mem k c) | None => false end
  then Ok result
  else
    let* v :=
      match kv.2, vt with
      | VStr s, Some m =>
          if dict_truthy m && bool_decide (is_Some (m !! s))
          then match lt with
               | Some m' => match m' !! s with Some s' => Ok (VStr s') | None => Err KeyError end
               | None => Err TypeError
               end
          else Ok kv.2
      | _, _ => Ok kv.2
      end in
    Ok (dict_set k v result).

(** [translate_dictionary(ver, input)]; [lt] is read from the value
    table, as the source does. *)
Definition translate_dictionary (ver : string) (input : list (string * pyval)) (st : state)
    : result (list (string * pyval)) :=
  let* ct := get_version ver (columns st) in
  let* lt := get_version ver (value_translations st) in
  let* vt := get_version ver (value_translations st) in
  let* result := foldlR (translate_item ct lt vt) [] input in
  Ok (sort_by fst str_leb result).

(** [cleanse_headers(ver, headers)] *)
Definition cleanse_headers (ver : string) (headers : list string) (st : state)
    : result (list string) :=
  let* ct := get_version ver (columns st) in
  match ct with
  | Some c => if col_truthy c then Ok (filter (fun h => col_mem h c = true) headers) else Ok headers
  | None => Ok headers
  end.

(** ** Specification helpers *)

(** The rename a resolved table performs on a label or a string value. *)
Definition rename_opt (t : option (gmap string string)) (s : string) : string :=
  match t with
  | Some m => if dict_truthy m then default s (m !! s) else s
  | None => s
  end.

Definition rename_val (t : option (gmap string string)) (v : pyval) : pyval :=
  match v with
  | VStr s => VStr (rename_opt t s)
  | _ => v
  end.

(** Whether the resolved allow-list drops a label. *)
Definition dropped (ct : option columns_val) (k : string) : bool :=
  match ct with
  | Some c => col_truthy c && negb (col_mem k c)
  | None => false
  end.

(** The loop of [translate_dictionary] when one table [t] serves for both
    labels and values, as a pure fold. *)
Definition translate_pure (ct : option columns_val) (t : option (gmap string string))
    (input : list (string * pyval)) : list (string * pyval) :=
  fold_left (fun acc kv =>
    if dropped ct (rename_opt t kv.1) then acc
    else dict_set (rename_opt t kv.1) (rename_val t kv.2) acc) input [].

(** ** Lemmas *)

Lemma parse_key_ok (ver : string) (v : Version.version) : Version.parse ver = Ok v -> parse_key ver = Ok (Version.key v).
Proof. unfold parse_key. by intros ->. Qed.

Lemma parse_key_err ver e : Version.parse ver = Err e -> parse_key ver = Err e.
Proof. unfold parse_key. by intros ->. Qed.

Lemma elem_of_pre_versions {A} (tbl : gmap (list nat) A) cv k :
  k ∈ pre_versions cv tbl <->
  is_Some (tbl !! k) /\ Version.lex_leb k cv = true.
Proof.
  unfold pre_versions. rewrite list_elem_of_filter, list_elem_of_In, in_map_iff. split.
  - intros [H ([k' p] & <- & Hin)]. split; [|done].
    apply list_elem_of_In, elem_of_map_to_list in Hin. by exists p.
  - intros [[p Hp] H]. split; [done|]. exists (k, p). split; [done|].
    by apply list_elem_of_In, elem_of_map_to_list.
Qed.

(** [_get_version] when the version parses: the entry under the greatest
    key [<= cv], or [None] when no key is [<= cv]; it never raises. *)
Lemma get_version_cases {A} (ver : string) (v : Version.version) (tbl : gmap (list nat) A) :
  Version.parse ver = Ok v ->
  match get_version ver tbl with
  | Ok (Some p) =>
      exists k, tbl !! k = Some p /\ Version.lex_leb k (Version.key v) = true /\
        forall k' p', tbl !! k' = Some p' -> Version.lex_leb k' (Version.key v) = true ->
          Version.lex_leb k' k = true
  | Ok None => forall k p, tbl !! k = Some p -> Version.lex_leb k (Version.key v) = false
  | Err _ => False
  end.
Proof.
  intros Hv. unfold get_version. rewrite (parse_key_ok _ _ Hv), rbind_ok.
  pose proof (elem_of_pre_versions tbl (Version.key v)) as Hpre.
  destruct (pre_versions _ _) as [|k0 pre] eqn:Hf.
  - intros k p Hk. destruct (Version.lex_leb k _) eqn:E; [|done].
    exfalso. eapply not_elem_of_nil, Hpre. eauto.
  - destruct (py_max_spec Version.lex_leb Version.lex_leb_total Version.lex_leb_trans
                (k0 :: pre) _ eq_refl) as [Hin Hall].
    simpl. apply Hpre in Hin as Hin'. destruct Hin' as [[p Hp] Hle]. rewrite Hp.
    eexists. split; [exact Hp|]. split; [exact Hle|].
    intros k' p' Hk' Hle'. rewrite Forall_forall in Hall. apply Hall, Hpre. eauto.
Qed.

Lemma get_version_ok {A} (ver : string) (v : Version.version) (tbl : gmap (list nat) A) :
  Version.parse ver = Ok v -> exists r, get_version ver tbl = Ok r.
Proof.
  intros Hv. pose proof (get_version_cases ver v tbl Hv) as H.
  destruct (get_version ver tbl) as [r|]; [by eauto|done].
Qed.

Lemma get_version_err {A} (ver : string) (tbl : gmap (list nat) A) e :
  get_version ver tbl = Err e -> Version.parse ver = Err e.
Proof.
  destruct (Version.parse ver) as [v|e'] eqn:Hv.
  - destruct (get_version_ok ver v tbl Hv) as [r ->]. discriminate.
  - unfold get_version. rewrite (parse_key_err _ _ Hv). simpl. congruence.
Qed.

Lemma translate_item_same ct t acc kv :
  translate_item ct t t acc kv =
    Ok (if dropped ct (rename_opt t kv.1) then acc
        else dict_set (rename_opt t kv.1) (rename_val t kv.2) acc).
Proof.
  destruct kv as [k v]. unfold translate_item, dropped. simpl.
  destruct (match ct with Some c => _ | None => false end); [done|].
  destruct v as [|s|l]; simpl; try done. destruct t as [m|]; simpl; [|done].
  destruct (dict_truthy m); simpl; [|done].
  destruct (m !! s) eqn:Hs; simpl; reflexivity.
Qed.

Lemma foldlR_translate_item ct t acc input :
  foldlR (translate_item ct t t) acc input =
    Ok (fold_left (fun acc kv =>
          if dropped ct (rename_opt t kv.1) then acc
          else dict_set (rename_opt t kv.1) (rename_val t kv.2) acc) input acc).
Proof.
  revert acc. induction input as [|kv input IH]; intros acc; [done|].
  simpl. by rewrite translate_item_same, rbind_ok, IH.
Qed.

(** [translate_dictionary] once the version has parsed: the pure fold over
    the resolved allow-list and value table, sorted by label. *)
Lemma translate_dictionary_eq (ver : string) (v : Version.version) input st ct t :
  Version.parse ver = Ok v ->
  get_version ver (columns st) = Ok ct ->
  get_version ver (value_translations st) = Ok t ->
  translate_dictionary ver input st = Ok (sort_by fst str_leb (translate_pure ct t input)).
Proof.
  intros Hv Hc Ht. unfold translate_dictionary.
  by rewrite Hc, rbind_ok, Ht, rbind_ok, rbind_ok, foldlR_translate_item, rbind_ok.
Qed.

Lemma translate_pure_nodup ct t input : NoDup (map fst (translate_pure ct t input)).
Proof.
  unfold translate_pure. cut (forall acc, NoDup (map fst acc) ->
    NoDup (map fst (fold_left (fun acc kv =>
      if dropped ct (rename_opt t kv.1) then acc
      else dict_set (rename_opt t kv.1) (rename_val t kv.2) acc) input acc))).
  { intros H. apply H. constructor. }
  induction input as [|kv input IH]; intros acc Hacc; simpl; [done|].
  apply IH. destruct (dropped _ _); [done|]. by apply dict_set_nodup.
Qed.

Lemma translate_pure_keys ct t input kv :
  kv ∈ translate_pure ct t input -> dropped ct kv.1 = false.
Proof.
  unfold translate_pure. cut (forall acc, (forall kv, kv ∈ acc -> dropped ct kv.1 = false) ->
    kv ∈ fold_left (fun acc kv =>
      if dropped ct (rename_opt t kv.1) then acc
      else dict_set (rename_opt t kv.1) (rename_val t kv.2) acc) input acc ->
    dropped ct kv.1 = false).
  { intros H. apply H. set_solver. }
  induction input as [|kv' input IH]; intros acc Hacc; simpl; [auto|].
  apply IH. destruct (dropped ct (rename_opt t kv'.1)) eqn:Hd; [done|].
  intros kv2 Hkv2. apply dict_set_elem_of in Hkv2 as [->|Hin]; [done|auto].
Qed.

Lemma rename_val_none v : rename_val None v = v.
Proof. by destruct v. Qed.

(** Without rules, the loop copies a dictionary. *)
Lemma translate_pure_none input :
  NoDup (map fst input) -> translate_pure None None input = input.
Proof.
  unfold translate_pure. intros Hnd.
  cut (forall acc, NoDup (map fst (acc ++ input)) ->
       fold_left (fun acc kv => if dropped None (rename_opt None kv.1) then acc
         else dict_set (rename_opt None kv.1) (rename_val None kv.2) acc) input acc
       = acc ++ input).
  { intros H. by apply (H []). }
  clear Hnd. induction input as [|[k v] input IH]; intros acc Hacc; simpl;
    [by rewrite app_nil_r|].
  rewrite rename_val_none, dict_set_fresh.
  - rewrite IH; by rewrite <- app_assoc.
  - rewrite map_app in Hacc. simpl in Hacc. apply NoDup_app in Hacc as (_ & Hd & _).
    intros Hk. apply (Hd k Hk). apply list_elem_of_here.
Qed.

Lemma parse_err_invalid (ver : string) e : Version.parse ver = Err e -> e = InvalidVersion.
Proof. unfold Version.parse. by destruct (mapM _ _); intros [= <-]. Qed.

Lemma get_version_none_of {A} (ver : string) (v : Version.version) (tbl : gmap (list nat) A) :
  Version.parse ver = Ok v ->
  (forall k p, tbl !! k = Some p -> Version.lex_leb k (Version.key v) = false) ->
  get_version ver tbl = Ok None.
Proof.
  intros Hv Hnone. pose proof (get_version_cases ver v tbl Hv) as H.
  destruct (get_version ver tbl) as [[p|]|]; [|done|done].
  destruct H as (k & Hk & Hle & _). by rewrite (Hnone k p Hk) in Hle.
Qed.

(** The entry registered under the parsed version itself is the one
    resolved for that version. *)
Lemma get_version_insert_self {A} (ver : string) (v : Version.version)
    (tbl : gmap (list nat) A) p :
  Version.parse ver = Ok v -> get_version ver (<[Version.key v := p]> tbl) = Ok (Some p).
Proof.
  intros Hv. pose proof (get_version_cases ver v (<[Version.key v := p]> tbl) Hv) as H.
  destruct (get_version _ _) as [[p'|]|]; [|exfalso|done].
  - destruct H as (k & Hk & Hle & Hmax).
    assert (k = Version.key v) as ->.
    { apply Version.lex_leb_antisym; [done|]. eapply Hmax; [|apply Version.lex_leb_refl].
      apply lookup_insert_eq. }
    rewrite lookup_insert_eq in Hk. congruence.
  - specialize (H (Version.key v) p (lookup_insert_eq _ _ _)).
    by rewrite Version.lex_leb_refl in H.
Qed.

(** [translate_dictionary] when the version parses. *)
Lemma translate_dictionary_cases (ver : string) (v : Version.version) input st :
  Version.parse ver = Ok v ->
  exists ct t, get_version ver (columns st) = Ok ct /\
    get_version ver (value_translations st) = Ok t /\
    translate_dictionary ver input st = Ok (sort_by fst str_leb (translate_pure ct t input)).
Proof.
  intros Hv. destruct (get_version_ok ver v (columns st) Hv) as [ct Hc].
  destruct (get_version_ok ver v (value_translations st) Hv) as [t Ht].
  exists ct, t. split; [done|]. split; [done|]. by apply (translate_dictionary_eq ver v).
Qed.

Lemma translate_dictionary_parse_err (ver : string) input st e :
  Version.parse ver = Err e -> translate_dictionary ver input st = Err e.
Proof.
  intros Hv. unfold translate_dictionary, get_version. by rewrite (parse_key_err _ _ Hv).
Qed.

Lemma sort_by_label_sorted (l : list (string * pyval)) :
  Sorted (fun a b => str_leb a.1 b.1 = true) (sort_by fst str_leb l).
Proof.
  apply sort_stable_sorted; intros *; eauto using str_leb_total, str_leb_trans.
Qed.

(** ** Properties *)

(** C1: [_get_version] resolves the rule set registered under the greatest
    version [<=] the target: for a target that parses, it returns [p]
    exactly when [p] is registered under a version [<=] the target that
    every other registered version [<=] the target is [<=] to. *)
Theorem get_version_resolves_latest {A} (ver : string) (v : Version.version)
    (tbl : gmap (list nat) A) p :
  Version.parse ver = Ok v ->
  get_version ver tbl = Ok (Some p) <->
  exists k, tbl !! k = Some p /\ Version.lex_leb k (Version.key v) = true /\
    forall k' p', tbl !! k' = Some p' -> Version.lex_leb k' (Version.key v) = true ->
      Version.lex_leb k' k = true.
Proof.
  intros Hv. pose proof (get_version_cases ver v tbl Hv) as H. split.
  - intros E. by rewrite E in H.
  - intros (k & Hk & Hle & Hmax).
    destruct (get_version ver tbl) as [[p'|]|]; [|exfalso|done].
    + destruct H as (k' & Hk' & Hle' & Hmax').
      assert (k = k') as -> by (apply Version.lex_leb_antisym; eauto). congruence.
    + specialize (H k p Hk). congruence.
Qed.

Example get_version_resolves_latest_witness :
  Version.parse "1.5" = Ok (Version.mkVersion [1; 5]) /\
  exists k, ({[ [1] := "one"; [2] := "two" ]} : gmap (list nat) string) !! k = Some "one" /\
    Version.lex_leb k [1; 5] = true /\
    forall k' p', ({[ [1] := "one"; [2] := "two" ]} : gmap (list nat) string) !! k' = Some p' ->
      Version.lex_leb k' [1; 5] = true -> Version.lex_leb k' k = true.
Proof.
  split; [reflexivity|].
  apply (proj1 (get_version_resolves_latest "1.5" (Version.mkVersion [1; 5]) _ _ eq_refl)).
  vm_compute. reflexivity.
Defined.

(** C2: a target below every registered version resolves to no rules:
    [_get_version] returns [None] exactly when no registered version is
    [<=] the target. *)
Theorem get_version_none_below_all {A} (ver : string) (v : Version.version)
    (tbl : gmap (list nat) A) :
  Version.parse ver = Ok v ->
  get_version ver tbl = Ok None <->
  forall k p, tbl !! k = Some p -> Version.lex_leb k (Version.key v) = false.
Proof.
  intros Hv. split; [|by apply get_version_none_of].
  intros E. pose proof (get_version_cases ver v tbl Hv) as H. by rewrite E in H.
Qed.

Example get_version_none_below_all_witness :
  Version.parse "0.9" = Ok (Version.mkVersion [0; 9]) /\
  get_version "0.9" ({[ [1] := "one"; [2] := "two" ]} : gmap (list nat) string) = Ok None.
Proof.
  split; [reflexivity|].
  apply (get_version_none_below_all "0.9" (Version.mkVersion [0; 9]) _ eq_refl).
  intros k p Hk. apply lookup_insert_Some in Hk as [[<- _]|[_ Hk]]; [done|].
  apply lookup_singleton_Some in Hk as [<- _]. done.
Defined.

(** C3: [translate_dictionary] never consults the label tables: registering
    label translators, or adding one, leaves every translation unchanged
    (the source reads [lt] from [self.value_translations]). *)
Theorem label_translators_unused (ver ver' from_value to_value : string)
    (m : gmap string string) input st st' :
  (set_label_translators_for_version ver' m st = Ok st' \/
   add_label_translator ver' from_value to_value st = Ok st') ->
  translate_dictionary ver input st' = translate_dictionary ver input st.
Proof.
  unfold set_label_translators_for_version, add_label_translator.
  destruct (parse_key ver') as [cv|]; simpl; [|intros [|]; discriminate].
  intros [[= <-]|H]; [done|].
  destruct (label_translations st !! cv); [|discriminate]. by injection H as <-.
Qed.

Example label_translators_unused_witness :
  let st0 := mkState {[ [1] := ColList ["Name"; "Years"] ]} ∅ ∅ in
  (set_label_translators_for_version "1.0" {[ "Age" := "Years" ]} st0 =
     Ok (mkState (columns st0) {[ [1] := {[ "Age" := "Years" ]} ]} ∅) \/
   add_label_translator "1.0" "Age" "Years" st0 =
     Ok (mkState (columns st0) {[ [1] := {[ "Age" := "Years" ]} ]} ∅)) /\
  translate_dictionary "1.0" [("Age", VStr "41")]
    (mkState (columns st0) {[ [1] := {[ "Age" := "Years" ]} ]} ∅)
  = translate_dictionary "1.0" [("Age", VStr "41")] st0.
Proof.
  cbv zeta. split; [left; reflexivity|].
  apply (label_translators_unused "1.0" "1.0" "Age" "Years" {[ "Age" := "Years" ]}).
  left. reflexivity.
Defined.

(** C4: the value table renames labels: when no allow-list applies and the
    value table resolved for the target maps label [k] to [k'], the pair
    stored under [k] comes out under [k'] (with its value translated by
    the same table). *)
Theorem value_table_renames_labels (ver : string) (v : Version.version) st m k k' x :
  Version.parse ver = Ok v ->
  get_version ver (columns st) = Ok None ->
  get_version ver (value_translations st) = Ok (Some m) ->
  m !! k = Some k' ->
  translate_dictionary ver [(k, x)] st = Ok [(k', rename_val (Some m) x)].
Proof.
  intros Hv Hc Ht Hk. rewrite (translate_dictionary_eq ver v _ _ None (Some m)) by done.
  unfold translate_pure. simpl.
  assert (dict_truthy m = true) as ->.
  { unfold dict_truthy. rewrite bool_decide_false; [done|]. intros ->. by rewrite lookup_empty in Hk. }
  by rewrite Hk.
Qed.

Example value_table_renames_labels_witness :
  let st := mkState ∅ ∅ {[ [1] := {[ "Age" := "Years" ]} ]} in
  Version.parse "1.2" = Ok (Version.mkVersion [1; 2]) /\
  get_version "1.2" (columns st) = Ok None /\
  get_version "1.2" (value_translations st) = Ok (Some {[ "Age" := "Years" ]}) /\
  ({[ "Age" := "Years" ]} : gmap string string) !! "Age" = Some "Years" /\
  translate_dictionary "1.2" [("Age", VStr "41")] st
    = Ok [("Years", rename_val (Some {[ "Age" := "Years" ]}) (VStr "41"))].
Proof.
  cbv zeta. do 4 (split; [vm_compute; reflexivity|]).
  apply (value_table_renames_labels "1.2" (Version.mkVersion [1; 2])); vm_compute; reflexivity.
Defined.

(** C5: the record [translate_dictionary] returns has distinct labels in
    ascending code-point order. *)
Theorem translate_dictionary_sorted (ver : string) input st out :
  translate_dictionary ver input st = Ok out ->
  NoDup (map fst out) /\ Sorted (fun a b => str_leb a.1 b.1 = true) out.
Proof.
  destruct (Version.parse ver) as [v|e] eqn:Hv.
  - destruct (translate_dictionary_cases ver v input st Hv) as (ct & t & _ & _ & ->).
    intros [= <-]. split; [|apply sort_by_label_sorted].
    assert (map fst (sort_by fst str_leb (translate_pure ct t input))
              ≡ₚ map fst (translate_pure ct t input)) as Hp
      by apply Permutation_map, sort_stable_perm.
    rewrite Hp. apply translate_pure_nodup.
  - by rewrite (translate_dictionary_parse_err _ _ _ _ Hv).
Qed.

Example translate_dictionary_sorted_witness :
  translate_dictionary "1.0" [("b", VStr "2"); ("a", VStr "1")] init
    = Ok [("a", VStr "1"); ("b", VStr "2")] /\
  NoDup (map fst [("a", VStr "1"); ("b", VStr "2")]) /\
  Sorted (fun a b => str_leb a.1 b.1 = true) [("a", VStr "1"); ("b", VStr "2")].
Proof.
  split; [vm_compute; reflexivity|].
  apply (translate_dictionary_sorted "1.0" [("b", VStr "2"); ("a", VStr "1")] init).
  vm_compute. reflexivity.
Defined.

(** C6: with a non-empty allow-list resolved for the target, every label
    of the translated record is in the allow-list (labels are checked
    after renaming). *)
Theorem translate_dictionary_allowed (ver : string) input st out c :
  translate_dictionary ver input st = Ok out ->
  get_version ver (columns st) = Ok (Some c) -> col_truthy c = true ->
  Forall (fun kv => col_mem kv.1 c = true) out.
Proof.
  intros Hout Hc Htr. destruct (Version.parse ver) as [v|e] eqn:Hv.
  - destruct (translate_dictionary_cases ver v input st Hv) as (ct & t & Hc' & _ & Ht).
    rewrite Hc in Hc'. injection Hc' as <-. rewrite Hout in Ht. injection Ht as ->.
    apply Forall_forall. intros kv Hin.
    unfold sort_by in Hin. rewrite sort_stable_perm in Hin.
    apply translate_pure_keys in Hin. simpl in Hin.
    rewrite Htr in Hin. by destruct (col_mem kv.1 c).
  - by rewrite (translate_dictionary_parse_err _ _ _ _ Hv) in Hout.
Qed.

Example translate_dictionary_allowed_witness :
  let st := mkState {[ [1] := ColList ["Name"] ]} ∅ ∅ in
  translate_dictionary "1.0" [("Name", VStr "x"); ("Extra", VStr "y")] st
    = Ok [("Name", VStr "x")] /\
  get_version "1.0" (columns st) = Ok (Some (ColList ["Name"])) /\
  col_truthy (ColList ["Name"]) = true /\
  Forall (fun kv => col_mem kv.1 (ColList ["Name"]) = true) [("Name", VStr "x")].
Proof.
  cbv zeta. do 3 (split; [vm_compute; reflexivity|]).
  apply (translate_dictionary_allowed "1.0" [("Name", VStr "x"); ("Extra", VStr "y")]
           (mkState {[ [1] := ColList ["Name"] ]} ∅ ∅) _ (ColList ["Name"]));
    vm_compute; reflexivity.
Defined.

(** When no allow-list and no value table is registered at or below the
    target version, [translate_dictionary] only sorts the record by label
    (the label tables play no part, see C3). *)
Theorem translate_dictionary_passthrough (ver : string) (v : Version.version) input st :
  Version.parse ver = Ok v ->
  (forall k p, columns st !! k = Some p -> Version.lex_leb k (Version.key v) = false) ->
  (forall k p, value_translations st !! k = Some p -> Version.lex_leb k (Version.key v) = false) ->
  NoDup (map fst input) ->
  translate_dictionary ver input st = Ok (sort_by fst str_leb input).
Proof.
  intros Hv Hc Ht Hnd.
  rewrite (translate_dictionary_eq ver v _ _ None None);
    [|done|by apply (get_version_none_of ver v)..].
  by rewrite translate_pure_none.
Qed.

Example translate_dictionary_passthrough_witness :
  let st := mkState {[ [2] := ColList ["Name"] ]} ∅ {[ [3] := {[ "b" := "c" ]} ]} in
  Version.parse "1.9" = Ok (Version.mkVersion [1; 9]) /\
  translate_dictionary "1.9" [("b", VStr "2"); ("a", VNone)] st
    = Ok (sort_by fst str_leb [("b", VStr "2"); ("a", VNone)]).
Proof.
  cbv zeta. split; [reflexivity|].
  apply (translate_dictionary_passthrough "1.9" (Version.mkVersion [1; 9])); [reflexivity| | |].
  - intros k p Hk. simpl in Hk. apply lookup_singleton_Some in Hk as [<- _]. done.
  - intros k p Hk. simpl in Hk. apply lookup_singleton_Some in Hk as [<- _]. done.
  - vm_compute. repeat constructor; set_solver.
Defined.

(** C7: the only exception [translate_dictionary] raises is
    [InvalidVersion], when the target version does not parse; in
    particular the [lt[v]] lookup of a value never fails. *)
Theorem translate_dictionary_error (ver : string) input st e :
  translate_dictionary ver input st = Err e ->
  e = InvalidVersion /\ Version.parse ver = Err InvalidVersion.
Proof.
  destruct (Version.parse ver) as [v|e'] eqn:Hv.
  - destruct (translate_dictionary_cases ver v input st Hv) as (ct & t & _ & _ & ->).
    discriminate.
  - rewrite (translate_dictionary_parse_err _ _ _ _ Hv). intros [= <-].
    by rewrite (parse_err_invalid _ _ Hv) in *.
Qed.

Example translate_dictionary_error_witness :
  translate_dictionary "1.0-beta" [("a", VNone)] init = Err InvalidVersion /\
  InvalidVersion = InvalidVersion /\ Version.parse "1.0-beta" = Err InvalidVersion.
Proof.
  split; [vm_compute; reflexivity|].
  apply (translate_dictionary_error "1.0-beta" [("a", VNone)] init).
  vm_compute. reflexivity.
Defined.

(** C8: registering an empty allow-list for a version disables the header
    filter at that version instead of dropping every header ([if not ct]
    treats [[]] like "no rules"). *)
Theorem empty_allow_list_keeps_headers (ver : string) hs st st' :
  set_columns_for_version ver (ColList []) st = Ok st' ->
  cleanse_headers ver hs st' = Ok hs.
Proof.
  unfold set_columns_for_version. destruct (Version.parse ver) as [v|e] eqn:Hv.
  - rewrite (parse_key_ok _ _ Hv). simpl. intros [= <-].
    unfold cleanse_headers. simpl. by rewrite (get_version_insert_self ver v _ _ Hv).
  - rewrite (parse_key_err _ _ Hv). discriminate.
Qed.

Example empty_allow_list_keeps_headers_witness :
  set_columns_for_version "2.0" (ColList []) init
    = Ok (mkState {[ [2] := ColList [] ]} ∅ ∅) /\
  cleanse_headers "2.0" ["Name"; "Extra"] (mkState {[ [2] := ColList [] ]} ∅ ∅)
    = Ok ["Name"; "Extra"].
Proof.
  split; [vm_compute; reflexivity|].
  apply (empty_allow_list_keeps_headers "2.0" _ init). vm_compute. reflexivity.
Defined.

(** Registration and resolution round trip: after
    [set_columns_for_version(ver, cols)], the allow-list resolved for
    [ver] is [cols], whatever was registered before. *)
Theorem set_columns_then_resolve (ver : string) cols st st' :
  set_columns_for_version ver cols st = Ok st' ->
  get_version ver (columns st') = Ok (Some cols).
Proof.
  unfold set_columns_for_version. destruct (Version.parse ver) as [v|e] eqn:Hv.
  - rewrite (parse_key_ok _ _ Hv). simpl. intros [= <-]. by apply get_version_insert_self.
  - rewrite (parse_key_err _ _ Hv). discriminate.
Qed.

Example set_columns_then_resolve_witness :
  let st := mkState {[ [1; 5] := ColList ["Old"] ]} ∅ ∅ in
  set_columns_for_version "1.5.0" (ColList ["New"]) st
    = Ok (mkState {[ [1; 5] := ColList ["New"] ]} ∅ ∅) /\
  get_version "1.5.0" (columns (mkState {[ [1; 5] := ColList ["New"] ]} ∅ ∅))
    = Ok (Some (ColList ["New"])).
Proof.
  cbv zeta. split; [vm_compute; reflexivity|].
  apply (set_columns_then_resolve "1.5.0" _ (mkState {[ [1; 5] := ColList ["Old"] ]} ∅ ∅)).
  vm_compute. reflexivity.
Defined.

(** [add_column] raises [KeyError] when no allow-list is registered
    under the version and [AttributeError] when the registered allow-list
    is a [set] (as the annotation of [set_columns_for_version] suggests);
    it appends only to a list. *)
Theorem add_column_errors (ver : string) (v : Version.version) c st :
  Version.parse ver = Ok v ->
  (add_column ver c st = Err KeyError <-> columns st !! Version.key v = None) /\
  (add_column ver c st = Err AttributeError <->
     exists s, columns st !! Version.key v = Some (ColSet s)).
Proof.
  intros Hv. unfold add_column. rewrite (parse_key_ok _ _ Hv). simpl.
  destruct (columns st !! Version.key v) as [[l|s]|]; split; split;
    try done; eauto; intros [? ?]; discriminate.
Qed.

Example add_column_errors_witness :
  let st := mkState {[ [1] := ColSet {[ "Name" ]} ]} ∅ ∅ in
  Version.parse "1" = Ok (Version.mkVersion [1]) /\
  add_column "1" "Age" st = Err AttributeError /\
  add_column "2" "Age" st = Err KeyError.
Proof.
  cbv zeta. split; [reflexivity|]. split.
  - apply (add_column_errors "1" (Version.mkVersion [1]) "Age" _ eq_refl). eauto.
  - apply (add_column_errors "2" (Version.mkVersion [2]) "Age" _ eq_refl). reflexivity.
Defined.

End VersionTranslator.

(** [Translator]: one rename table; the [version] arguments are unused. *)
Module Translator.

Record state := mkState { translations : gmap string string }.

Definition init : state := mkState ∅.

(** [self.translations |= translations]: the new entries win. *)
Definition add_translations (version : string) (translations' : gmap string string) (st : state)
    : state :=
  mkState (translations' ∪ translations st).

Definition add_translation (version from_value to_value : string) (st : state) : state :=
  mkState (<[from_value := to_value]> (translations st)).

End Translator.
