(* ===== verification/Dom.v ===== *)
(** Selectors and the page driver.  [Selector] and its six subclasses are
    the value objects of [selenium.py] (lines 30-57).  The page driver is
    Selenium's [WebDriver]/[WebElement], an external collaborator: the
    class [Driver] lists the calls the scrapers make on it
    ([find_elements], [tag_name], [text], [get_attribute] and the
    [innerHTML] script), and the class [DomLaws] states what the one XPath
    query the scrapers evaluate, [.//ancestor-or-self::*], returns.  A
    concrete page (a table of nodes with parent links) instantiates both;
    the witnesses of the scraper theorems run on such pages. *)

From S2P Require Import Prelude PyStr.
From Stdlib Require Import Ascii.

Module Dom.

(** ** Selectors *)

(** [selenium.webdriver.common.by.By], the strategies the subclasses use. *)
Inductive By := CSS_SELECTOR | XPATH | TAG_NAME | NAME | CLASS_NAME | ID.

#[export] Instance By_eq_dec : EqDecision By.
Proof. solve_decision. Defined.

(** [Selector(query, by)] *)
Record Selector := mkSelector { query : string; by_ : By }.

#[export] Instance Selector_eq_dec : EqDecision Selector.
Proof. solve_decision. Defined.

Definition CssSelector (q : string) : Selector := mkSelector q CSS_SELECTOR.
Definition XpathSelector (q : string) : Selector := mkSelector q XPATH.
Definition TagSelector (q : string) : Selector := mkSelector q TAG_NAME.
Definition NameSelector (q : string) : Selector := mkSelector q NAME.
Definition ClassSelector (q : string) : Selector := mkSelector q CLASS_NAME.
Definition IdSelector (q : string) : Selector := mkSelector q ID.

(** The query of [Scrubber.get_parent_elements]. *)
Definition ancestors_xpath : Selector := XpathSelector ".//ancestor-or-self::*".

(** ** The driver interface *)

Class Driver := {
  elem : Type;
  elem_eq_dec :: EqDecision elem;
  (** [(element or driver).find_elements(selector.by, selector.query)]:
      [None] searches the document. *)
  find_elements : Selector -> option elem -> list elem;
  tag_name : elem -> string;
  (** [element.text] *)
  text : elem -> string;
  (** [element.get_attribute(name)]: a string or [None]. *)
  get_attribute : elem -> string -> option string;
  (** [driver.execute_script("return arguments[0].innerHTML", element)] *)
  inner_html : elem -> option string
}.

(** What [.//ancestor-or-self::*] evaluated at [e] returns: the XPath
    [.//] step first goes to every descendant-or-self node of [e], then
    [ancestor-or-self::*] climbs from each, so the node-set is [e], its
    ancestors and its descendants, without repetition. *)
Class DomLaws `{Driver} := {
  (** [ancestor a d]: [a] is a proper ancestor of [d]. *)
  ancestor : elem -> elem -> Prop;
  ancestor_irrefl : forall e, ~ ancestor e e;
  ancestors_xpath_spec : forall e x,
    x ∈ find_elements ancestors_xpath (Some e) <-> x = e \/ ancestor x e \/ ancestor e x;
  ancestors_xpath_nodup : forall e, NoDup (find_elements ancestors_xpath (Some e))
}.

(** Two elements of which one contains the other. *)
Definition nested `{DomLaws} (x y : elem) : Prop := ancestor x y \/ ancestor y x.

(** ** Concrete pages *)

(** A node of a page: an identifier, its parent, and what the driver
    reports for it. *)
Record node := mkNode {
  n_id : nat;
  n_parent : option nat;
  n_tag : string;
  n_text : string;
  n_attrs : list (string * string);
  n_html : string
}.

(** A page: its nodes in document order, and which nodes a CSS query
    selects in the whole document. *)
Record page := mkPage {
  nodes : list node;
  css_match : string -> nat -> bool
}.

Section page.
Context (pg : page).

Definition ids : list nat := map n_id (nodes pg).

Definition node_of (i : nat) : option node := find (fun n => n_id n =? i) (nodes pg).

Definition parent_of (i : nat) : option nat := node_of i ≫= n_parent.

(** The proper ancestors of [i], nearest first; [fuel] bounds the walk. *)
Fixpoint up (fuel : nat) (i : nat) : list nat :=
  match fuel with
  | 0 => []
  | S f => match parent_of i with Some p => p :: up f p | None => [] end
  end.

Definition ancestors_of (i : nat) : list nat := up (length (nodes pg)) i.

Definition is_ancestor (a d : nat) : bool := bool_decide (a ∈ ancestors_of d).

Definition attr (i : nat) (a : string) : option string :=
  node_of i ≫= fun n => dict_get a (n_attrs n).

(** Whether [i] matches a selector evaluated in the document. *)
Definition matches (s : Selector) (i : nat) : bool :=
  match by_ s with
  | CSS_SELECTOR => css_match pg (query s) i
  | TAG_NAME => bool_decide (option_map n_tag (node_of i) = Some (query s))
  | ID => bool_decide (attr i "id" = Some (query s))
  | NAME => bool_decide (attr i "name" = Some (query s))
  | CLASS_NAME => bool_decide (attr i "class" = Some (query s))
  | XPATH => false
  end.

Definition page_find (s : Selector) (w : option nat) : list nat :=
  if decide (s = ancestors_xpath) then
    match w with
    | Some e =>
        if decide (e ∈ ids) then
          filter (fun x => x = e \/ is_ancestor x e = true \/ is_ancestor e x = true) ids
        else [e]
    | None => ids
    end
  else filter (fun x => (matches s x &&
                         match w with Some e => is_ancestor e x | None => true end) = true) ids.

#[local] Instance page_driver : Driver := {
  elem := nat;
  find_elements := page_find;
  tag_name i := default "" (option_map n_tag (node_of i));
  text i := default "" (option_map n_text (node_of i));
  get_attribute := attr;
  inner_html i := option_map n_html (node_of i)
}.

(** A page is well formed when identifiers are distinct, every parent is
    a node, and no node is its own ancestor. *)
Definition page_wf : bool :=
  bool_decide (NoDup ids) &&
  forallb (fun n => match n_parent n with Some p => bool_decide (p ∈ ids) | None => true end)
    (nodes pg) &&
  forallb (fun i => negb (is_ancestor i i)) ids.
(** *** Well-formed pages satisfy the laws *)

Lemma node_of_Some i n : node_of i = Some n -> n ∈ nodes pg /\ n_id n = i.
Proof.
  unfold node_of. intros Hf. apply find_some in Hf as [Hin Heq].
  split; [by apply list_elem_of_In|]. by apply Nat.eqb_eq.
Qed.

Lemma node_of_None i : i ∉ ids -> node_of i = None.
Proof.
  intros Hi. destruct (node_of i) as [n|] eqn:Hn; [|done].
  apply node_of_Some in Hn as [Hin <-]. exfalso. apply Hi.
  apply list_elem_of_In, in_map, list_elem_of_In, Hin.
Qed.

Lemma up_outside f i : i ∉ ids -> up f i = [].
Proof.
  intros Hi. destruct f; [done|]. simpl. unfold parent_of. by rewrite node_of_None.
Qed.

Hypothesis Hwf : page_wf = true.

Lemma wf_nodup : NoDup ids.
Proof. unfold page_wf in Hwf. apply andb_prop in Hwf as [H _]. apply andb_prop in H as [H _].
  by apply bool_decide_eq_true in H. Qed.

Lemma wf_parent n p : n ∈ nodes pg -> n_parent n = Some p -> p ∈ ids.
Proof.
  unfold page_wf in Hwf. apply andb_prop in Hwf as [H _]. apply andb_prop in H as [_ H].
  rewrite forallb_forall in H. intros Hn Hp. specialize (H n (proj1 (list_elem_of_In _ _) Hn)).
  rewrite Hp in H. by apply bool_decide_eq_true in H.
Qed.

Lemma wf_acyclic i : i ∈ ids -> is_ancestor i i = false.
Proof.
  unfold page_wf in Hwf. apply andb_prop in Hwf as [_ H]. rewrite forallb_forall in H.
  intros Hi. apply negb_true_iff, H, list_elem_of_In, Hi.
Qed.

Lemma up_in_ids f i x : x ∈ up f i -> x ∈ ids.
Proof.
  revert i. induction f as [|f IH]; intros i; simpl; [set_solver|].
  unfold parent_of. destruct (node_of i) as [n|] eqn:Hn; simpl; [|set_solver].
  destruct (n_parent n) as [p|] eqn:Hp; [|set_solver].
  rewrite elem_of_cons. intros [->|Hx]; [|by eapply IH].
  apply node_of_Some in Hn as [Hn _]. by eapply wf_parent.
Qed.

Lemma is_ancestor_ids a d : is_ancestor a d = true -> a ∈ ids /\ d ∈ ids.
Proof.
  unfold is_ancestor, ancestors_of. rewrite bool_decide_eq_true. intros Ha.
  split; [by eapply up_in_ids|].
  destruct (decide (d ∈ ids)) as [|Hd]; [done|]. rewrite (up_outside _ _ Hd) in Ha. set_solver.
Qed.

Lemma page_ancestors_spec e x :
  x ∈ page_find ancestors_xpath (Some e) <->
  x = e \/ is_ancestor x e = true \/ is_ancestor e x = true.
Proof.
  unfold page_find. rewrite decide_True by done.
  destruct (decide (e ∈ ids)) as [He|He].
  - rewrite list_elem_of_filter. split; [tauto|]. intros Hx. split; [done|].
    destruct Hx as [->|[Hx|Hx]]; [done|apply (is_ancestor_ids _ _ Hx)..].
  - rewrite elem_of_cons, elem_of_nil. split; [tauto|].
    intros [->|[Hx|Hx]]; [by left|..]; apply is_ancestor_ids in Hx; tauto.
Qed.

Lemma page_ancestors_nodup e : NoDup (page_find ancestors_xpath (Some e)).
Proof.
  unfold page_find. rewrite decide_True by done.
  destruct (decide (e ∈ ids)).
  - apply NoDup_filter, wf_nodup.
  - apply NoDup_singleton.
Qed.

Definition page_laws : @DomLaws page_driver.
Proof.
  refine {| ancestor a d := is_ancestor a d = true |}.
  - intros e He. destruct (decide (e ∈ ids)) as [Hi|Hi].
    + by rewrite wf_acyclic in He.
    + apply is_ancestor_ids in He. tauto.
  - apply page_ancestors_spec.
  - apply page_ancestors_nodup.
Defined.
End page.

Arguments page_driver : clear implicits.
Arguments page_laws : clear implicits.

(** *** Pages whose CSS queries are tag names with descendant combinators *)

(** Enough CSS for the scrapers' default selectors (["ul"], ["span, a"],
    ["thead tr th"], ...): a query is a comma-separated list of
    space-separated tag names, the last naming the node and the others
    enclosing it in order. *)
Section tag_css.
Context (ns : list node).

Let pg0 : page := mkPage ns (fun _ _ => false).

Definition tag_of (i : nat) : string := default "" (option_map n_tag (node_of pg0 i)).

(** [want]: enclosing tags from the nearest outwards; [anc]: ancestors
    from the nearest outwards. *)
Fixpoint enclosed (want : list string) (anc : list nat) : bool :=
  match anc with
  | [] => bool_decide (want = [])
  | a :: anc' =>
      match want with
      | [] => true
      | t :: want' =>
          if String.eqb (tag_of a) t then enclosed want' anc' else enclosed want anc'
      end
  end.

Definition compound_match (tags : list string) (i : nat) : bool :=
  match reverse tags with
  | [] => false
  | t :: outer => String.eqb (tag_of i) t && enclosed outer (ancestors_of pg0 i)
  end.

Definition tag_css (q : string) (i : nat) : bool :=
  existsb (fun sel => compound_match (PyStr.split sel) i) (PyStr.split_sep ","%char q).

Definition tag_page : page := mkPage ns tag_css.
End tag_css.

End Dom.
