(* ===== verification/Helper.v ===== *)
(** [SeleniumHelper] of [src/lbrc_selenium/selenium.py] (lines 129-309)
    and the [Action] retry loop (lines 64-126): the text extraction the
    scrapers use ([normalise_text] with the [RE_REMOVE_HTML_TAGS] pass,
    [get_text], [get_href], [get_value], [get_innerHtml]), element lookup
    ([get_element], [get_elements]), [convert_to_relative_url], the two
    version-keyed lookups [get_compare_version_item] and [get_version_item],
    and [Action.do].  Driver calls go through the [Dom.Driver] interface. *)

From S2P Require Import Prelude PyStr Version Dom.
From Stdlib Require Import Ascii.

Module Helper.
Import Dom.

(** ** [re.sub(RE_REMOVE_HTML_TAGS, '', s)] with [RE_REMOVE_HTML_TAGS = '<.*?>'] *)

(** After a ['<'], the text following the shortest match of [.*?>]: the
    first ['>'], provided no newline ([.] does not match it) comes first. *)
Fixpoint tag_end (s : string) : option string :=
  match s with
  | EmptyString => None
  | String c s' =>
      if (c =? ">")%char then Some s'
      else if (c =? PyStr.newline)%char then None
      else tag_end s'
  end.

(** [re.sub] scans left to right: at a ['<'] that starts a match the match
    is deleted and the scan resumes after it; elsewhere one character is
    kept.  Each step consumes a character, so [String.length s] steps
    suffice ([remove_tags_fuel_enough]). *)
Fixpoint remove_tags_fuel (fuel : nat) (s : string) : string :=
  match fuel with
  | 0 => s
  | S f =>
      match s with
      | EmptyString => EmptyString
      | String c s' =>
          if (c =? "<")%char then
            match tag_end s' with
            | Some rest => remove_tags_fuel f rest
            | None => String c (remove_tags_fuel f s')
            end
          else String c (remove_tags_fuel f s')
      end
  end.

Definition remove_html_tags (s : string) : string := remove_tags_fuel (String.length s) s.

Section helper.
Context `{Driver}.

(** ** Text *)

(** [normalise_text(value)]: tags removed, whitespace runs collapsed to
    one space, stripped. *)
Definition normalise_text (value : option string) : string :=
  PyStr.strip (PyStr.join " " (PyStr.split (remove_html_tags (default EmptyString value)))).

Definition get_innerHtml (element : elem) : string := normalise_text (inner_html element).

(** The text of an element: [element.text], else its ["text"] attribute,
    else its inner HTML, each normalised. *)
Definition text_of (element : elem) : string :=
  let result := normalise_text (Some (text element)) in
  if String.length result =? 0 then
    let result := normalise_text (get_attribute element "text") in
    if String.length result =? 0 then get_innerHtml element else result
  else result.

(** [get_text(element)]: [None] for no element. *)
Definition get_text (element : option elem) : option string :=
  match element with
  | None => None
  | Some e => Some (text_of e)
  end.

(** [get_href(element)]: [(element.get_attribute("href") or '').strip()] *)
Definition get_href (element : option elem) : option string :=
  match element with
  | None => None
  | Some e => Some (PyStr.strip (default EmptyString (get_attribute e "href")))
  end.

Definition get_name (element : option elem) : option string :=
  match element with
  | None => None
  | Some e => Some (PyStr.strip (default EmptyString (get_attribute e "name")))
  end.

Definition get_value (element : option elem) : option string :=
  match element with
  | None => None
  | Some e => Some (normalise_text (get_attribute e "value"))
  end.

(** ** Elements *)

(** [get_element(selector, allow_null, element)]: the first match;
    without one, [NoSuchElementException] unless [allow_null]. *)
Definition get_element (selector : Selector) (allow_null : bool) (element : option elem)
    : result (option elem) :=
  match find_elements selector element with
  | e :: _ => Ok (Some e)
  | [] => if allow_null then Ok None else Err NoSuchElementException
  end.

Definition get_elements (selector : Selector) (element : option elem) : list elem :=
  find_elements selector element.
End helper.

(** ** URLs *)

(** [convert_to_relative_url(url)] for [self.base_url = base_url]. *)
Definition convert_to_relative_url (base_url url : string) : string :=
  if PyStr.startswith url base_url then PyStr.drop (String.length base_url) url else url.

(** ** Version-keyed lookups *)

(** [[k for k in versions.keys() if version.parse(k) <= cv]]: the first key
    that does not parse raises. *)
Fixpoint keys_upto {A} (cv : Version.version) (versions : list (string * A)) : result (list string) :=
  match versions with
  | [] => Ok []
  | (k, _) :: rest =>
      let* pk := Version.parse k in
      let* ks := keys_upto cv rest in
      Ok (if Version.leb pk cv then k :: ks else ks)
  end.

(** [get_compare_version_item(versions)] for [self.compare_version]: the
    [max] is taken over the key strings. *)
Definition get_compare_version_item {A} (compare_version : string) (versions : list (string * A))
    : result A :=
  let* cv := Version.parse compare_version in
  let* ks := keys_upto cv versions in
  let* latest_version := py_max str_leb ks in
  match dict_get latest_version versions with
  | Some a => Ok a
  | None => Err KeyError
  end.

(** [get_version_item(versions)] for [self.version]: the [max] is taken
    over parsed versions and the entry is looked up under
    [str(latest_version)]. *)
Definition get_version_item {A} (version : string) (versions : list (string * A)) : result A :=
  let* cv := Version.parse version in
  let* ks := keys_upto cv versions in
  let* pks := mapR Version.parse ks in
  let* latest_version := py_max Version.leb pks in
  match dict_get (Version.to_string latest_version) versions with
  | Some a => Ok a
  | None => Err KeyError
  end.

(** ** [Action.do()] *)

(** The loop of [Action.do]: call [_do()]; on an exception retry after
    [sleep(1)] while [retried <= 2], else re-raise.  [attempt n] is the
    outcome of the [n]-th call ([None]: it returned).  The result is the
    number of retries before the successful call; [None] means the fuel ran
    out (never with four units, [action_do_terminates]). *)
Fixpoint do_loop (fuel retried : nat) (attempt : nat -> option py_exc) : option (result nat) :=
  match fuel with
  | 0 => None
  | S f =>
      match attempt retried with
      | None => Some (Ok retried)
      | Some e => if 2 <? retried then Some (Err e) else do_loop f (S retried) attempt
      end
  end.

Definition action_do (attempt : nat -> option py_exc) : option (result nat) :=
  do_loop 4 0 attempt.

(** ** Lemmas *)

Lemma tag_end_length s rest : tag_end s = Some rest -> String.length rest < String.length s.
Proof.
  induction s as [|c s IH]; simpl; [discriminate|].
  destruct (c =? ">")%char; [intros [= <-]; lia|].
  destruct (c =? PyStr.newline)%char; [discriminate|]. intros H. specialize (IH H). lia.
Qed.

Lemma remove_tags_fuel_stable n m s :
  String.length s <= n -> String.length s <= m -> remove_tags_fuel n s = remove_tags_fuel m s.
Proof.
  revert m s. induction n as [|n IH]; intros m s Hn Hm.
  - destruct s; simpl in Hn; [|lia]. by destruct m.
  - destruct m as [|m]; [destruct s; simpl in Hm; [done|lia]|].
    destruct s as [|c s]; [done|]. simpl in Hn, Hm. simpl.
    destruct (c =? "<")%char.
    + destruct (tag_end s) as [rest|] eqn:Ht.
      * apply tag_end_length in Ht. apply IH; lia.
      * f_equal. apply IH; lia.
    + f_equal. apply IH; lia.
Qed.

(** One step of [re.sub], once fuel is adequate. *)
Lemma remove_html_tags_cons c s :
  remove_html_tags (String c s) =
    if (c =? "<")%char then
      match tag_end s with
      | Some rest => remove_html_tags rest
      | None => String c (remove_html_tags s)
      end
    else String c (remove_html_tags s).
Proof.
  unfold remove_html_tags. simpl.
  destruct (c =? "<")%char; [destruct (tag_end s) as [rest|] eqn:Ht|];
    try (f_equal; apply remove_tags_fuel_stable; lia).
  apply tag_end_length in Ht. apply remove_tags_fuel_stable; lia.
Qed.

(** A text in which no ['<'] starts a match of [<.*?>]. *)
Fixpoint no_tag (s : string) : bool :=
  match s with
  | EmptyString => true
  | String c s' =>
      (negb (c =? "<")%char || bool_decide (tag_end s' = None)) && no_tag s'
  end.

(** Where [<.*?>] cannot match, the scan keeps everything up to the next
    newline, so it still cannot match after the scan. *)
Lemma tag_end_remove_none s : tag_end s = None -> tag_end (remove_html_tags s) = None.
Proof.
  induction s as [|c s IH]; [done|]. rewrite remove_html_tags_cons. simpl.
  destruct (c =? ">")%char eqn:Hgt; [discriminate|].
  destruct (c =? PyStr.newline)%char eqn:Hnl.
  - intros _. assert ((c =? "<")%char = false) as ->.
    { apply Ascii.eqb_eq in Hnl. by subst c. }
    simpl. by rewrite Hgt, Hnl.
  - intros Hs. destruct (c =? "<")%char eqn:Hlt.
    + rewrite Hs. simpl. rewrite Hgt, Hnl. by apply IH.
    + simpl. rewrite Hgt, Hnl. by apply IH.
Qed.

Lemma remove_html_tags_no_tag_aux n s :
  String.length s <= n -> no_tag (remove_html_tags s) = true.
Proof.
  revert s. induction n as [|n IH]; intros s Hs.
  - destruct s; simpl in Hs; [done|lia].
  - destruct s as [|c s]; [done|]. simpl in Hs. rewrite remove_html_tags_cons.
    destruct (c =? "<")%char eqn:Hlt.
    + destruct (tag_end s) as [rest|] eqn:Ht.
      * apply IH. apply tag_end_length in Ht. lia.
      * simpl. rewrite Hlt. simpl. rewrite (tag_end_remove_none s Ht).
        simpl. apply IH. lia.
    + simpl. rewrite Hlt. simpl. apply IH. lia.
Qed.

Lemma remove_html_tags_id s : no_tag s = true -> remove_html_tags s = s.
Proof.
  induction s as [|c s IH]; [done|]. simpl. intros [Hc Hs]%andb_prop.
  rewrite remove_html_tags_cons. destruct (c =? "<")%char; simpl in Hc.
  - apply bool_decide_eq_true in Hc. rewrite Hc. f_equal. by apply IH.
  - f_equal. by apply IH.
Qed.

Lemma keys_upto_spec {A} cv (versions : list (string * A)) ks k :
  keys_upto cv versions = Ok ks ->
  k ∈ ks <-> k ∈ map fst versions /\ exists pk, Version.parse k = Ok pk /\ Version.leb pk cv = true.
Proof.
  revert ks. induction versions as [|[k0 a] versions IH]; simpl; intros ks H.
  - injection H as <-. set_solver.
  - destruct (Version.parse k0) as [pk0|] eqn:Hp; simpl in H; [|discriminate].
    destruct (keys_upto cv versions) as [ks'|] eqn:Hk; simpl in H; [|discriminate].
    injection H as <-. specialize (IH ks' eq_refl). rewrite elem_of_cons.
    destruct (Version.leb pk0 cv) eqn:Hle; rewrite ?elem_of_cons, IH.
    + split; [intros [->|[? ?]]; eauto|]. intros [[->|?] ?]; eauto.
    + split; [intros [? ?]; eauto|]. intros [[->|?] (pk & Hpk & Hle')]; [|eauto].
      rewrite Hp in Hpk. injection Hpk as <-. congruence.
Qed.

Lemma normalise_text_words (value : option string) :
  normalise_text value = PyStr.join " " (PyStr.split (remove_html_tags (default EmptyString value))).
Proof. unfold normalise_text. apply PyStr.strip_join, PyStr.split_words. Qed.

Lemma action_do_unfold attempt :
  action_do attempt =
    match attempt 0 with
    | None => Some (Ok 0)
    | Some _ =>
        match attempt 1 with
        | None => Some (Ok 1)
        | Some _ =>
            match attempt 2 with
            | None => Some (Ok 2)
            | Some _ => match attempt 3 with None => Some (Ok 3) | Some e => Some (Err e) end
            end
        end
    end.
Proof.
  unfold action_do. simpl.
  by destruct (attempt 0), (attempt 1), (attempt 2), (attempt 3).
Qed.

(** ** Properties *)

(** The scan modelling [re.sub('<.*?>', '', s)] terminates within
    [len(s)] steps: any fuel at least the length of the text gives the
    same result. *)
Theorem remove_tags_fuel_enough n s :
  String.length s <= n -> remove_tags_fuel n s = remove_html_tags s.
Proof. intros Hn. apply remove_tags_fuel_stable; lia. Qed.

Example remove_tags_fuel_enough_witness :
  String.length " Foo <b>Bar</b> " <= 40 /\
  remove_tags_fuel 40 " Foo <b>Bar</b> " = remove_html_tags " Foo <b>Bar</b> ".
Proof. split; [simpl; lia|]. apply remove_tags_fuel_enough. simpl. lia. Defined.

(** After [re.sub(RE_REMOVE_HTML_TAGS, '', s)] no ['<'] of the text
    starts a match of [<.*?>] any more: no tag on one line survives. *)
Theorem remove_html_tags_no_tag s : no_tag (remove_html_tags s) = true.
Proof. by apply (remove_html_tags_no_tag_aux (String.length s)). Qed.

(** The tag removal is idempotent: removing tags from its own output
    changes nothing. *)
Theorem remove_html_tags_idempotent s : remove_html_tags (remove_html_tags s) = remove_html_tags s.
Proof. apply remove_html_tags_id, remove_html_tags_no_tag_aux with (n := String.length s). lia. Qed.

(** [normalise_text] returns the words of the tag-free text joined
    by single spaces, so the trailing [.strip()] never changes it and
    splitting the result gives back the same words. *)
Theorem normalise_text_canonical (value : option string) :
  normalise_text value = PyStr.join " " (PyStr.split (remove_html_tags (default EmptyString value))) /\
  PyStr.split (normalise_text value) = PyStr.split (remove_html_tags (default EmptyString value)).
Proof.
  rewrite normalise_text_words. split; [done|]. apply PyStr.split_join, PyStr.split_words.
Qed.

(** [normalise_text] is not idempotent: a tag broken over two lines
    is kept by the first pass ([.] does not match a newline), whose
    whitespace folding then joins it onto one line, and a second pass
    removes it. *)
Example normalise_text_not_idempotent :
  let s := "<a" +:+ String PyStr.newline "b>" in
  normalise_text (Some s) = "<a b>" /\
  normalise_text (Some (normalise_text (Some s))) = EmptyString.
Proof. split; vm_compute; reflexivity. Qed.

(** C32: [get_compare_version_item] picks the entry whose key is the
    greatest key string (code-point order) among the keys whose version is
    [<=] [compare_version], not the greatest version. *)
Theorem get_compare_version_item_max_string {A} (compare_version : string)
    (cv : Version.version) (versions : list (string * A)) a :
  Version.parse compare_version = Ok cv ->
  get_compare_version_item compare_version versions = Ok a ->
  exists k, dict_get k versions = Some a /\
    (exists pk, Version.parse k = Ok pk /\ Version.leb pk cv = true) /\
    forall k' pk', k' ∈ map fst versions -> Version.parse k' = Ok pk' ->
      Version.leb pk' cv = true -> str_leb k' k = true.
Proof.
  intros Hcv. unfold get_compare_version_item. rewrite Hcv. simpl.
  destruct (keys_upto cv versions) as [ks|] eqn:Hks; simpl; [|discriminate].
  destruct (py_max str_leb ks) as [k|] eqn:Hmax; simpl; [|discriminate].
  destruct (dict_get k versions) as [a'|] eqn:Hget; [intros [= <-]|discriminate].
  destruct (py_max_spec str_leb str_leb_total str_leb_trans ks k Hmax) as [Hin Hall].
  exists k. split; [done|]. split.
  - by apply (keys_upto_spec cv versions ks k Hks) in Hin as [_ ?].
  - intros k' pk' Hk' Hp' Hle'. rewrite Forall_forall in Hall. apply Hall.
    apply (keys_upto_spec cv versions ks k' Hks). eauto.
Qed.

Example get_compare_version_item_max_string_witness :
  Version.parse "10.0" = Ok (Version.mkVersion [10; 0]) /\
  get_compare_version_item "10.0" [("9.0", 9); ("10.0", 10)] = Ok 9 /\
  str_leb "10.0" "9.0" = true.
Proof.
  split; [reflexivity|]. split; [vm_compute; reflexivity|].
  destruct (get_compare_version_item_max_string "10.0" (Version.mkVersion [10; 0])
              [("9.0", 9); ("10.0", 10)] 9 eq_refl eq_refl) as (k & Hk & _ & Hmax).
  assert (k = "9.0") as -> by (simpl in Hk; repeat case_decide; congruence).
  apply (Hmax "10.0" (Version.mkVersion [10; 0])); [by right; left|reflexivity|reflexivity].
Defined.

(** [get_version_item] raises [KeyError] when the greatest version is
    stored under a spelling other than its [str()], e.g. ["01.0"] (which
    [get_compare_version_item] finds). *)
Example get_version_item_noncanonical_key :
  get_version_item "2" [("01.0", 1)] = Err KeyError /\
  get_compare_version_item "2" [("01.0", 1)] = Ok 1.
Proof. split; vm_compute; reflexivity. Qed.

(** [Action.do] calls [_do()] at most four times: the loop always
    finishes within four iterations, and more fuel changes nothing. *)
Theorem action_do_terminates attempt :
  exists r, action_do attempt = Some r /\ forall n, 4 <= n -> do_loop n 0 attempt = Some r.
Proof.
  unfold action_do.
  destruct (attempt 0) eqn:H0; [destruct (attempt 1) eqn:H1;
    [destruct (attempt 2) eqn:H2; [destruct (attempt 3) eqn:H3|]|]|];
    simpl; rewrite ?H0, ?H1, ?H2, ?H3; simpl;
    (eexists; split; [reflexivity|]); intros n Hn; do 4 (destruct n as [|n]; [lia|]);
    simpl; rewrite ?H0, ?H1, ?H2, ?H3; done.
Qed.

(** C33: [Action.do] returns after the first call of [_do()] that does not
    raise, when one of the first four calls does not, and otherwise
    re-raises the exception of the fourth call. *)
Theorem action_do_spec attempt :
  (forall k, action_do attempt = Some (Ok k) <->
     k < 4 /\ attempt k = None /\ forall j, j < k -> attempt j <> None) /\
  (forall e, action_do attempt = Some (Err e) <->
     (forall j, j < 3 -> attempt j <> None) /\ attempt 3 = Some e).
Proof.
  rewrite action_do_unfold.
  destruct (attempt 0) as [e0|] eqn:H0; [destruct (attempt 1) as [e1|] eqn:H1;
    [destruct (attempt 2) as [e2|] eqn:H2; [destruct (attempt 3) as [e3|] eqn:H3|]|]|];
    (split; [intros k; split|intros e; split]);
    first
    [ intros Heq; injection Heq as <-;
      repeat split; first [lia | congruence | intros j Hj; destruct j as [|[|[|j]]];
                            first [lia | congruence]]
    | discriminate
    | intros (Hk & Hn & Hb); destruct k as [|[|[|[|k]]]]; try lia;
      first [reflexivity | congruence | exfalso; apply (Hb 0); [lia|congruence]
            | exfalso; apply (Hb 1); [lia|congruence]
            | exfalso; apply (Hb 2); [lia|congruence]]
    | intros (Hb & He); first [congruence | exfalso; apply (Hb 0); [lia|congruence]
            | exfalso; apply (Hb 1); [lia|congruence]
            | exfalso; apply (Hb 2); [lia|congruence]] ].
Qed.

Example action_do_spec_witness :
  action_do (fun n => if n <? 2 then Some TypeError else None) = Some (Ok 2).
Proof.
  apply (proj1 (action_do_spec _) 2). split; [lia|]. split; [reflexivity|].
  intros j Hj. destruct j as [|[|]]; [discriminate..|lia].
Defined.

(** [convert_to_relative_url] and the base URL round trip: for a URL
    under [base_url], prefixing the relative URL with [base_url] gives the
    URL back; any other URL is returned unchanged. *)
Theorem convert_to_relative_url_roundtrip base_url url :
  (PyStr.startswith url base_url = true ->
     base_url +:+ convert_to_relative_url base_url url = url) /\
  (PyStr.startswith url base_url = false -> convert_to_relative_url base_url url = url).
Proof.
  unfold convert_to_relative_url. split; intros H; rewrite H; [|done].
  by apply PyStr.startswith_drop.
Qed.

Example convert_to_relative_url_roundtrip_witness :
  PyStr.startswith "https://host/app/study/3" "https://host/app/" = true /\
  "https://host/app/" +:+ convert_to_relative_url "https://host/app/" "https://host/app/study/3"
    = "https://host/app/study/3".
Proof.
  split; [reflexivity|]. apply (proj1 (convert_to_relative_url_roundtrip _ _)). reflexivity.
Defined.

End Helper.
