(* ===== verification/Scrubber.v ===== *)
(** The [Scrubber] base class of [src/lbrc_selenium/selenium.py]
    (lines 473-533): the value of a field ([get_value]), the reconciliation
    of nested value elements ([get_parent_elements]), the extraction of one
    element ([get_element_contents], [cleanse]) and [get_details], which
    scrapes the first container only.  The variants' [_scrape_details] are
    in [Scrubbers.v]. *)

From S2P Require Import Prelude PyStr Values Version VersionTranslator Dom Helper.

Module Scrubber.
Import Dom Helper Values.

(** [Scrubber.cleanse(value)]: [None] for [None] and [''] (the implicit
    return), else the text with ["&nbsp;"] turned into spaces, stripped. *)
Definition cleanse (value : option string) : option string :=
  match value with
  | Some v =>
      if String.eqb v EmptyString then None
      else Some (PyStr.strip (PyStr.replace "&nbsp;" " " v))
  | None => None
  end.

(** [bool(s)] for a string that may be [None]. *)
Definition str_truthy (o : option string) : bool :=
  match o with
  | Some s => negb (String.eqb s EmptyString)
  | None => false
  end.

(** [list(set(values))]: the values without repetition.  A Python set
    orders two or more values by hash; this keeps first occurrences, which
    agrees with Python whenever there is at most one value, the only case
    [get_value] meets ([get_parent_elements_at_most_one]). *)
Fixpoint py_set_list (l : list pyval) : list pyval :=
  match l with
  | [] => []
  | x :: l' => x :: filter (fun y => y <> x) (py_set_list l')
  end.

Section scrubber.
Context `{Driver}.

(** [get_element_contents(element)]: a [Link] for an anchor (or [None]
    when its href and text are both empty), else the cleansed text. *)
Definition get_element_contents (element : elem) : pyval :=
  if String.eqb (tag_name element) "a" then
    let href := get_href (Some element) in
    let name := get_text (Some element) in
    if negb (str_truthy href) && negb (str_truthy name) then VNone
    else VLink (mkLink (cleanse href) (cleanse name))
  else
    match cleanse (get_text (Some element)) with
    | Some s => VStr s
    | None => VNone
    end.

(** The loop of [get_parent_elements]: the first candidate whose
    [.//ancestor-or-self::*] node-set, without the candidate itself,
    shares no element with [elements]; the loop [break]s there. *)
Fixpoint first_uncovered (elements candidates : list elem) : result (list elem) :=
  match candidates with
  | [] => Ok []
  | e :: rest =>
      let* ancestors := list_remove e (find_elements ancestors_xpath (Some e)) in
      if forallb (fun x => negb (bool_decide (x ∈ elements))) ancestors
      then Ok [e]
      else first_uncovered elements rest
  end.

(** [get_parent_elements(elements, header)]; [header] only selects
    debugging output. *)
Definition get_parent_elements (elements : list elem) (header : string) : result (list elem) :=
  first_uncovered elements elements.

(** [get_value(parent, header)] for the scrubber's [value_selector]. *)
Definition get_value (value_selector : Selector) (parent : elem) (header : string)
    : result pyval :=
  let elements := sort_by tag_name str_leb (find_elements value_selector (Some parent)) in
  let* parents := get_parent_elements elements header in
  match parents with
  | [] => Ok (get_element_contents parent)
  | _ =>
      let values_values :=
        py_set_list (filter (fun v => truthy v = true) (map get_element_contents parents)) in
      Ok (VStr (PyStr.join "; " (map py_str values_values)))
  end.

(** [get_details()]: [None] without a container, else the variant's
    [_scrape_details] of the first container. *)
Definition get_details {A} (parent_selector : Selector) (scrape_details : elem -> result A)
    : result (option A) :=
  match find_elements parent_selector None with
  | p :: _ => let* r := scrape_details p in Ok (Some r)
  | [] => Ok None
  end.
End scrubber.

(** ** The covering-set reconciliation against the XPath laws *)

Section laws.
Context `{DomLaws}.

(** [e] is covered in [elements] when it contains, or is contained in,
    one of them. *)
Definition covered (elements : list elem) (e : elem) : Prop :=
  exists x, x ∈ elements /\ nested x e.

(** [ancestors.remove(e)] succeeds: [e] is in its own node-set, once. *)
Lemma ancestors_remove e :
  exists l, list_remove e (find_elements ancestors_xpath (Some e)) = Ok l /\
    forall y, y ∈ l <-> nested y e.
Proof.
  destruct (list_remove_nodup e (find_elements ancestors_xpath (Some e))) as (l & Hr & Hl).
  - apply ancestors_xpath_spec. by left.
  - apply ancestors_xpath_nodup.
  - exists l. split; [done|]. intros y. rewrite Hl, ancestors_xpath_spec. unfold nested.
    pose proof (ancestor_irrefl y).
    split; [intros [[->|[?|?]] ?]; tauto|intros [?|?]; split; [tauto|intros ->; tauto|tauto|intros ->; tauto]].
Qed.

Lemma forallb_not_in (E l : list elem) :
  forallb (fun x => negb (bool_decide (x ∈ E))) l = true <-> forall x, x ∈ l -> x ∉ E.
Proof.
  rewrite forallb_forall. setoid_rewrite <-list_elem_of_In.
  setoid_rewrite negb_true_iff. setoid_rewrite bool_decide_eq_false. done.
Qed.

(** One step of the loop: an uncovered candidate ends it, a covered one
    is skipped. *)
Lemma first_uncovered_cons elements e rest :
  (~ covered elements e /\ first_uncovered elements (e :: rest) = Ok [e]) \/
  (covered elements e /\ first_uncovered elements (e :: rest) = first_uncovered elements rest).
Proof.
  simpl. destruct (ancestors_remove e) as (l & -> & Hl). simpl.
  destruct (forallb _ l) eqn:Hf; [left|right]; split; try done.
  - rewrite forallb_not_in in Hf. intros (x & Hx & Hn). apply (Hf x); [by apply Hl|done].
  - apply not_true_iff_false in Hf. rewrite forallb_not_in in Hf.
    destruct (decide (Exists (fun x => x ∈ elements) l)) as [Hex|Hno].
    + apply Exists_exists in Hex as (x & Hx & HE). exists x. split; [done|by apply Hl].
    + exfalso. apply Hf. intros x Hx HE. apply Hno, Exists_exists. by exists x.
Qed.

Lemma first_uncovered_covered elements e rest :
  covered elements e -> first_uncovered elements (e :: rest) = first_uncovered elements rest.
Proof. intros Hc. destruct (first_uncovered_cons elements e rest) as [[]|[]]; tauto. Qed.

Lemma first_uncovered_uncovered elements e rest :
  ~ covered elements e -> first_uncovered elements (e :: rest) = Ok [e].
Proof. intros Hc. destruct (first_uncovered_cons elements e rest) as [[]|[]]; tauto. Qed.

(** The loop returns the first uncovered candidate, or nothing when all
    are covered; it never raises. *)
Lemma first_uncovered_spec elements cands :
  (first_uncovered elements cands = Ok [] /\ forall e, e ∈ cands -> covered elements e) \/
  (exists l1 e l2, cands = l1 ++ e :: l2 /\ ~ covered elements e /\
     (forall x, x ∈ l1 -> covered elements x) /\ first_uncovered elements cands = Ok [e]).
Proof.
  induction cands as [|c cands IH].
  - left. split; [done|set_solver].
  - destruct (first_uncovered_cons elements c cands) as [[Hc ->]|[Hc ->]].
    + right. exists [], c, cands. set_solver.
    + destruct IH as [[-> Hall]|(l1 & e & l2 & -> & He & Hl1 & ->)].
      * left. split; [done|]. intros e. rewrite elem_of_cons. intros [->|]; auto.
      * right. exists (c :: l1), e, l2. split; [done|]. split; [done|]. split; [|done].
        intros x. rewrite elem_of_cons. intros [->|]; auto.
Qed.

Lemma first_uncovered_all_covered elements cands :
  (forall e, e ∈ cands -> covered elements e) -> first_uncovered elements cands = Ok [].
Proof.
  intros Hall. destruct (first_uncovered_spec elements cands)
    as [[? _]|(l1 & e & l2 & -> & He & _ & _)]; [done|].
  exfalso. apply He, Hall. set_solver.
Qed.
End laws.

(** ** An example page

    A [ul] of three items: a label with a link wrapping a span, a label
    with two sibling spans, and a bare link; then a link with markup in its
    text and an empty link. *)
Definition ex_nodes : list node := [
  mkNode 0 None "ul" "" [] "";
  mkNode 1 (Some 0) "li" "Name Bob" [] "";
  mkNode 2 (Some 1) "strong" "Name" [] "";
  mkNode 3 (Some 1) "a" "Bob" [("href", "/p/1")] "Bob";
  mkNode 4 (Some 3) "span" "Bob" [] "Bob";
  mkNode 5 (Some 0) "li" "Age 41 years" [] "";
  mkNode 6 (Some 5) "strong" "Age" [] "";
  mkNode 7 (Some 5) "span" "41" [] "41";
  mkNode 8 (Some 5) "span" "years" [] "years";
  mkNode 9 (Some 0) "li" "Foo" [] "";
  mkNode 10 (Some 9) "a" "Foo" [("href", "/x")] "Foo";
  mkNode 11 None "a" " Foo <b>Bar</b> " [("href", "/a")] "";
  mkNode 12 None "a" "" [] ""].

Definition ex_page : page := tag_page ex_nodes.

(** ** Theorems *)

(** C9: [get_parent_elements] never raises and returns at most one
    element: the first element that neither contains nor is contained in
    another of [elements], or nothing when every element is so covered. *)
Theorem get_parent_elements_first_uncovered `{DomLaws} elements header :
  (get_parent_elements elements header = Ok [] /\ forall e, e ∈ elements -> covered elements e) \/
  (exists l1 e l2, elements = l1 ++ e :: l2 /\ ~ covered elements e /\
     (forall x, x ∈ l1 -> covered elements x) /\ get_parent_elements elements header = Ok [e]).
Proof. apply first_uncovered_spec. Qed.

(** On a flat set of elements (none is an ancestor of another) the
    reconciliation returns only the first, not all of them. *)
Theorem get_parent_elements_flat `{DomLaws} e rest header :
  (forall x y, x ∈ e :: rest -> y ∈ e :: rest -> ~ ancestor x y) ->
  get_parent_elements (e :: rest) header = Ok [e].
Proof.
  intros Hflat. apply first_uncovered_uncovered. intros (x & Hx & [Ha|Ha]);
    [eapply (Hflat x e)|eapply (Hflat e x)]; eauto; set_solver.
Qed.

Lemma get_parent_elements_flat_witness :
  @get_parent_elements (page_driver ex_page) [7; 8] "Age" = Ok [7].
Proof.
  apply (@get_parent_elements_flat _ (page_laws ex_page eq_refl)).
  intros x y Hx Hy. list_members Hx; list_members Hy; vm_compute; discriminate.
Defined.

(** C10: of an element nested in another (a span in a link), neither is
    returned, in either order: both are covered. *)
Theorem get_parent_elements_nested_pair `{DomLaws} outer inner header :
  ancestor outer inner ->
  get_parent_elements [outer; inner] header = Ok [] /\
  get_parent_elements [inner; outer] header = Ok [].
Proof.
  intros Ha. unfold get_parent_elements.
  split; apply first_uncovered_all_covered; intros e He; list_members He;
    [exists inner|exists outer|exists outer|exists inner]; unfold nested; set_solver.
Qed.

Lemma get_parent_elements_nested_pair_witness :
  @get_parent_elements (page_driver ex_page) [3; 4] "Name" = Ok [] /\
  @get_parent_elements (page_driver ex_page) [4; 3] "Name" = Ok [].
Proof. apply (@get_parent_elements_nested_pair _ (page_laws ex_page eq_refl)). vm_compute. reflexivity. Defined.

(** [get_value] falls back to the contents of the parent when every
    value element is nested in another; otherwise it is the string of the
    contents of the first uncovered value element in tag-name order, or
    [''] when those are empty. *)
Theorem get_value_cases `{DomLaws} vs parent header :
  let elements := sort_by tag_name str_leb (find_elements vs (Some parent)) in
  ((forall e, e ∈ elements -> covered elements e) /\
     get_value vs parent header = Ok (get_element_contents parent)) \/
  (exists l1 e l2, elements = l1 ++ e :: l2 /\ ~ covered elements e /\
     (forall x, x ∈ l1 -> covered elements x) /\
     get_value vs parent header =
       Ok (VStr (if truthy (get_element_contents e) then py_str (get_element_contents e)
                 else EmptyString))).
Proof.
  intros elements. unfold get_value. fold elements. unfold get_parent_elements.
  destruct (first_uncovered_spec elements elements) as [[-> Hall]|(l1 & e & l2 & Hel & He & Hl1 & ->)].
  - by left.
  - right. exists l1, e, l2. do 3 (split; [done|]). simpl.
    destruct (truthy (get_element_contents e)) eqn:Ht;
      [rewrite filter_cons_True by done|rewrite filter_cons_False by congruence]; done.
Qed.

(** A value that is a single link is stringified with the dataclass
    representation of [Link]. *)
Example get_value_link_repr :
  @get_value (page_driver ex_page) (CssSelector "span, a") 9 "Ref" =
    Ok (VStr "Link(href='/x', name='Foo')").
Proof. vm_compute. reflexivity. Qed.

(** A link is extracted with its stripped [href] and its text with
    the markup removed and the whitespace collapsed. *)
Example get_element_contents_anchor :
  @get_element_contents (page_driver ex_page) 11 = VLink (mkLink (Some "/a") (Some "Foo Bar")).
Proof. vm_compute. reflexivity. Qed.

(** A link is [None] exactly when both its [href] and its text are
    empty. *)
Theorem get_element_contents_anchor_none `{Driver} e :
  tag_name e = "a" ->
  (get_element_contents e = VNone <-> get_href (Some e) = Some EmptyString /\ get_text (Some e) = Some EmptyString).
Proof.
  intros Ha. unfold get_element_contents. rewrite Ha. simpl.
  destruct (String.eqb_spec (PyStr.strip (default EmptyString (get_attribute e "href"))) EmptyString) as [->|Hh];
  destruct (String.eqb_spec (text_of e) EmptyString) as [->|Ht]; simpl;
    split; intros; try done; naive_solver.
Qed.

Lemma get_element_contents_anchor_none_witness :
  @get_element_contents (page_driver ex_page) 12 = VNone.
Proof.
  apply (@get_element_contents_anchor_none (page_driver ex_page) 12); vm_compute; [reflexivity|].
  split; reflexivity.
Defined.

(** An anchor without [href]. *)
Definition nohref_page : page := tag_page [mkNode 0 None "a" "Next" [] "Next"].

(** C11: an anchor is extracted as a [Link] that breaks the dataclass's
    annotations ([href: str], [name: str]) exactly when one of its [href]
    and its text is empty and the other is not: [cleanse] turns the empty
    one into [None], which is stored in the field, since the guard returns
    [None] only when both are empty. *)
Theorem get_element_contents_ill_typed_link `{Driver} e :
  tag_name e = "a" ->
  ((exists l, get_element_contents e = VLink l /\ link_well_typed l = false) <->
   (get_href (Some e) = Some EmptyString /\ get_text (Some e) <> Some EmptyString) \/
   (get_href (Some e) <> Some EmptyString /\ get_text (Some e) = Some EmptyString)).
Proof.
  intros Ha. unfold get_element_contents. rewrite Ha. simpl.
  destruct (String.eqb_spec (PyStr.strip (default EmptyString (get_attribute e "href"))) EmptyString) as [->|Hh];
  destruct (String.eqb_spec (text_of e) EmptyString) as [->|Ht]; simpl;
    unfold link_well_typed, cleanse; simpl;
    repeat (rewrite ?(proj2 (String.eqb_neq _ _)) by done); simpl;
    split; intros; naive_solver.
Qed.

Lemma get_element_contents_ill_typed_link_witness :
  exists l, @get_element_contents (page_driver nohref_page) 0 = VLink l /\ link_well_typed l = false.
Proof.
  apply (proj2 (@get_element_contents_ill_typed_link (page_driver nohref_page) 0 eq_refl)).
  left. vm_compute. split; [reflexivity|discriminate].
Defined.

End Scrubber.
