(* ===== verification/Scrubbers.v ===== *)
(** The three scrubbers of [src/lbrc_selenium/selenium.py] (lines
    535-620): [KeyValuePairScrubber], [ListScrubber] and [TableScrubber],
    each its constructor's selectors (with the defaults of the code) and
    its [_scrape_details].  They combine [Scrubber.get_value] with the
    [VersionTranslator] of the scrubber and the helper's [compare_version];
    both are passed explicitly.  [Scrubber.__init__] (lines 473-475)
    supplies a fresh [VersionTranslator()] when none is given
    ([scrubber_comparator]).  Python's [sorted] is modelled with the
    [TypeError] it raises when it compares values of different types. *)

From S2P Require Import Prelude PyStr Values Version VersionTranslator Dom Helper Scrubber.

Module Scrubbers.
Import Dom Helper Values Scrubber VersionTranslator.

(** ** Python's [sorted] on scraped values *)

(** [sorted(details)] on a list of [get_value] results: strings compare by
    code points; [None] and [Link] (a dataclass without [order=True]) support
    no [<], so two or more values of which one is not a string raise
    [TypeError].  A list of at most one value is returned without a
    comparison. *)
Definition is_str (v : pyval) : bool := match v with VStr _ => true | _ => false end.

Definition str_of (v : pyval) : string := match v with VStr s => s | _ => EmptyString end.

Definition py_sorted_vals (l : list pyval) : result (list pyval) :=
  match l with
  | [] | [_] => Ok l
  | _ => if forallb is_str l then Ok (sort_by str_of str_leb l) else Err TypeError
  end.

(** ** [KeyValuePairScrubber] *)

Record kv_config := mkKvConfig {
  kv_parent_selector : Selector;
  kv_pair_selector : Selector;
  kv_key_selector : Selector;
  kv_value_selector : Selector
}.

Definition kv_defaults : kv_config :=
  mkKvConfig (CssSelector "ul") (CssSelector "li") (CssSelector "strong") (CssSelector "span, a").

Record list_config := mkListConfig {
  l_parent_selector : Selector;
  l_value_selector : Selector
}.

Definition list_defaults : list_config := mkListConfig (CssSelector "ul") (CssSelector "li").

Record table_config := mkTableConfig {
  t_parent_selector : Selector;
  t_header_selector : Selector;
  t_row_selector : Selector;
  t_cell_selector : Selector;
  t_value_selector : Selector
}.

Definition table_defaults : table_config :=
  mkTableConfig (CssSelector "table") (CssSelector "thead tr th") (CssSelector "tbody tr")
    (CssSelector "td") (CssSelector "span, a").

(** [Scrubber.__init__]: [version_comparator or VersionTranslator()]; a
    [VersionTranslator] defines neither [__bool__] nor [__len__], so a
    given one is always kept. *)
Definition scrubber_comparator (version_comparator : option VersionTranslator.state)
    : VersionTranslator.state :=
  match version_comparator with
  | Some vc => vc
  | None => VersionTranslator.init
  end.

(** [KeyValuePairScrubber.__init__]: each selector [or] its default (a
    [Selector] is always true). *)
Definition kv_init (parent_selector pair_selector key_selector value_selector : option Selector)
    : kv_config :=
  mkKvConfig (default (kv_parent_selector kv_defaults) parent_selector)
    (default (kv_pair_selector kv_defaults) pair_selector)
    (default (kv_key_selector kv_defaults) key_selector)
    (default (kv_value_selector kv_defaults) value_selector).

(** [ListScrubber.__init__] *)
Definition list_init (parent_selector value_selector : option Selector) : list_config :=
  mkListConfig (default (l_parent_selector list_defaults) parent_selector)
    (default (l_value_selector list_defaults) value_selector).

(** [TableScrubber.__init__] *)
Definition table_init (parent_selector header_selector row_selector cell_selector value_selector
    : option Selector) : table_config :=
  mkTableConfig (default (t_parent_selector table_defaults) parent_selector)
    (default (t_header_selector table_defaults) header_selector)
    (default (t_row_selector table_defaults) row_selector)
    (default (t_cell_selector table_defaults) cell_selector)
    (default (t_value_selector table_defaults) value_selector).

(** The sort key of [TableScrubber]: [str(d[h0])] for the first non-empty
    header [h0] of the (filtered, not cleansed) headers. *)
Definition nonempty_headers (headers : list string) : list string :=
  filter (fun h => str_truthy (Some h) = true) headers.

Definition row_key (h0 : string) (d : list (string * pyval)) : result string :=
  match dict_get h0 d with Some v => Ok (py_str v) | None => Err KeyError end.

(** [sorted(result, key=lambda d: str(d[[h for h in filter(None, headers)][0]]))]:
    the keys of all rows are computed first, in order; an empty [result]
    computes none. *)
Definition table_sort (headers : list string) (rows : list (list (string * pyval)))
    : result (list (list (string * pyval))) :=
  match rows with
  | [] => Ok []
  | _ =>
      match nonempty_headers headers with
      | [] => Err IndexError
      | h0 :: _ =>
          let* keyed := mapR (fun d => let* k := row_key h0 d in Ok (k, d)) rows in
          Ok (map snd (sort_by fst str_leb keyed))
      end
  end.

(** The header of the [i]th cell: the cleansed [i]th header, or [str(i)]
    past the headers. *)
Definition cell_header (headers : list string) (i : nat) : option string :=
  match headers !! i with
  | Some h => cleanse (Some h)
  | None => Some (PyStr.str_nat i)
  end.

Section scrubbers.
Context `{Driver}.
Variable vc : VersionTranslator.state.
(** [helper.compare_version] *)
Variable compare_version : string.

(** One [kvpair] of [KeyValuePairScrubber._scrape_details]. *)
Definition kv_pair_step (cfg : kv_config) (details : list (string * pyval)) (kvpair : elem)
    : result (list (string * pyval)) :=
  let* title := get_element (kv_key_selector cfg) true (Some kvpair) in
  let header := cleanse (get_text title) in
  match header with
  | Some h =>
      if str_truthy header then
        let* v := get_value (kv_value_selector cfg) kvpair EmptyString in
        Ok (dict_set h v details)
      else Ok details
  | None => Ok details
  end.

Definition kv_details (cfg : kv_config) (parent : elem) : result (list (string * pyval)) :=
  foldlR (kv_pair_step cfg) [] (get_elements (kv_pair_selector cfg) (Some parent)).

Definition kv_scrape_details (cfg : kv_config) (parent : elem)
    : result (list (string * pyval)) :=
  let* details := kv_details cfg parent in
  translate_dictionary compare_version details vc.

(** [ListScrubber._scrape_details] *)
Definition list_scrape_details (cfg : list_config) (parent : elem) : result (list pyval) :=
  let* details := mapR (fun v => get_value (l_value_selector cfg) v EmptyString)
                    (get_elements (l_value_selector cfg) (Some parent)) in
  py_sorted_vals details.

(** The cells of one row, [enumerate]d. *)
Fixpoint table_cells (cfg : table_config) (headers : list string) (i : nat) (cells : list elem)
    (details : list (string * pyval)) : result (list (string * pyval)) :=
  match cells with
  | [] => Ok details
  | cell :: cells' =>
      let header := cell_header headers i in
      match header with
      | Some h =>
          if str_truthy header then
            let* v := get_value (t_value_selector cfg) cell h in
            table_cells cfg headers (S i) cells' (dict_set h v details)
          else table_cells cfg headers (S i) cells' details
      | None => table_cells cfg headers (S i) cells' details
      end
  end.

Definition table_row (cfg : table_config) (headers : list string) (row : elem)
    : result (list (string * pyval)) :=
  let* details := table_cells cfg headers 0 (get_elements (t_cell_selector cfg) (Some row)) [] in
  translate_dictionary compare_version details vc.

(** [TableScrubber._scrape_details] *)
Definition table_scrape_details (cfg : table_config) (parent : elem)
    : result (list (list (string * pyval))) :=
  let headers := map (fun h => default EmptyString (get_text (Some h)))
                   (get_elements (t_header_selector cfg) (Some parent)) in
  let* headers := cleanse_headers compare_version headers vc in
  let* result := mapR (table_row cfg headers) (get_elements (t_row_selector cfg) (Some parent)) in
  table_sort headers result.
End scrubbers.

(** The key a sorted table has its rows in: [str(d[h0])], [''] for a row
    without [h0] (there is none in a sorted table). *)
Definition sort_key (h0 : string) (d : list (string * pyval)) : string :=
  default EmptyString (py_str <$> dict_get h0 d).

(** ** Example pages *)

Definition td (i p : nat) (s : string) : node := mkNode i (Some p) "td" s [] s.

(** A table with the headers [Name], [Age], [Extra] and three rows whose
    names are [b], [a], [c]. *)
Definition table_nodes : list node := [
  mkNode 0 None "table" "" [] "";
  mkNode 1 (Some 0) "thead" "" [] ""; mkNode 2 (Some 1) "tr" "" [] "";
  mkNode 3 (Some 2) "th" "Name" [] ""; mkNode 4 (Some 2) "th" "Age" [] "";
  mkNode 5 (Some 2) "th" "Extra" [] "";
  mkNode 6 (Some 0) "tbody" "" [] "";
  mkNode 7 (Some 6) "tr" "" [] ""; td 8 7 "b"; td 9 7 "40"; td 10 7 "x";
  mkNode 11 (Some 6) "tr" "" [] ""; td 12 11 "a"; td 13 11 "30"; td 14 11 "y";
  mkNode 15 (Some 6) "tr" "" [] ""; td 16 15 "c"; td 17 15 "50"; td 18 15 "z"].

Definition table_page : page := tag_page table_nodes.

(** A list with two empty items. *)
Definition empty_items_page : page := tag_page [
  mkNode 0 None "ul" "" [] "";
  mkNode 1 (Some 0) "li" "" [] "";
  mkNode 2 (Some 0) "li" "" [] ""].

(** Rows named [b], [a], [c], and the same sorted. *)
Definition ex_rows : list (list (string * pyval)) :=
  [[("Name", VStr "b")]; [("Name", VStr "a")]; [("Name", VStr "c")]].

Definition ex_sorted_rows : list (list (string * pyval)) :=
  [[("Name", VStr "a")]; [("Name", VStr "b")]; [("Name", VStr "c")]].

(** ** Lemmas *)

Lemma row_key_Ok h0 d k :
  row_key h0 d = Ok k -> sort_key h0 d = k /\ is_Some (dict_get h0 d).
Proof.
  unfold row_key, sort_key. destruct (dict_get h0 d); simpl; [|discriminate].
  intros [= <-]. split; [done|by eexists].
Qed.

Lemma str_truthy_Some h : str_truthy (Some h) = true -> h <> EmptyString.
Proof. simpl. intros Ht ->. discriminate. Qed.

(** One step of [KeyValuePairScrubber]'s loop keeps the labels distinct and
    non-empty. *)
Lemma kv_pair_step_keys `{Driver} cfg details kvpair details' :
  kv_pair_step cfg details kvpair = Ok details' ->
  NoDup (map fst details) -> Forall (fun k => k <> EmptyString) (map fst details) ->
  NoDup (map fst details') /\ Forall (fun k => k <> EmptyString) (map fst details').
Proof.
  unfold kv_pair_step. intros Hstep Hnd Hne.
  destruct (get_element _ _ _) as [title|]; simpl in Hstep; [|discriminate].
  destruct (cleanse (get_text title)) as [h|] eqn:Hc; [|by injection Hstep as <-].
  destruct (str_truthy (Some h)) eqn:Ht; [|by injection Hstep as <-].
  destruct (get_value _ _ _); simpl in Hstep; [|discriminate]. injection Hstep as <-.
  split; [by apply dict_set_nodup|]. rewrite dict_set_keys. case_decide; [done|].
  apply Forall_app. split; [done|]. constructor; [by apply str_truthy_Some|constructor].
Qed.

(** ** Theorems *)

(** C12: the rows of a [TableScrubber] come back as a permutation of the
    translated rows, each holding the first non-empty header, sorted by the
    string of their value under it. *)
Theorem table_sort_sorted headers rows out :
  table_sort headers rows = Ok out ->
  out ≡ₚ rows /\
  forall h0 hs, nonempty_headers headers = h0 :: hs ->
    (forall d, d ∈ out -> is_Some (dict_get h0 d)) /\
    Sorted (fun d1 d2 => str_leb (sort_key h0 d1) (sort_key h0 d2) = true) out.
Proof.
  unfold table_sort. destruct rows as [|r rows'].
  { intros [= <-]. split; [done|]. intros. split; [set_solver|constructor]. }
  destruct (nonempty_headers headers) as [|h hs'] eqn:Hh; [discriminate|].
  destruct (mapR _ _) as [keyed|] eqn:Hk; simpl; [|discriminate]. intros [= <-].
  apply mapR_keyed in Hk as [Hsnd HF]. rewrite Forall_forall in HF.
  assert (Hin : forall p, p ∈ sort_by fst str_leb keyed -> row_key h p.2 = Ok p.1).
  { intros p Hp. apply HF. by rewrite <-(sort_by_perm fst str_leb keyed). }
  split; [by rewrite sort_by_perm, Hsnd|]. intros h0 hs [= <- _]. split.
  - intros d (p & -> & Hp)%list_elem_of_fmap. exact (proj2 (row_key_Ok _ _ _ (Hin p Hp))).
  - apply Sorted_map_weaken with (R := fun a b => str_leb a.1 b.1 = true).
    + intros p q Hp Hq. by rewrite (proj1 (row_key_Ok _ _ _ (Hin p Hp))),
        (proj1 (row_key_Ok _ _ _ (Hin q Hq))).
    + apply sort_by_sorted, str_leb_total.
Qed.

Lemma table_sort_sorted_witness :
  table_sort ["Name"; "Age"] ex_rows = Ok ex_sorted_rows /\
  Sorted (fun d1 d2 => str_leb (sort_key "Name" d1) (sort_key "Name" d2) = true) ex_sorted_rows.
Proof.
  assert (H : table_sort ["Name"; "Age"] ex_rows = Ok ex_sorted_rows) by (vm_compute; reflexivity).
  split; [exact H|].
  exact (proj2 (proj2 (table_sort_sorted _ _ _ H) "Name" ["Age"] eq_refl)).
Defined.

(** C13: the sort of a non-empty table raises [IndexError] when no header
    is non-empty, and [KeyError] when a row lacks the first non-empty
    header (renamed by a translation, or never set). *)
Theorem table_sort_errors headers rows :
  rows <> [] ->
  (nonempty_headers headers = [] -> table_sort headers rows = Err IndexError) /\
  (forall h0 hs, nonempty_headers headers = h0 :: hs ->
     (exists d, d ∈ rows /\ dict_get h0 d = None) -> table_sort headers rows = Err KeyError).
Proof.
  intros Hne. unfold table_sort. destruct rows as [|r rows']; [done|].
  split; [by intros ->|]. intros h0 hs -> (d & Hd & Hget).
  rewrite (mapR_Err _ _ KeyError); [done| |].
  - intros x e' _. unfold row_key. by destruct (dict_get h0 x); simpl; [|intros [= <-]].
  - exists d. split; [done|]. exists KeyError. unfold row_key. by rewrite Hget.
Qed.

Lemma table_sort_errors_witness :
  table_sort [EmptyString] ex_rows = Err IndexError /\
  table_sort ["Full name"] ex_rows = Err KeyError.
Proof.
  split.
  - apply (proj1 (table_sort_errors [EmptyString] ex_rows ltac:(discriminate))). reflexivity.
  - apply (proj2 (table_sort_errors ["Full name"] ex_rows ltac:(discriminate)) "Full name" []);
      [reflexivity|].
    exists [("Name", VStr "b")]. split; [left|reflexivity].
Defined.

(** [sorted] on scraped values raises [TypeError] exactly when there are
    two or more values and one is not a string; otherwise it returns them
    sorted by code points. *)
Lemma py_sorted_vals_spec l :
  (py_sorted_vals l = Err TypeError <-> 2 <= length l /\ exists v, v ∈ l /\ is_str v = false) /\
  (forall out, py_sorted_vals l = Ok out ->
     out ≡ₚ l /\ Sorted (fun a b => str_leb (str_of a) (str_of b) = true) out).
Proof.
  destruct l as [|a [|b l]].
  - split; [simpl; split; [discriminate|lia]|]. intros out [= <-]. split; constructor.
  - split; [simpl; split; [discriminate|lia]|]. intros out [= <-]. split; repeat constructor.
  - unfold py_sorted_vals. destruct (forallb is_str (a :: b :: l)) eqn:Hf; split.
    + split; [discriminate|]. intros (_ & v & Hv & Hs).
      rewrite forallb_forall in Hf. rewrite (Hf v) in Hs; [discriminate|by apply list_elem_of_In].
    + intros out [= <-]. split; [apply (sort_by_perm str_of str_leb (a :: b :: l))|].
      apply (sort_by_sorted str_of str_leb (a :: b :: l)), str_leb_total.
    + split; [|done]. intros _. split; [simpl; lia|].
      apply not_true_iff_false in Hf. rewrite forallb_forall in Hf.
      destruct (decide (Exists (fun v => is_str v = false) (a :: b :: l))) as [Hex|Hno].
      * apply Exists_exists in Hex as (v & Hv & Hs). by exists v.
      * exfalso. apply Hf. intros v Hv. apply not_false_iff_true. intros Hs.
        apply Hno, Exists_exists. exists v. split; [by apply list_elem_of_In|done].
    + discriminate.
Qed.

(** C14: a [ListScrubber] whose items' values are [vals] (the [get_value]
    of each item, in page order) raises [TypeError] exactly when there are
    two or more items and one of them gives [None] or a [Link]; otherwise
    it returns the values sorted by code points. *)
Theorem list_scrape_details_spec `{Driver} cfg parent vals :
  mapR (fun v => get_value (l_value_selector cfg) v EmptyString)
    (get_elements (l_value_selector cfg) (Some parent)) = Ok vals ->
  (list_scrape_details cfg parent = Err TypeError <->
     2 <= length vals /\ exists v, v ∈ vals /\ is_str v = false) /\
  (forall out, list_scrape_details cfg parent = Ok out ->
     out ≡ₚ vals /\ Sorted (fun a b => str_leb (str_of a) (str_of b) = true) out).
Proof. intros Hv. unfold list_scrape_details. rewrite Hv. apply py_sorted_vals_spec. Qed.

(** The keys [kv_details] collects. *)
Lemma kv_details_post `{Driver} cfg parent details :
  kv_details cfg parent = Ok details ->
  NoDup (map fst details) /\ Forall (fun k => k <> EmptyString) (map fst details).
Proof.
  intros Hk.
  refine (foldlR_invariant (fun d => NoDup (map fst d) /\ Forall (fun k => k <> EmptyString) (map fst d))
            _ _ _ _ _ _ Hk); [|split; constructor].
  intros acc x acc' [Hnd Hne] _ Hstep. by apply (kv_pair_step_keys cfg acc x).
Qed.

(** C15: the labels of a [KeyValuePairScrubber] are distinct and
    non-empty: a pair without a key element, or with an empty label, is
    skipped. *)
Theorem kv_details_keys `{Driver} cfg parent details :
  kv_details cfg parent = Ok details ->
  NoDup (map fst details) /\ Forall (fun k => k <> EmptyString) (map fst details).
Proof. apply kv_details_post. Qed.

Lemma kv_details_keys_witness :
  @kv_details (page_driver ex_page) kv_defaults 0 = Ok [("Name", VStr "Name Bob"); ("Age", VStr "41")] /\
  NoDup ["Name"; "Age"] /\ Forall (fun k => k <> EmptyString) ["Name"; "Age"].
Proof.
  assert (H : @kv_details (page_driver ex_page) kv_defaults 0 =
                Ok [("Name", VStr "Name Bob"); ("Age", VStr "41")]) by (vm_compute; reflexivity).
  split; [exact H|]. exact (kv_details_keys _ _ _ H).
Defined.

(** A [TableScrubber] whose version allows the columns [Name] and
    [Age] drops the [Extra] column from every row (its cells are keyed by
    their position, ["2"], which the allow-list drops), and returns the
    rows sorted by [Name]. *)
Example table_scrape_allow_list :
  (let* vc := set_columns_for_version "1.0" (ColList ["Name"; "Age"]) VersionTranslator.init in
   @table_scrape_details (page_driver table_page) vc "1.0" table_defaults 0) =
  Ok [[("Age", VStr "30"); ("Name", VStr "a")];
      [("Age", VStr "40"); ("Name", VStr "b")];
      [("Age", VStr "50"); ("Name", VStr "c")]].
Proof. vm_compute. reflexivity. Qed.

(** A [TableScrubber] whose first header is renamed by the value
    translations of the version raises [KeyError]: the rows are sorted by
    the untranslated header. *)
Example table_scrape_renamed_header_key_error :
  (let* vc := set_value_translators_for_version "1.0" {["Name" := "Full name"]}
                VersionTranslator.init in
   @table_scrape_details (page_driver table_page) vc "1.0" table_defaults 0) = Err KeyError.
Proof. vm_compute. reflexivity. Qed.

(** A [ListScrubber] over a list with two empty items raises
    [TypeError]: each empty item gives [None], and [sorted] compares them. *)
Lemma list_scrape_details_spec_witness :
  @list_scrape_details (page_driver empty_items_page) list_defaults 0 = Err TypeError.
Proof.
  apply (proj2 (proj1 (@list_scrape_details_spec (page_driver empty_items_page) list_defaults 0
                         [VNone; VNone] ltac:(vm_compute; reflexivity)))).
  split; [simpl; lia|]. exists VNone. split; [left|reflexivity].
Defined.

(** C16: a [KeyValuePairScrubber] built without a [version_comparator]
    gets a fresh [VersionTranslator()], with no rules: whenever the
    helper's [compare_version] parses, its records are the collected
    label/value pairs sorted by label, untranslated and unfiltered. *)
Theorem kv_default_comparator_sorts `{Driver} parent_selector pair_selector key_selector
    value_selector compare_version v parent details :
  Version.parse compare_version = Ok v ->
  kv_details (kv_init parent_selector pair_selector key_selector value_selector) parent = Ok details ->
  kv_scrape_details (scrubber_comparator None) compare_version
    (kv_init parent_selector pair_selector key_selector value_selector) parent =
    Ok (sort_by fst str_leb details).
Proof.
  intros Hv Hk. unfold kv_scrape_details. rewrite Hk. simpl.
  apply (VersionTranslator.translate_dictionary_passthrough _ v); [done| | |].
  - intros k p. simpl. by rewrite lookup_empty.
  - intros k p. simpl. by rewrite lookup_empty.
  - exact (proj1 (kv_details_post _ _ _ Hk)).
Qed.

Lemma kv_default_comparator_sorts_witness :
  @kv_scrape_details (page_driver ex_page) (scrubber_comparator None) "0.0"
    (kv_init None None None None) 0 = Ok [("Age", VStr "41"); ("Name", VStr "Name Bob")].
Proof.
  apply (@kv_default_comparator_sorts (page_driver ex_page) None None None None "0.0"
           (Version.mkVersion [0; 0]) 0 [("Name", VStr "Name Bob"); ("Age", VStr "41")]);
    vm_compute; reflexivity.
Defined.

End Scrubbers.
