(* ===== verification/Actions.v ===== *)
(** The browser actions of [src/lbrc_selenium/selenium.py]: the
    [SeleniumHelper] methods that act on the page ([get], [get_parent],
    [get_element] with its exceptions, [type_in_textbox], [click_element],
    [click_all], lines 184-242) and the [Action] classes (lines 64-126),
    whose [do] retries [_do()].  The browser is the class [Browser]: a page
    state the driver reads and the effects change.  The code runs in a
    state-and-exception monad [M] over a [world], the page and the trace of
    the effects performed; an exception keeps the effects before it, as in
    Python.  A command sent while an alert is open dismisses it and raises
    [UnexpectedAlertPresentException] (WebDriver's default prompt
    handler).  Durations are milliseconds. *)

From S2P Require Import Prelude PyStr Dom Helper.

Module Actions.
Import Dom.

(** ** The browser *)

Class Browser := {
  bpage : Type;
  belem : Type;
  belem_eq_dec :: EqDecision belem;
  (** [(element or driver).find_elements(by, query)] on the current page *)
  b_find : bpage -> Selector -> option belem -> list belem;
  (** an alert is open *)
  b_alert : bpage -> bool;
  (** the page once the open alert is dismissed: WebDriver's default
      prompt handler ("dismiss and notify") answers a command sent while
      an alert is open by dismissing it and raising
      [UnexpectedAlertPresentException] *)
  b_dismiss : bpage -> bpage;
  (** [driver.get(url)] *)
  b_load : bpage -> string -> bpage;
  b_click : bpage -> belem -> bpage;
  b_clear : bpage -> belem -> bpage;
  b_send_keys : bpage -> belem -> string -> bpage
}.

Section browser.
Context `{Browser}.

Inductive event :=
  | EGet (url : string)
  | EClick (e : belem)
  | EClear (e : belem)
  | ESendKeys (e : belem) (text : string)
  | ESleep (ms : nat).

Record world := mkWorld { w_page : bpage; w_trace : list event }.

(** ** The monad *)

Definition M (A : Type) : Type := world -> result A * world.

#[export] Instance M_ret : MRet M := fun A a w => (Ok a, w).
#[export] Instance M_bind : MBind M := fun A B k m w =>
  match m w with
  | (Ok a, w') => k a w'
  | (Err e, w') => (Err e, w')
  end.

Definition raise {A} (e : py_exc) : M A := fun w => (Err e, w).

(** [try: m except e: handler(e)] *)
Definition try_except {A} (m : M A) (handler : py_exc -> M A) : M A := fun w =>
  match m w with
  | (Err e, w') => handler e w'
  | r => r
  end.

(** An effect on the page, recorded in the trace. *)
Definition effect (ev : event) (f : bpage -> bpage) : M unit := fun w =>
  (Ok tt, mkWorld (f (w_page w)) (w_trace w ++ [ev])).

Definition sleep (ms : nat) : M unit := effect (ESleep ms) id.
Definition click (e : belem) : M unit := effect (EClick e) (fun p => b_click p e).
Definition clear (e : belem) : M unit := effect (EClear e) (fun p => b_clear p e).
Definition send_keys (e : belem) (text : string) : M unit :=
  effect (ESendKeys e text) (fun p => b_send_keys p e text).

(** A command sent while an alert is open: the alert is dismissed and
    [UnexpectedAlertPresentException] raised. *)
Definition dismiss (w : world) : world := mkWorld (b_dismiss (w_page w)) (w_trace w).

(** [self.driver.get(url)]: navigation handles an open alert too. *)
Definition navigate (url : string) : M unit := fun w =>
  if b_alert (w_page w) then (Err UnexpectedAlertPresentException, dismiss w)
  else effect (EGet url) (fun p => b_load p url) w.

(** ** [SeleniumHelper]'s page actions *)

(** [(element or self.driver).find_element(selector.by, selector.query)] *)
Definition find_element (selector : Selector) (element : option belem) : M belem := fun w =>
  if b_alert (w_page w) then (Err UnexpectedAlertPresentException, dismiss w)
  else match b_find (w_page w) selector element with
       | e :: _ => (Ok e, w)
       | [] => (Err NoSuchElementException, w)
       end.

(** [get_element(selector, allow_null, element)]: [NoSuchElementException]
    is re-raised unless [allow_null], which returns [None]; other
    exceptions propagate. *)
Definition get_element (selector : Selector) (allow_null : bool) (element : option belem)
    : M (option belem) :=
  try_except (e ← find_element selector element; mret (Some e))
    (fun ex => match ex with
               | NoSuchElementException => if allow_null then mret None else raise ex
               | _ => raise ex
               end).

(** [get_parent(element)] *)
Definition get_parent (element : belem) : M (option belem) :=
  get_element (XpathSelector "./..") false (Some element).

(** [e.clear()] on [None] raises [AttributeError]; [get_element] with
    [allow_null=False] never returns [None]. *)
Definition type_in_textbox (selector : Selector) (text : string) (element : option belem)
    : M belem :=
  oe ← get_element selector false element;
  match oe with
  | Some e => clear e;; send_keys e text;; mret e
  | None => raise AttributeError
  end.

Variable click_wait_time : nat.

Definition click_element (selector : Selector) (element : option belem) : M belem :=
  oe ← get_element selector false element;
  match oe with
  | Some e => click e;; sleep click_wait_time;; mret e
  | None => raise AttributeError
  end.

(** [click_all(selector, element)]: [while True] with [fuel] iterations;
    each search is made inside the element clicked last, since the loop
    rebinds [element]. *)
Fixpoint click_all (fuel : nat) (selector : Selector) (element : option belem) : M unit :=
  match fuel with
  | 0 => mret tt
  | S f =>
      oe ← get_element selector true element;
      match oe with
      | None => mret tt
      | Some e => click e;; sleep click_wait_time;; click_all f selector (Some e)
      end
  end.

Variable urljoin : string -> string -> string.
Variable base_url : string.

(** The [for i in range(20)] loop of [get]: the exception of a lookup
    that met an alert (which the driver has dismissed) is caught and
    followed by [sleep(1)]; any other exception propagates; a found body
    does not end the loop. *)
Fixpoint get_body_loop (n : nat) : M unit :=
  match n with
  | 0 => mret tt
  | S n' =>
      try_except (get_element (CssSelector "body") false None;; mret tt)
        (fun ex => match ex with
                   | UnexpectedAlertPresentException => sleep 1000
                   | _ => raise ex
                   end);;
      get_body_loop n'
  end.

Definition get (url : string) : M unit :=
  navigate (urljoin base_url url);; get_body_loop 20.

(** ** [Action] *)

(** [Action.do()] with [fuel] iterations of its [while True]: [_do()]
    is retried after [sleep(1)] until it has raised with [retried > 2]. *)
Fixpoint do_run (fuel retried : nat) (body : M unit) : M unit :=
  match fuel with
  | 0 => mret tt
  | S f =>
      try_except body
        (fun ex => if 2 <? retried then raise ex else sleep 1000;; do_run f (S retried) body)
  end.

Definition action_do_m (body : M unit) : M unit := do_run 4 0 body.

(** [SelectAction._do] *)
Definition select_do (select_selector item_selector : Selector) : M unit :=
  click_element select_selector None;; click_element item_selector None;; mret tt.

(** [TypeInTextboxAction._do] calls [self.helper.type_in_textbox_selector],
    which [SeleniumHelper] does not define: the attribute lookup raises
    [AttributeError] before any effect. *)
Definition type_in_textbox_do (selector : Selector) (text : string) : M unit :=
  raise AttributeError.

(** [ClickAction._do] *)
Definition click_do (selector : Selector) : M unit := click_element selector None;; mret tt.

(** [EnsureAction._do] calls [self.helper.get_element_selector], which is
    not defined either. *)
Definition ensure_do (selector : Selector) : M unit := raise AttributeError.
End browser.

(** A page that clicks and typing do not change, read through [Dom]'s
    concrete pages. *)
Definition static_browser (pg : page) : Browser := {|
  bpage := unit;
  belem := nat;
  b_find _ := page_find pg;
  b_alert _ := false;
  b_dismiss p := p;
  b_load p _ := p;
  b_click p _ := p;
  b_clear p _ := p;
  b_send_keys p _ _ := p
|}.

(** Two sibling buttons in a [div]. *)
Definition buttons_page : page := tag_page [
  mkNode 0 None "body" "" [] "";
  mkNode 1 (Some 0) "div" "" [] "";
  mkNode 2 (Some 1) "button" "More" [] "More";
  mkNode 3 (Some 1) "button" "More" [] "More"].

(** The loop of [Action.do] as [Helper.do_loop] sees it: the world before
    the [i]th call of [_do()] when the calls before it all raised, and
    the outcome of that call. *)
Section outcomes.
Context `{Browser}.
Variable body : M unit.

Fixpoint nth_world (w : world) (i : nat) : world :=
  match i with
  | 0 => w
  | S i' => snd (sleep 1000 (snd (body (nth_world w i'))))
  end.

Definition outcome (w : world) (i : nat) : option py_exc :=
  match fst (body (nth_world w i)) with
  | Ok _ => None
  | Err e => Some e
  end.
End outcomes.

(** What [do_loop]'s answer says of [Action.do]'s. *)
Definition of_loop (r : option (result nat)) : result unit :=
  match r with
  | Some (Err e) => Err e
  | _ => Ok tt
  end.

(** ** Lemmas *)

Section lemmas.
Context `{Browser}.

Lemma bind_Ok {A B} (m : M A) (k : A -> M B) w a w' :
  m w = (Ok a, w') -> (x ← m; k x) w = k a w'.
Proof. intros Hm. unfold mbind, M_bind. by rewrite Hm. Qed.

Lemma bind_Err {A B} (m : M A) (k : A -> M B) w e w' :
  m w = (Err e, w') -> (x ← m; k x) w = (Err e, w').
Proof. intros Hm. unfold mbind, M_bind. by rewrite Hm. Qed.

Lemma get_element_cases selector allow_null element w :
  get_element selector allow_null element w =
  if b_alert (w_page w) then (Err UnexpectedAlertPresentException, dismiss w)
  else match b_find (w_page w) selector element with
       | e :: _ => (Ok (Some e), w)
       | [] => if allow_null then (Ok None, w) else (Err NoSuchElementException, w)
       end.
Proof.
  unfold get_element, try_except, find_element, mbind, M_bind, mret, M_ret, raise.
  destruct (b_alert _); [done|]. destruct (b_find _ _ _); [by destruct allow_null|done].
Qed.

Lemma get_element_bind {A} selector allow_null element (k : option belem -> M A) w :
  (oe ← get_element selector allow_null element; k oe) w =
  if b_alert (w_page w) then (Err UnexpectedAlertPresentException, dismiss w)
  else match b_find (w_page w) selector element with
       | e :: _ => k (Some e) w
       | [] => if allow_null then k None w else (Err NoSuchElementException, w)
       end.
Proof.
  unfold mbind at 1, M_bind at 1. rewrite get_element_cases.
  destruct (b_alert _); [done|]. destruct (b_find _ _ _); [by destruct allow_null|done].
Qed.

Lemma effect_app ev f w :
  effect ev f w = (Ok tt, mkWorld (f (w_page w)) (w_trace w ++ [ev])).
Proof. done. Qed.

(** One lookup of [get]'s loop. *)
Lemma body_lookup_cases w :
  try_except (get_element (CssSelector "body") false None;; mret tt)
    (fun ex => match ex with
               | UnexpectedAlertPresentException => sleep 1000
               | _ => raise ex
               end) w =
  if b_alert (w_page w) then sleep 1000 (dismiss w)
  else match b_find (w_page w) (CssSelector "body") None with
       | [] => (Err NoSuchElementException, w)
       | _ => (Ok tt, w)
       end.
Proof.
  unfold try_except, mbind, M_bind. rewrite get_element_cases.
  destruct (b_alert _); [done|]. by destruct (b_find _ _ _).
Qed.

Lemma get_body_loop_S n w :
  get_body_loop (S n) w =
  if b_alert (w_page w) then get_body_loop n (snd (sleep 1000 (dismiss w)))
  else match b_find (w_page w) (CssSelector "body") None with
       | [] => (Err NoSuchElementException, w)
       | _ => get_body_loop n w
       end.
Proof.
  cbn [get_body_loop]. unfold mbind at 1, M_bind at 1. rewrite body_lookup_cases.
  destruct (b_alert _); [done|]. by destruct (b_find _ _ _).
Qed.

Lemma get_body_loop_no_alert n w :
  b_alert (w_page w) = false -> 0 < n ->
  get_body_loop n w =
    match b_find (w_page w) (CssSelector "body") None with
    | [] => (Err NoSuchElementException, w)
    | _ => (Ok tt, w)
    end.
Proof.
  revert w. induction n as [|n IH]; intros w Ha Hn; [lia|].
  rewrite get_body_loop_S, Ha. destruct (b_find _ _ _) as [|e l] eqn:Hf; [done|].
  destruct n as [|n]; [done|]. rewrite IH by (done || lia). by rewrite Hf.
Qed.

(** [Action.do] one iteration at a time, against [Helper.do_loop]. *)
Lemma do_run_loop (body : M unit) w f r :
  fst (do_run f r body (nth_world body w r)) = of_loop (Helper.do_loop f r (outcome body w)).
Proof.
  revert r. induction f as [|f IH]; intros r; [done|]. cbn [do_run Helper.do_loop].
  unfold try_except. unfold outcome at 1.
  destruct (body (nth_world body w r)) as [[[]|e] w'] eqn:Hb; simpl; [done|].
  destruct (2 <? r); [reflexivity|].
  unfold mbind, M_bind. simpl. rewrite <-IH. simpl. by rewrite Hb.
Qed.
End lemmas.

(** ** Theorems *)

(** C17: [TypeInTextboxAction] and [EnsureAction] always fail: their
    [_do()] calls a helper method that does not exist, so [do()] sleeps
    three times and raises [AttributeError], touching nothing on the page. *)
Theorem missing_method_actions_fail `{Browser} selector text w :
  let failed := (Err AttributeError,
                 mkWorld (w_page w) (w_trace w ++ [ESleep 1000; ESleep 1000; ESleep 1000])) in
  action_do_m (type_in_textbox_do selector text) w = failed /\
  action_do_m (ensure_do selector) w = failed.
Proof.
  cbv zeta. unfold action_do_m.
  split; cbv [do_run try_except mbind M_bind sleep effect raise type_in_textbox_do ensure_do];
    simpl; by rewrite <-!app_assoc.
Qed.

(** [type_in_textbox] clears the first match and then types into it;
    [click_element] clicks the first match and then sleeps
    [click_wait_time]; both raise, with no effect, when nothing matches,
    and raise dismissing the alert when one is open. *)
Theorem page_actions_spec `{Browser} click_wait_time selector text element w :
  type_in_textbox selector text element w =
    (if b_alert (w_page w) then (Err UnexpectedAlertPresentException, dismiss w)
     else match b_find (w_page w) selector element with
          | e :: _ => (Ok e, mkWorld (b_send_keys (b_clear (w_page w) e) e text)
                                     (w_trace w ++ [EClear e; ESendKeys e text]))
          | [] => (Err NoSuchElementException, w)
          end) /\
  click_element click_wait_time selector element w =
    (if b_alert (w_page w) then (Err UnexpectedAlertPresentException, dismiss w)
     else match b_find (w_page w) selector element with
          | e :: _ => (Ok e, mkWorld (b_click (w_page w) e)
                                     (w_trace w ++ [EClick e; ESleep click_wait_time]))
          | [] => (Err NoSuchElementException, w)
          end).
Proof.
  unfold type_in_textbox, click_element. rewrite !get_element_bind.
  destruct (b_alert _); [done|]. destruct (b_find _ _ _); [done|].
  cbv [mbind M_bind mret M_ret clear click send_keys sleep effect]. simpl.
  by rewrite <-!app_assoc.
Qed.

(** C18: [get] with the driver's default prompt handler.  With an alert
    open before the call, [driver.get] dismisses it and raises.  Otherwise
    [get] loads [urljoin(base_url, url)]; an alert the loaded page opens is
    dismissed by the first lookup, whose exception [get] catches before
    sleeping one second (the alert is not accepted, as the commented-out
    [accept()] meant); afterwards [get] raises [NoSuchElementException]
    exactly when the page has no [body], a found [body] not ending the
    loop. *)
Theorem get_spec `{Browser} urljoin base_url url w :
  let u := urljoin base_url url in
  let p := b_load (w_page w) u in
  let q := if b_alert p then b_dismiss p else p in
  let t := (w_trace w ++ EGet u :: (if b_alert p then [ESleep 1000] else [])) in
  (b_alert (w_page w) = true ->
   get urljoin base_url url w = (Err UnexpectedAlertPresentException, dismiss w)) /\
  (b_alert (w_page w) = false -> b_alert q = false ->
   get urljoin base_url url w =
     match b_find q (CssSelector "body") None with
     | [] => (Err NoSuchElementException, mkWorld q t)
     | _ => (Ok tt, mkWorld q t)
     end).
Proof.
  cbv zeta. unfold get. split; intros Ha; unfold mbind at 1, M_bind at 1, navigate; rewrite Ha; [done|].
  rewrite effect_app, get_body_loop_S. cbn [w_page w_trace].
  destruct (b_alert (b_load _ _)) eqn:Hl; intros Hq.
  - rewrite get_body_loop_no_alert by (done || lia). cbn. rewrite <-app_assoc.
    by destruct (b_find _ _ _).
  - destruct (b_find _ _ _) as [|e l] eqn:Hf; [done|].
    rewrite get_body_loop_no_alert by (done || lia). cbn. by rewrite Hf.
Qed.

(** A page whose loading opens an alert that dismissing closes. *)
Definition onload_alert_browser : Browser := {|
  bpage := bool;
  belem := nat;
  b_find _ _ _ := [0];
  b_alert p := p;
  b_dismiss _ := false;
  b_load _ _ := true;
  b_click p _ := p;
  b_clear p _ := p;
  b_send_keys p _ _ := p
|}.

Lemma get_spec_witness :
  @get onload_alert_browser (fun b u => u) "" "/" (@mkWorld onload_alert_browser false []) =
    (Ok tt, @mkWorld onload_alert_browser false [EGet "/"; ESleep 1000]).
Proof.
  exact (proj2 (@get_spec onload_alert_browser (fun b u => u) "" "/"
                  (@mkWorld onload_alert_browser false [])) eq_refl eq_refl).
Defined.

(** C19: [click_all] terminates when a measure of the search scope
    decreases from each scope to the element found in it: any number of
    iterations above the measure of the first scope gives the same run. *)
Theorem click_all_fuel_enough `{Browser} click_wait_time (mu : option belem -> nat) selector :
  (forall p element e rest, b_find p selector element = e :: rest -> mu (Some e) < mu element) ->
  forall n m element w, mu element < n -> n <= m ->
    click_all click_wait_time n selector element w = click_all click_wait_time m selector element w.
Proof.
  intros Hmu n. induction n as [|n IH]; intros m element w Hn Hm; [lia|].
  destruct m as [|m]; [lia|]. cbn [click_all]. rewrite !get_element_bind.
  destruct (b_alert _); [done|]. destruct (b_find _ _ _) as [|e rest] eqn:Hf; [done|].
  cbv [mbind M_bind click sleep effect]. apply IH; [|lia]. specialize (Hmu _ _ _ _ Hf). lia.
Qed.

(** The measure for a static page: the number of nodes below the scope. *)
Definition below (pg : page) (element : option nat) : nat :=
  match element with
  | Some e => length (filter (fun x => is_ancestor pg e x = true) (ids pg))
  | None => S (length (ids pg))
  end.

Definition buttons_browser : Browser := static_browser buttons_page.
#[local] Existing Instance buttons_browser.

Lemma click_all_fuel_enough_witness :
  click_all 200 6 (CssSelector "button") None (mkWorld tt []) =
  click_all 200 100 (CssSelector "button") None (mkWorld tt []).
Proof.
  apply (@click_all_fuel_enough buttons_browser 200 (below buttons_page));
    [|vm_compute; lia..].
  intros p [s|] e rest Hf.
  - change (page_find buttons_page (CssSelector "button") (Some s) = e :: rest) in Hf.
    assert (Hs : s ∈ ids buttons_page).
    { assert (He : e ∈ page_find buttons_page (CssSelector "button") (Some s)) by (rewrite Hf; left).
      unfold page_find in He. rewrite decide_False in He by discriminate.
      apply list_elem_of_filter in He as [He _]. apply andb_prop in He as [_ He].
      exact (proj1 (is_ancestor_ids buttons_page eq_refl s e He)). }
    change (s ∈ [0; 1; 2; 3]) in Hs. list_members Hs; vm_compute in Hf; try discriminate;
      injection Hf as <- _; vm_compute; lia.
  - vm_compute in Hf. injection Hf as <- _. vm_compute. lia.
Defined.

(** C20: [click_all] searches inside the element it clicked last, not
    in the scope it was given: when the first match [e] holds no match once
    clicked, [click_all] clicks [e] alone and returns, whatever other
    matches the original scope holds. *)
Theorem click_all_rescopes `{Browser} click_wait_time n selector element w e rest :
  b_alert (w_page w) = false -> b_find (w_page w) selector element = e :: rest ->
  b_alert (b_click (w_page w) e) = false -> b_find (b_click (w_page w) e) selector (Some e) = [] ->
  click_all click_wait_time (S (S n)) selector element w =
    (Ok tt, mkWorld (b_click (w_page w) e) (w_trace w ++ [EClick e; ESleep click_wait_time])).
Proof.
  intros Ha Hf Ha' Hf'. cbn [click_all]. rewrite get_element_bind, Ha, Hf.
  erewrite bind_Ok by (unfold click; apply effect_app).
  erewrite bind_Ok by (unfold sleep; apply effect_app).
  cbn [click_all]. rewrite get_element_bind. cbn [w_page w_trace id].
  rewrite Ha', Hf'. by rewrite <-app_assoc.
Qed.

(** Two sibling buttons: only the first is clicked. *)
Lemma click_all_rescopes_witness :
  click_all 200 10 (CssSelector "button") None (mkWorld tt []) =
    (Ok tt, mkWorld tt [EClick 2; ESleep 200]).
Proof. exact (@click_all_rescopes buttons_browser 200 8 (CssSelector "button") None (mkWorld tt []) 2 [3] eq_refl eq_refl eq_refl eq_refl). Defined.

End Actions.
