(* ===== verification/Factory.v ===== *)
(** Browser setup: the factories that build a [SeleniumHelper] from the
    process environment.  [get_selenium], [get_selenium_grid_helper] and
    [get_selenium_local_helper] of [src/lbrc_selenium/selenium.py] (lines
    312-377), and [get_selenium] with the classes [SeleniumGridHelper] and
    [SeleniumLocalHelper] of [src/lbrc_selenium/__init__.py] (lines 23-43,
    194-240), with [close] (selenium.py lines 305-309).

    The model computes what the code constructs: the driver (a remote
    driver with its command executor and capabilities, or a Firefox driver
    with its profile preferences, headless flag and implicit wait) and the
    keyword arguments the helper receives.  [os.environ] is a dictionary;
    [float()] of an environment string is a parameter of the section (a
    library function), which raises only [ValueError].  The capabilities
    dictionary [DesiredCapabilities.CHROME] is the shared default argument
    of the grid factory, which mutates it in place: the model threads it
    as a store. *)

From S2P Require Import Prelude PyStr.

Module Factory.

(** [os.environ] *)
Definition environ := list (string * string).

(** [os.environ[name]] *)
Definition env_index (env : environ) (name : string) : result string :=
  match dict_get name env with Some v => Ok v | None => Err KeyError end.

(** [os.environ.get(name, default)] for a string default. *)
Definition env_get (env : environ) (name default : string) : string :=
  from_option id default (dict_get name env).

(** [bool(os.environ.get(name, None))] and [bool(os.environ.get(name, False))]:
    any non-empty value is true, ["false"] and ["0"] included. *)
Definition env_truthy (env : environ) (name : string) : bool :=
  match dict_get name env with Some v => negb (String.eqb v EmptyString) | None => false end.

(** Firefox profile preferences and capability values. *)
Inductive pref_val := PInt (n : nat) | PBool (b : bool) | PStr (s : string).
Inductive cap_val := CBool (b : bool) | CStr (s : string).

(** A capabilities dictionary such as [DesiredCapabilities.CHROME]. *)
Definition caps := list (string * cap_val).

(** The two assignments of [get_selenium_grid_helper] to [browser]. *)
Definition accept_certs (browser : caps) : caps :=
  dict_set "acceptSslCerts" (CBool true) (dict_set "acceptInsecureCerts" (CBool true) browser).

(** [f'http://{selenium_host}:{selenium_port}/wd/hub'] *)
Definition executor_url (host port : string) : string :=
  "http://" +:+ host +:+ ":" +:+ port +:+ "/wd/hub".

(** The preferences [get_selenium_local_helper] sets on the profile. *)
Definition firefox_profile (download_directory : string) : list (string * pref_val) :=
  [("browser.download.folderList", PInt 2);
   ("browser.download.manager.showWhenStarting", PBool false);
   ("browser.download.dir", PStr download_directory);
   ("browser.helperApps.neverAsk.saveToDisk", PStr "application/zip")].

(** What [close] calls on the driver. *)
Inductive driver_call := DriverQuit | DriverClose.

(** [SeleniumHelper.close()] *)
Definition close (quitter : bool) : driver_call := if quitter then DriverQuit else DriverClose.

Section factory.
(** Python floats, [float(s)] on a string and [float(n)] on an integer
    default. *)
Context {float : Type}.
Variable py_float : string -> result float.
Variable float_of_nat : nat -> float.

(** The driver a helper is given. *)
Inductive driver_spec :=
  | Remote (command_executor : string) (desired_capabilities : caps)
  | Firefox (headless : bool) (profile : list (string * pref_val)) (implicit_wait : float).

(** [float(os.environ.get(name, default))] *)
Definition env_float (env : environ) (name : string) (default : nat) : result float :=
  match dict_get name env with Some s => py_float s | None => Ok (float_of_nat default) end.

(** ** [selenium.py] *)

(** The [args] dictionary of [get_selenium], evaluated in order. *)
Record args := mkArgs {
  download_directory : string;
  output_directory : string;
  base_url : string;
  implicit_wait_time : float;
  click_wait_time : float;
  download_wait_time : float;
  page_wait_time : float;
  email_address : string;
  compare_version : string;
  version : string
}.

Definition read_args (env : environ) : result args :=
  let* dd := env_index env "DOWNLOAD_DIRECTORY" in
  let* od := env_index env "OUTPUT_DIRECTORY" in
  let bu := env_get env "BASE_URL" EmptyString in
  let* iw := env_float env "IMPLICIT_WAIT_TIME" 1 in
  let* cw := env_float env "CLICK_WAIT_TIME" 1 in
  let* dw := env_float env "DOWNLOAD_WAIT_TIME" 60 in
  let* pw := env_float env "PAGE_WAIT_TIME" 5 in
  let* ea := env_index env "EMAIL_ADDRESS" in
  Ok (mkArgs dd od bu iw cw dw pw ea (env_get env "COMPARE_VERSION" "0.0")
        (env_get env "VERSION" "0.0")).

(** The call [helper_class(driver=..., download_directory=..., ...)]:
    the keyword arguments [SeleniumHelper.__init__] receives.
    [implicit_wait_time] is not among them. *)
Record helper_call := mkCall {
  c_driver : driver_spec;
  c_download_directory : string;
  c_quitter : bool;
  c_output_directory : string;
  c_base_url : string;
  c_click_wait_time : float;
  c_download_wait_time : float;
  c_page_wait_time : float;
  c_email_address : string;
  c_compare_version : string;
  c_version : string
}.

Definition call_with (a : args) (driver : driver_spec) (quitter : bool) : helper_call :=
  mkCall driver (download_directory a) quitter (output_directory a) (base_url a)
    (click_wait_time a) (download_wait_time a) (page_wait_time a) (email_address a)
    (compare_version a) (version a).

(** [get_selenium_grid_helper]: the shared [browser] dictionary is
    mutated and handed to the remote driver; [implicit_wait_time] is
    dropped; [quitter=True]. *)
Definition get_selenium_grid_helper (a : args) (host port : string) (browser : caps)
    : helper_call * caps :=
  let browser := accept_certs browser in
  (call_with a (Remote (executor_url host port) browser) true, browser).

(** [get_selenium_local_helper] *)
Definition get_selenium_local_helper (a : args) (headless : bool) : helper_call :=
  call_with a (Firefox headless (firefox_profile (download_directory a)) (implicit_wait_time a))
    false.

(** [get_selenium()] with [DesiredCapabilities.CHROME] as the store. *)
Definition get_selenium (env : environ) (chrome : caps) : result helper_call * caps :=
  match read_args env with
  | Err e => (Err e, chrome)
  | Ok a =>
      if env_truthy env "SELENIUM_HOST" then
        match env_index env "SELENIUM_HOST" with
        | Ok host =>
            let (c, chrome') :=
              get_selenium_grid_helper a host (env_get env "SELENIUM_PORT" "4444") chrome in
            (Ok c, chrome')
        | Err e => (Err e, chrome)
        end
      else (Ok (get_selenium_local_helper a (env_truthy env "SELENIUM_HEADLESS")), chrome)
  end.

(** ** [__init__.py] *)

(** The package's [SeleniumHelper.__init__] takes no output directory,
    e-mail address or versions, and its [close] is the subclass's. *)
Record init_call := mkInitCall {
  i_driver : driver_spec;
  i_download_directory : string;
  i_base_url : string;
  i_click_wait_time : float;
  i_download_wait_time : float;
  i_page_wait_time : float;
  i_close : driver_call
}.

Record init_args := mkInitArgs {
  ia_download_directory : string;
  ia_base_url : string;
  ia_implicit_wait_time : float;
  ia_click_wait_time : float;
  ia_download_wait_time : float;
  ia_page_wait_time : float
}.

Definition init_read_args (env : environ) : result init_args :=
  let* dd := env_index env "LBRC_SELENIUM_DOWNLOAD_DIRECTORY" in
  let* bu := env_index env "LBRC_SELENIUM_BASE_URL" in
  let* iw := env_float env "LBRC_SELENIUM_IMPLICIT_WAIT_TIME" 1 in
  let* cw := env_float env "LBRC_SELENIUM_CLICK_WAIT_TIME" 1 in
  let* dw := env_float env "LBRC_SELENIUM_DOWNLOAD_WAIT_TIME" 30 in
  let* pw := env_float env "LBRC_SELENIUM_PAGE_WAIT_TIME" 5 in
  Ok (mkInitArgs dd bu iw cw dw pw).

(** [SeleniumGridHelper.__init__]; its [close] quits the driver. *)
Definition grid_helper (a : init_args) (host port : string) (browser : caps) : init_call * caps :=
  let browser := accept_certs browser in
  (mkInitCall (Remote (executor_url host port) browser) (ia_download_directory a)
     (ia_base_url a) (ia_click_wait_time a) (ia_download_wait_time a) (ia_page_wait_time a)
     DriverQuit, browser).

(** [SeleniumLocalHelper.__init__]; its [close] closes the window. *)
Definition local_helper (a : init_args) (headless : bool) : init_call :=
  mkInitCall (Firefox headless (firefox_profile (ia_download_directory a)) (ia_implicit_wait_time a))
    (ia_download_directory a) (ia_base_url a) (ia_click_wait_time a) (ia_download_wait_time a)
    (ia_page_wait_time a) DriverClose.

Definition init_get_selenium (env : environ) (chrome : caps) : result init_call * caps :=
  match init_read_args env with
  | Err e => (Err e, chrome)
  | Ok a =>
      if env_truthy env "LBRC_SELENIUM_HOST" then
        match env_index env "LBRC_SELENIUM_HOST" with
        | Ok host =>
            let (c, chrome') :=
              grid_helper a host (env_get env "LBRC_SELENIUM_PORT" "4444") chrome in
            (Ok c, chrome')
        | Err e => (Err e, chrome)
        end
      else (Ok (local_helper a (env_truthy env "LBRC_SELENIUM_HEADLESS")), chrome)
  end.
End factory.

(** The environment variables read with [float()], in order. *)
Definition float_names : list string :=
  ["IMPLICIT_WAIT_TIME"; "CLICK_WAIT_TIME"; "DOWNLOAD_WAIT_TIME"; "PAGE_WAIT_TIME"].

(** Whether every float setting present in [env] parses. *)
Definition floats_ok {float} (py_float : string -> result float) (env : environ) : bool :=
  forallb (fun k => match dict_get k env with
                    | Some s => match py_float s with Ok _ => true | Err _ => false end
                    | None => true
                    end) float_names.

(** ** Lemmas *)

Lemma accept_certs_get browser :
  dict_get "acceptInsecureCerts" (accept_certs browser) = Some (CBool true) /\
  dict_get "acceptSslCerts" (accept_certs browser) = Some (CBool true).
Proof.
  unfold accept_certs. rewrite dict_get_set_eq, dict_get_set_ne, dict_get_set_eq by done.
  done.
Qed.

Lemma accept_certs_idem browser : accept_certs (accept_certs browser) = accept_certs browser.
Proof.
  destruct (accept_certs_get browser) as [Hi Hs].
  unfold accept_certs at 1. rewrite (dict_set_same _ _ _ Hi). by rewrite dict_set_same.
Qed.

Section lemmas.
Context {float : Type} (py_float : string -> result float) (float_of_nat : nat -> float).

(** [get_selenium] raises exactly what reading its arguments raises. *)
Lemma get_selenium_err env chrome e :
  fst (get_selenium py_float float_of_nat env chrome) = Err e <->
  read_args py_float float_of_nat env = Err e.
Proof.
  unfold get_selenium. destruct (read_args _ _ env) as [a|e']; [|simpl; split; intros [= ->]; done].
  split; [|intros [=]]. intros H. exfalso.
  destruct (env_truthy env "SELENIUM_HOST") eqn:Ht; [|discriminate H].
  unfold env_truthy, env_index in *. destruct (dict_get "SELENIUM_HOST" env); [|discriminate Ht].
  destruct (get_selenium_grid_helper _ _ _ _). discriminate H.
Qed.

Lemma init_get_selenium_err env chrome e :
  fst (init_get_selenium py_float float_of_nat env chrome) = Err e <->
  init_read_args py_float float_of_nat env = Err e.
Proof.
  unfold init_get_selenium. destruct (init_read_args _ _ env) as [a|e']; [|simpl; split; intros [= ->]; done].
  split; [|intros [=]]. intros H. exfalso.
  destruct (env_truthy env "LBRC_SELENIUM_HOST") eqn:Ht; [|discriminate H].
  unfold env_truthy, env_index in *. destruct (dict_get "LBRC_SELENIUM_HOST" env); [|discriminate Ht].
  destruct (grid_helper _ _ _ _). discriminate H.
Qed.

(** What a successful [read_args] read. *)
Lemma read_args_ok env a :
  read_args py_float float_of_nat env = Ok a ->
  dict_get "DOWNLOAD_DIRECTORY" env = Some (download_directory a) /\
  dict_get "OUTPUT_DIRECTORY" env = Some (output_directory a) /\
  dict_get "EMAIL_ADDRESS" env = Some (email_address a) /\
  base_url a = env_get env "BASE_URL" EmptyString /\
  version a = env_get env "VERSION" "0.0" /\
  compare_version a = env_get env "COMPARE_VERSION" "0.0".
Proof.
  unfold read_args, env_index.
  destruct (dict_get "DOWNLOAD_DIRECTORY" env); simpl; [|discriminate].
  destruct (dict_get "OUTPUT_DIRECTORY" env); simpl; [|discriminate].
  do 4 (case_rbind; simpl; [|discriminate]).
  destruct (dict_get "EMAIL_ADDRESS" env); simpl; [|discriminate].
  by intros [= <-].
Qed.

(** The helper call of a successful [get_selenium]: the arguments read
    and [quitter] set exactly for a grid. *)
Lemma get_selenium_ok env chrome c :
  fst (get_selenium py_float float_of_nat env chrome) = Ok c ->
  exists a, read_args py_float float_of_nat env = Ok a /\
    c = call_with a (c_driver c) (env_truthy env "SELENIUM_HOST").
Proof.
  unfold get_selenium. destruct (read_args _ _ env) as [a|e]; simpl; [|discriminate].
  intros H. exists a. split; [done|]. revert H.
  destruct (env_truthy env "SELENIUM_HOST") eqn:Ht.
  - unfold env_index, get_selenium_grid_helper.
    destruct (dict_get "SELENIUM_HOST" env); simpl; [|discriminate].
    by intros [= <-].
  - simpl. by intros [= <-].
Qed.

Hypothesis py_float_err : forall s e, py_float s = Err e -> e = ValueError.

Lemma env_float_cases env k d :
  (exists f, env_float py_float float_of_nat env k d = Ok f /\
     match dict_get k env with
     | Some s => match py_float s with Ok _ => true | Err _ => false end
     | None => true end = true) \/
  (env_float py_float float_of_nat env k d = Err ValueError /\
     match dict_get k env with
     | Some s => match py_float s with Ok _ => true | Err _ => false end
     | None => true end = false).
Proof.
  unfold env_float. destruct (dict_get k env); [|left; by eexists].
  destruct (py_float s) as [f|e] eqn:Hf; [left; by eexists|right].
  by rewrite (py_float_err _ _ Hf).
Qed.
End lemmas.

(** ** Theorems *)

(** The argument reading of [get_selenium] raises [KeyError] when
    [DOWNLOAD_DIRECTORY] or [OUTPUT_DIRECTORY] is unset, or when the float
    settings parse and [EMAIL_ADDRESS] is unset; [ValueError] when both
    directories are set and a float setting does not parse; nothing else. *)
Lemma get_selenium_errors {float} (py_float : string -> result float) float_of_nat env chrome e :
  (forall s e', py_float s = Err e' -> e' = ValueError) ->
  fst (get_selenium py_float float_of_nat env chrome) = Err e <->
  (e = KeyError /\ (dict_get "DOWNLOAD_DIRECTORY" env = None \/ dict_get "OUTPUT_DIRECTORY" env = None \/
                   (floats_ok py_float env = true /\ dict_get "EMAIL_ADDRESS" env = None))) \/
  (e = ValueError /\ is_Some (dict_get "DOWNLOAD_DIRECTORY" env) /\
   is_Some (dict_get "OUTPUT_DIRECTORY" env) /\ floats_ok py_float env = false).
Proof.
  intros Hf. rewrite get_selenium_err. unfold read_args, env_index, floats_ok, float_names.
  simpl forallb. rewrite andb_true_r.
  destruct (dict_get "DOWNLOAD_DIRECTORY" env); simpl; [|naive_solver].
  destruct (dict_get "OUTPUT_DIRECTORY" env); simpl; [|naive_solver].
  destruct (env_float_cases py_float float_of_nat Hf env "IMPLICIT_WAIT_TIME" 1)
    as [(? & -> & ->)|[-> ->]]; simpl; [|naive_solver].
  destruct (env_float_cases py_float float_of_nat Hf env "CLICK_WAIT_TIME" 1)
    as [(? & -> & ->)|[-> ->]]; simpl; [|naive_solver].
  destruct (env_float_cases py_float float_of_nat Hf env "DOWNLOAD_WAIT_TIME" 60)
    as [(? & -> & ->)|[-> ->]]; simpl; [|naive_solver].
  destruct (env_float_cases py_float float_of_nat Hf env "PAGE_WAIT_TIME" 5)
    as [(? & -> & ->)|[-> ->]]; simpl; [|naive_solver].
  destruct (dict_get "EMAIL_ADDRESS" env); simpl; naive_solver.
Qed.

(** C22: a helper from either factory quits the driver on [close] exactly
    when it was built for a Selenium grid; a local Firefox helper only
    closes the window. *)
Theorem close_quits_iff_grid {float} (py_float : string -> result float) float_of_nat env chrome :
  (forall c, fst (get_selenium py_float float_of_nat env chrome) = Ok c ->
     (close (c_quitter c) = DriverQuit <-> env_truthy env "SELENIUM_HOST" = true)) /\
  (forall c, fst (init_get_selenium py_float float_of_nat env chrome) = Ok c ->
     (i_close c = DriverQuit <-> env_truthy env "LBRC_SELENIUM_HOST" = true)).
Proof.
  split; intros c.
  - unfold get_selenium. destruct (read_args _ _ env); simpl; [|discriminate].
    destruct (env_truthy env "SELENIUM_HOST") eqn:Ht.
    + unfold env_truthy, env_index in *. destruct (dict_get "SELENIUM_HOST" env); [|discriminate].
      simpl. intros [= <-]. done.
    + intros [= <-]. simpl. split; discriminate.
  - unfold init_get_selenium. destruct (init_read_args _ _ env); simpl; [|discriminate].
    destruct (env_truthy env "LBRC_SELENIUM_HOST") eqn:Ht.
    + unfold env_truthy, env_index in *. destruct (dict_get "LBRC_SELENIUM_HOST" env); [|discriminate].
      simpl. intros [= <-]. done.
    + intros [= <-]. simpl. split; discriminate.
Qed.

Lemma close_quits_iff_grid_witness :
  exists c, fst (@get_selenium nat (fun _ => Err ValueError) id
                   [("DOWNLOAD_DIRECTORY", "/d"); ("OUTPUT_DIRECTORY", "/o");
                    ("EMAIL_ADDRESS", "me@example.org"); ("SELENIUM_HOST", "grid")] []) = Ok c /\
    close (c_quitter c) = DriverQuit.
Proof.
  eexists. split; [reflexivity|].
  apply (proj1 (close_quits_iff_grid (fun _ => Err ValueError) id
                  [("DOWNLOAD_DIRECTORY", "/d"); ("OUTPUT_DIRECTORY", "/o");
                   ("EMAIL_ADDRESS", "me@example.org"); ("SELENIUM_HOST", "grid")] []) _ eq_refl).
  reflexivity.
Defined.

(** C23: [get_selenium] leaves [DesiredCapabilities.CHROME] unchanged or
    sets its two certificate flags; a remote driver receives that very
    dictionary; and a further grid helper leaves it as the first left it. *)
Theorem chrome_capabilities_shared {float} (py_float : string -> result float) float_of_nat env chrome :
  let (r, chrome') := get_selenium py_float float_of_nat env chrome in
  (chrome' = chrome \/ chrome' = accept_certs chrome) /\
  (forall c url caps, r = Ok c -> c_driver c = Remote url caps ->
     caps = chrome' /\ chrome' = accept_certs chrome) /\
  accept_certs chrome' = accept_certs chrome.
Proof.
  unfold get_selenium. destruct (read_args _ _ env) as [a|e].
  2: { split; [by left|]. split; [discriminate|done]. }
  destruct (env_truthy env "SELENIUM_HOST") eqn:Ht.
  - unfold env_index. destruct (dict_get "SELENIUM_HOST" env) as [host|].
    + simpl. split; [by right|]. split; [|apply accept_certs_idem].
      by intros c url caps [= <-] [= <- <-].
    + split; [by left|]. split; [discriminate|done].
  - split; [by left|]. split; [|done]. by intros c url caps [= <-].
Qed.

(** C24: without a grid, the factory builds a local Firefox driver with
    the download directory's profile, headless exactly when
    [SELENIUM_HEADLESS] is set to a non-empty string: the factory tests the
    string's truthiness, not its meaning, so ["false"] and ["0"] run
    headless too. *)
Theorem local_headless_iff_set {float} (py_float : string -> result float) float_of_nat env chrome c :
  fst (get_selenium py_float float_of_nat env chrome) = Ok c ->
  env_truthy env "SELENIUM_HOST" = false ->
  exists headless dd iw,
    c_driver c = Firefox headless (firefox_profile dd) iw /\
    dict_get "DOWNLOAD_DIRECTORY" env = Some dd /\
    (headless = true <-> exists v, dict_get "SELENIUM_HEADLESS" env = Some v /\ v <> EmptyString).
Proof.
  unfold get_selenium. destruct (read_args _ _ env) as [a|e] eqn:Ha; simpl; [|discriminate].
  intros Hc Ht. rewrite Ht in Hc. injection Hc as <-.
  destruct (read_args_ok _ _ _ _ Ha) as (Hd & _).
  exists (env_truthy env "SELENIUM_HEADLESS"), (download_directory a), (implicit_wait_time a).
  split; [done|]. split; [done|]. unfold env_truthy.
  destruct (dict_get "SELENIUM_HEADLESS" env) as [v|]; [|naive_solver].
  destruct (String.eqb_spec v EmptyString); naive_solver.
Qed.

Lemma local_headless_iff_set_witness :
  exists c, fst (@get_selenium nat (fun _ => Err ValueError) id
                   [("DOWNLOAD_DIRECTORY", "/d"); ("OUTPUT_DIRECTORY", "/o");
                    ("EMAIL_ADDRESS", "me@example.org"); ("SELENIUM_HEADLESS", "false")] []) = Ok c /\
    exists headless dd iw, c_driver c = Firefox headless (firefox_profile dd) iw /\ headless = true.
Proof.
  eexists. split; [reflexivity|].
  destruct (local_headless_iff_set (fun _ => Err ValueError) id
              [("DOWNLOAD_DIRECTORY", "/d"); ("OUTPUT_DIRECTORY", "/o");
               ("EMAIL_ADDRESS", "me@example.org"); ("SELENIUM_HEADLESS", "false")] [] _ eq_refl eq_refl)
    as (h & dd & iw & Hd & _ & Hh).
  exists h, dd, iw. split; [exact Hd|]. apply Hh. exists "false". split; [reflexivity|discriminate].
Defined.

End Factory.
