(* ===== verification/Files.v ===== *)
(** The filesystem effects of [SeleniumHelper.__init__]: the download
    directory is created ([Path.mkdir(parents=True, exist_ok=True)]) and
    emptied ([_clear_directory]), and the output directory
    [Path(output_directory) / version] is created
    ([src/lbrc_selenium/selenium.py] lines 155-172; the package's helper,
    [src/lbrc_selenium/__init__.py] lines 77-90, has no output directory).
    [unzip_download_directory_contents] reads an attribute the helper
    never sets.

    The filesystem is a list of entries, an absolute path (its components)
    and whether it is a directory or a file, in the order [os.listdir]
    lists them; the root directory is implicit.  [pathlib] and [os] are
    libraries: a path string is split on ["/"] with empty and ["."]
    components dropped, a relative path is resolved against the working
    directory, and [".."] is kept as a component. *)

From S2P Require Import Prelude PyStr.
From Stdlib Require Import Ascii.

Module Files.

Inductive kind := Dir | File.

#[export] Instance kind_eq_dec : EqDecision kind.
Proof. solve_decision. Defined.

Definition fs := list (list string * kind).

(** [pathlib.PurePath]: absolute or relative, and its components. *)
Record path := mkPath { p_abs : bool; p_comps : list string }.

Definition path_of (s : string) : path :=
  mkPath (PyStr.startswith s "/")
    (filter (fun c => negb (String.eqb c EmptyString) && negb (String.eqb c ".") = true)
       (PyStr.split_sep "/"%char s)).

(** [a / b]: an absolute [b] replaces [a]. *)
Definition join (a b : path) : path :=
  if p_abs b then b else mkPath (p_abs a) (p_comps a ++ p_comps b).

Definition resolve (cwd : list string) (p : path) : list string :=
  if p_abs p then p_comps p else cwd ++ p_comps p.

Definition lookup (q : list string) (f : fs) : option kind := dict_get q f.

Definition is_dir (f : fs) (q : list string) : bool :=
  bool_decide (q = []) || bool_decide (lookup q f = Some Dir).

(** [q] is an entry directly inside [d]. *)
Definition child_of (d q : list string) : bool :=
  bool_decide (length q = S (length d)) && bool_decide (take (length d) q = d).

(** [os.listdir(d)] *)
Definition iterdir (d : list string) (f : fs) : list (list string) :=
  filter (fun q => child_of d q = true) (map fst f).

(** One [os.mkdir] of [Path.mkdir(parents=True, exist_ok=True)]: an
    existing directory is accepted, an existing file raises
    [FileExistsError] (or [NotADirectoryError] below it). *)
Definition mkdir_step (f : fs) (q : list string) : result fs :=
  match lookup q f with
  | Some Dir => Ok f
  | Some File => Err OSError
  | None => Ok (f ++ [(q, Dir)])
  end.

Definition prefixes (p : list string) : list (list string) :=
  map (fun n => take n p) (seq 1 (length p)).

(** [Path(p).mkdir(parents=True, exist_ok=True)]: the missing ancestors
    are created from the root down. *)
Definition mkdir_p (p : list string) (f : fs) : result fs := foldlR mkdir_step f (prefixes p).

(** [f.unlink()]: a directory raises [IsADirectoryError], a missing path
    [FileNotFoundError]. *)
Definition unlink (f : fs) (q : list string) : result fs :=
  match lookup q f with
  | Some File => Ok (filter (fun e => e.1 <> q) f)
  | Some Dir => Err OSError
  | None => Err OSError
  end.

(** [_clear_directory(directory)]: [for f in directory.iterdir(): f.unlink()] *)
Definition clear_directory (d : list string) (f : fs) : result fs :=
  if is_dir f d then foldlR unlink f (iterdir d f) else Err OSError.

Section helper.
(** The working directory against which relative paths resolve. *)
Variable cwd : list string.

(** The directories [SeleniumHelper.__init__] works in. *)
Definition download_path (download_directory : string) : list string :=
  resolve cwd (path_of download_directory).

Definition output_path (output_directory version : string) : list string :=
  resolve cwd (join (path_of output_directory) (path_of version)).

(** [SeleniumHelper.__init__] of [selenium.py], its filesystem part. *)
Definition helper_init (download_directory output_directory version : string) (f : fs) : result fs :=
  let dd := download_path download_directory in
  let* f := mkdir_p dd f in
  let* f := clear_directory dd f in
  mkdir_p (output_path output_directory version) f.

(** [SeleniumHelper.__init__] of [__init__.py], its filesystem part. *)
Definition init_helper_init (download_directory : string) (f : fs) : result fs :=
  let dd := download_path download_directory in
  let* f := mkdir_p dd f in
  clear_directory dd f.
End helper.

(** [unzip_download_directory_contents()] (both files): the loop reads
    [self._download_directory], which no constructor sets. *)
Definition unzip_download_directory_contents (f : fs) : result fs := Err AttributeError.

(** ** Lemmas *)

Lemma mkdir_step_lookup f q f' q' :
  mkdir_step f q = Ok f' ->
  lookup q f' = Some Dir /\
  (forall k, lookup q' f = Some k -> lookup q' f' = Some k) /\
  (lookup q' f' = Some File -> lookup q' f = Some File).
Proof.
  unfold mkdir_step, lookup. destruct (dict_get q f) as [[]|] eqn:Hq.
  - intros [= <-]. done.
  - discriminate.
  - intros [= <-]. rewrite !dict_get_app, Hq. simpl. rewrite decide_True by done.
    split; [done|]. split; [by intros k ->|].
    destruct (dict_get q' f); [done|]. simpl. by case_decide.
Qed.

(** [mkdir_p] keeps every entry, adds only directories, and leaves each
    prefix of the path a directory. *)
Lemma mkdir_loop f l f' :
  foldlR mkdir_step f l = Ok f' ->
  (forall q k, lookup q f = Some k -> lookup q f' = Some k) /\
  (forall q, lookup q f' = Some File -> lookup q f = Some File) /\
  (forall q, q ∈ l -> lookup q f' = Some Dir).
Proof.
  revert f. induction l as [|x l IH]; simpl; intros f H.
  { injection H as <-. split; [done|]. split; [done|]. set_solver. }
  destruct (mkdir_step f x) as [f1|] eqn:Hs; simpl in H; [|discriminate].
  destruct (IH f1 H) as (Hmono & Hfile & Hdirs).
  split; [|split].
  - intros q k Hq. apply Hmono. exact (proj1 (proj2 (mkdir_step_lookup f x f1 q Hs)) k Hq).
  - intros q Hq. exact (proj2 (proj2 (mkdir_step_lookup f x f1 q Hs)) (Hfile q Hq)).
  - intros q. rewrite elem_of_cons. intros [->|Hq]; [|by apply Hdirs].
    apply Hmono. exact (proj1 (mkdir_step_lookup f x f1 x Hs)).
Qed.

Lemma mkdir_p_is_dir p f f' : mkdir_p p f = Ok f' -> is_dir f' p = true.
Proof.
  unfold mkdir_p, is_dir. intros H. destruct p as [|c p]; [done|].
  apply orb_true_intro. right. apply bool_decide_eq_true.
  apply (mkdir_loop _ _ _ H). unfold prefixes. apply list_elem_of_fmap.
  exists (length (c :: p)). split; [by rewrite take_ge|].
  apply elem_of_seq. simpl. lia.
Qed.

Lemma mkdir_p_err p f e : mkdir_p p f = Err e -> e = OSError.
Proof.
  apply foldlR_err_only. intros acc x e'. unfold mkdir_step.
  by destruct (lookup x acc) as [[]|]; [|intros [= <-]|].
Qed.

(** The directory preparation raises only [OSError]. *)
Lemma helper_init_err cwd download_directory output_directory version f e :
  helper_init cwd download_directory output_directory version f = Err e -> e = OSError.
Proof.
  unfold helper_init. destruct (mkdir_p _ f) as [f1|e1] eqn:Hm; cbn [rbind]; [|intros [= <-]; by eapply mkdir_p_err].
  destruct (clear_directory _ f1) as [f2|e2] eqn:Hc; cbn [rbind]; [apply mkdir_p_err|intros [= <-]].
  revert Hc. unfold clear_directory. destruct (is_dir _ _); [|by intros [= <-]].
  apply foldlR_err_only. intros acc x e'. unfold unlink. by destruct (lookup x acc) as [[]|]; intros [= <-].
Qed.

Lemma unlink_lookup f q f' q' :
  unlink f q = Ok f' -> lookup q' f' = if decide (q' = q) then None else lookup q' f.
Proof.
  unfold unlink. destruct (lookup q f) as [[]|]; [discriminate| |discriminate].
  intros [= <-]. apply dict_get_filter_key.
Qed.

(** The loop of [_clear_directory] removes exactly the listed entries. *)
Lemma clear_loop f l f' q :
  foldlR unlink f l = Ok f' -> lookup q f' = if bool_decide (q ∈ l) then None else lookup q f.
Proof.
  revert f. induction l as [|x l IH]; intros f H; cbn [foldlR] in H.
  { injection H as <-. case_bool_decide; [set_solver|done]. }
  destruct (unlink f x) as [f1|] eqn:Hu; simpl in H; [|discriminate].
  rewrite (IH f1 H), (unlink_lookup f x f1 q Hu).
  destruct (decide (q = x)); repeat case_bool_decide; set_solver.
Qed.

(** A directory among the listed entries makes the loop raise. *)
Lemma clear_loop_dir f l q :
  q ∈ l -> lookup q f = Some Dir -> foldlR unlink f l = Err OSError.
Proof.
  revert f. induction l as [|x l IH]; simpl; intros f Hq Hd; [set_solver|].
  destruct (decide (q = x)) as [->|Hne].
  - unfold unlink at 1. by rewrite Hd.
  - destruct (unlink f x) as [f1|e] eqn:Hu; simpl.
    + apply IH; [set_solver|]. by rewrite (unlink_lookup f x f1 q Hu), decide_False.
    + revert Hu. unfold unlink. by destruct (lookup x f) as [[]|]; [|intros [= <-]..].
Qed.

Lemma iterdir_child d f q k : child_of d q = true -> lookup q f = Some k -> q ∈ iterdir d f.
Proof.
  intros Hc Hq. unfold iterdir. apply list_elem_of_filter. split; [done|].
  by eapply dict_get_Some_key.
Qed.

Lemma child_of_not_self d : child_of d d = false.
Proof. unfold child_of. rewrite bool_decide_false by lia. done. Qed.

Lemma is_dir_mono f f' d :
  (forall k, lookup d f = Some k -> lookup d f' = Some k) -> is_dir f d = true -> is_dir f' d = true.
Proof.
  unfold is_dir. intros Hm. rewrite !orb_true_iff, !bool_decide_eq_true. intros [?|?]; auto.
Qed.

(** Creating the download directory and emptying it. *)
Lemma mkdir_clear_ok d f f2 :
  (let* f1 := mkdir_p d f in clear_directory d f1) = Ok f2 ->
  is_dir f2 d = true /\
  (forall q, child_of d q = true -> lookup q f2 = None) /\
  (forall q k, lookup q f = Some k -> child_of d q = false -> lookup q f2 = Some k).
Proof.
  destruct (mkdir_p d f) as [f1|] eqn:Hm; simpl; [|discriminate].
  pose proof (mkdir_p_is_dir _ _ _ Hm) as Hd. unfold clear_directory. rewrite Hd.
  intros Hc. pose proof (fun q => clear_loop _ _ _ q Hc) as Hl.
  destruct (mkdir_loop _ _ _ Hm) as (Hmono & _ & _).
  split; [|split].
  - apply (is_dir_mono f1); [|done]. intros k Hk. rewrite Hl, bool_decide_false; [done|].
    unfold iterdir. rewrite list_elem_of_filter, child_of_not_self. naive_solver.
  - intros q Hq. rewrite Hl. case_bool_decide as Hi; [done|].
    destruct (lookup q f1) eqn:Hq1; [|done]. exfalso. by eapply Hi, iterdir_child.
  - intros q k Hq Hc'. rewrite Hl, bool_decide_false; [by apply Hmono|].
    unfold iterdir. rewrite list_elem_of_filter, Hc'. naive_solver.
Qed.

(** A subdirectory of the download directory makes the setup raise. *)
Lemma mkdir_clear_subdir d f q :
  child_of d q = true -> lookup q f = Some Dir ->
  (let* f1 := mkdir_p d f in clear_directory d f1) = Err OSError.
Proof.
  intros Hc Hq. destruct (mkdir_p d f) as [f1|e] eqn:Hm; simpl.
  - destruct (mkdir_loop _ _ _ Hm) as (Hmono & _ & _).
    unfold clear_directory. rewrite (mkdir_p_is_dir _ _ _ Hm).
    apply (clear_loop_dir _ _ q); [|by apply Hmono].
    by apply (iterdir_child _ _ q Dir); [|apply Hmono].
  - by rewrite (mkdir_p_err _ _ _ Hm).
Qed.

(** ** Theorems *)

(** The constructor's postcondition on the filesystem. *)
Lemma helper_init_post cwd download_directory output_directory version f f' :
  helper_init cwd download_directory output_directory version f = Ok f' ->
  let d := download_path cwd download_directory in
  is_dir f' d = true /\ is_dir f' (output_path cwd output_directory version) = true /\
  (forall q, child_of d q = true -> lookup q f' <> Some File) /\
  (forall q k, lookup q f = Some k -> child_of d q = false -> lookup q f' = Some k).
Proof.
  intros H d. unfold helper_init in H. fold d in H.
  destruct (mkdir_p d f) as [f1|] eqn:Hm; cbn [rbind] in H; [|discriminate].
  destruct (clear_directory d f1) as [f2|] eqn:Hc; cbn [rbind] in H; [|discriminate].
  assert (Hf2 : (let* f1 := mkdir_p d f in clear_directory d f1) = Ok f2)
    by (rewrite Hm; exact Hc).
  destruct (mkdir_clear_ok _ _ _ Hf2) as (Hd & Hempty & Hkeep).
  destruct (mkdir_loop _ _ _ H) as (Hmono & Hfile & _).
  split; [apply (is_dir_mono f2); [apply Hmono|exact Hd]|]. split; [by eapply mkdir_p_is_dir|]. split.
  - intros q Hq Hf. apply Hfile in Hf. by rewrite Hempty in Hf.
  - intros q k Hq Hc'. by apply Hmono, Hkeep.
Qed.

(** C25: after [SeleniumHelper.__init__], the download and output
    directories exist, no file is left directly in the download directory,
    and every entry of the filesystem outside it is kept. *)
Theorem helper_init_ok cwd download_directory output_directory version f f' :
  helper_init cwd download_directory output_directory version f = Ok f' ->
  let d := download_path cwd download_directory in
  is_dir f' d = true /\ is_dir f' (output_path cwd output_directory version) = true /\
  (forall q, child_of d q = true -> lookup q f' <> Some File) /\
  (forall q k, lookup q f = Some k -> child_of d q = false -> lookup q f' = Some k).
Proof. apply helper_init_post. Qed.

(** The download directory [/tmp/dl] holding a file and a subdirectory. *)
Definition ex_fs : fs :=
  [(["tmp"], Dir); (["tmp"; "dl"], Dir); (["tmp"; "dl"; "a.zip"], File);
   (["tmp"; "dl"; "sub"], Dir); (["tmp"; "keep.txt"], File)].

Lemma helper_init_ok_witness :
  helper_init [] "/tmp/dl" "/tmp/out" "1.0" (filter (fun e => e.1 <> ["tmp"; "dl"; "sub"]) ex_fs) =
    Ok [(["tmp"], Dir); (["tmp"; "dl"], Dir); (["tmp"; "keep.txt"], File);
        (["tmp"; "out"], Dir); (["tmp"; "out"; "1.0"], Dir)] /\
  is_dir [(["tmp"], Dir); (["tmp"; "dl"], Dir); (["tmp"; "keep.txt"], File);
          (["tmp"; "out"], Dir); (["tmp"; "out"; "1.0"], Dir)] ["tmp"; "dl"] = true.
Proof.
  assert (H : helper_init [] "/tmp/dl" "/tmp/out" "1.0" (filter (fun e => e.1 <> ["tmp"; "dl"; "sub"]) ex_fs) =
    Ok [(["tmp"], Dir); (["tmp"; "dl"], Dir); (["tmp"; "keep.txt"], File);
        (["tmp"; "out"], Dir); (["tmp"; "out"; "1.0"], Dir)]) by (vm_compute; reflexivity).
  split; [exact H|]. exact (proj1 (helper_init_ok _ _ _ _ _ _ H)).
Defined.

(** C26: a subdirectory in the download directory makes both helpers'
    constructors raise: [_clear_directory] unlinks it, which raises
    [IsADirectoryError]. *)
Theorem download_subdir_fails cwd download_directory output_directory version f q :
  child_of (download_path cwd download_directory) q = true -> lookup q f = Some Dir ->
  helper_init cwd download_directory output_directory version f = Err OSError /\
  init_helper_init cwd download_directory f = Err OSError.
Proof.
  intros Hc Hq. pose proof (mkdir_clear_subdir _ _ _ Hc Hq) as H.
  unfold helper_init, init_helper_init. split; [|done].
  destruct (mkdir_p _ f); simpl in *; [|done]. by rewrite H.
Qed.

Lemma download_subdir_fails_witness :
  helper_init [] "/tmp/dl" "/tmp/out" "1.0" ex_fs = Err OSError /\
  init_helper_init [] "/tmp/dl" ex_fs = Err OSError.
Proof. apply (download_subdir_fails [] "/tmp/dl" "/tmp/out" "1.0" ex_fs ["tmp"; "dl"; "sub"]); reflexivity. Defined.

End Files.
