(* ===== verification/Waits.v ===== *)
(** The explicit waits of [SeleniumHelper] ([wait_to_appear] and
    [wait_to_disappear], [src/lbrc_selenium/selenium.py] lines 202-206 and
    the same methods of [src/lbrc_selenium/__init__.py] lines 102-106) and
    the [WebDriverWait] polling they call: [until] retries the lookup,
    ignoring [NoSuchElementException], and [until_not] retries until the
    lookup raises it; both sleep [poll_frequency] between attempts and raise
    [TimeoutException] once the timeout has passed.  The page may change
    between two attempts: [tick] is the page one attempt later.  A failed
    lookup takes [lookup_ms], the driver's implicit wait (set by
    [driver.implicitly_wait(implicit_wait_time)] for a local driver, one
    second unless [IMPLICIT_WAIT_TIME] says otherwise); a lookup sees the
    page as it is when it starts.  An open alert is dismissed by the lookup,
    whose [UnexpectedAlertPresentException] the waits do not ignore. *)

From S2P Require Import Prelude PyStr Dom Helper Actions.

Module Waits.
Import Dom Actions.

(** [WebDriverWait]'s default poll interval, 0.5 s, in milliseconds. *)
Definition poll_frequency : nat := 500.

(** The attempts [until] makes within a timeout of [timeout_ms] when a
    failed lookup takes [lookup_ms] and a sleep exactly [poll_frequency]:
    after [k] failed attempts and their sleeps [k * (lookup_ms +
    poll_frequency)] has passed, and the loop stops once
    [time.monotonic() > end_time], so it makes one attempt more than the
    number of whole cycles the timeout holds ([attempts_stop]). *)
Definition attempts (timeout_ms lookup_ms : nat) : nat :=
  timeout_ms / (lookup_ms + poll_frequency) + 1.

Section waits.
Context `{Browser}.
(** The page one poll interval later. *)
Variable tick : bpage -> bpage.
Variable lookup_ms : nat.

Definition poll : M unit := effect (ESleep poll_frequency) tick.

(** [WebDriverWait(driver, timeout).until(method)] with [n] attempts: a
    value is returned, [NoSuchElementException] is ignored and the loop
    sleeps, any other exception propagates. *)
Fixpoint until (n : nat) (method : M belem) : M belem :=
  match n with
  | 0 => raise TimeoutException
  | S n' =>
      r ← try_except (e ← method; mret (Some e))
            (fun ex => match ex with
                       | NoSuchElementException => mret None
                       | _ => raise ex
                       end);
      match r with
      | Some e => mret e
      | None => poll;; until n' method
      end
  end.

(** [WebDriverWait(driver, timeout).until_not(method)]: an ignored
    exception returns [True]; a value (an element is truthy) makes the loop
    sleep and retry. *)
Fixpoint until_not (n : nat) (method : M belem) : M bool :=
  match n with
  | 0 => raise TimeoutException
  | S n' =>
      gone ← try_except (A:=bool) (_ ← method; mret false)
               (fun ex => match ex with
                          | NoSuchElementException => mret true
                          | _ => raise ex
                          end);
      if (gone : bool) then mret true else (poll;; until_not n' method)
  end.

(** [wait_to_appear(selector, element, seconds_to_wait)] *)
Definition wait_to_appear (selector : Selector) (element : option belem) (seconds_to_wait : nat)
    : M belem :=
  until (attempts (1000 * seconds_to_wait) lookup_ms) (find_element selector element).

(** [wait_to_disappear(selector, element, seconds_to_wait)] *)
Definition wait_to_disappear (selector : Selector) (element : option belem)
    (seconds_to_wait : nat) : M bool :=
  until_not (attempts (1000 * seconds_to_wait) lookup_ms) (find_element selector element).
End waits.

Section lemmas.
Context `{Browser}.
Variable tick : bpage -> bpage.

(** One attempt of [until] that finds nothing. *)
Lemma until_miss n sel el p t :
  b_alert p = false -> b_find p sel el = [] ->
  until tick (S n) (find_element sel el) (mkWorld p t) =
  until tick n (find_element sel el) (mkWorld (tick p) (t ++ [ESleep poll_frequency])).
Proof.
  intros Ha Hf. cbn [until]. unfold mbind at 1, M_bind at 1, try_except.
  unfold mbind at 1, M_bind at 1, find_element. simpl. by rewrite Ha, Hf.
Qed.

Lemma until_not_hit n sel el p t :
  b_alert p = false -> b_find p sel el <> [] ->
  until_not tick (S n) (find_element sel el) (mkWorld p t) =
  until_not tick n (find_element sel el) (mkWorld (tick p) (t ++ [ESleep poll_frequency])).
Proof.
  intros Ha Hf. cbn [until_not]. unfold mbind at 1, M_bind at 1, try_except.
  unfold mbind at 1, M_bind at 1, find_element. simpl. rewrite Ha.
  by destruct (b_find p sel el).
Qed.

Lemma repeat_snoc_app {A} (t : list A) x k : (t ++ [x]) ++ repeat x k = t ++ repeat x (S k).
Proof. by rewrite <-app_assoc. Qed.

(** [k] attempts that find nothing: [k] polls, the page [k] intervals later. *)
Lemma until_misses n k sel el p t :
  k <= n -> (forall i, i < k -> b_alert (Nat.iter i tick p) = false /\ b_find (Nat.iter i tick p) sel el = []) ->
  until tick n (find_element sel el) (mkWorld p t) =
  until tick (n - k) (find_element sel el)
    (mkWorld (Nat.iter k tick p) (t ++ repeat (ESleep poll_frequency) k)).
Proof.
  revert n p t. induction k as [|k IH]; intros n p t Hk Hi.
  { by rewrite Nat.sub_0_r, app_nil_r. }
  destruct n as [|n]; [lia|]. destruct (Hi 0 ltac:(lia)) as [Ha Hf].
  rewrite until_miss by done. rewrite IH; [|lia|intros i ?; rewrite <-Nat.iter_succ_r; apply Hi; lia].
  by rewrite <-Nat.iter_succ_r, repeat_snoc_app.
Qed.

Lemma until_not_hits n k sel el p t :
  k <= n -> (forall i, i < k -> b_alert (Nat.iter i tick p) = false /\ b_find (Nat.iter i tick p) sel el <> []) ->
  until_not tick n (find_element sel el) (mkWorld p t) =
  until_not tick (n - k) (find_element sel el)
    (mkWorld (Nat.iter k tick p) (t ++ repeat (ESleep poll_frequency) k)).
Proof.
  revert n p t. induction k as [|k IH]; intros n p t Hk Hi.
  { by rewrite Nat.sub_0_r, app_nil_r. }
  destruct n as [|n]; [lia|]. destruct (Hi 0 ltac:(lia)) as [Ha Hf].
  rewrite until_not_hit by done. rewrite IH; [|lia|intros i ?; rewrite <-Nat.iter_succ_r; apply Hi; lia].
  by rewrite <-Nat.iter_succ_r, repeat_snoc_app.
Qed.

Lemma until_hit n sel el p t e rest :
  b_alert p = false -> b_find p sel el = e :: rest ->
  until tick (S n) (find_element sel el) (mkWorld p t) = (Ok e, mkWorld p t).
Proof.
  intros Ha Hf. cbn [until]. unfold mbind at 1, M_bind at 1, try_except.
  unfold mbind at 1, M_bind at 1, find_element. simpl. by rewrite Ha, Hf.
Qed.

(** An open alert is not ignored: the wait raises at once. *)
Lemma until_alert n sel el p t :
  b_alert p = true ->
  until tick (S n) (find_element sel el) (mkWorld p t) =
    (Err UnexpectedAlertPresentException, mkWorld (b_dismiss p) t).
Proof.
  intros Ha. cbn [until]. unfold mbind at 1, M_bind at 1, try_except.
  unfold mbind at 1, M_bind at 1, find_element. simpl. by rewrite Ha.
Qed.

Lemma until_not_miss n sel el p t :
  b_alert p = false -> b_find p sel el = [] ->
  until_not tick (S n) (find_element sel el) (mkWorld p t) = (Ok true, mkWorld p t).
Proof.
  intros Ha Hf. cbn [until_not]. unfold mbind at 1, M_bind at 1, try_except.
  unfold mbind at 1, M_bind at 1, find_element. simpl. by rewrite Ha, Hf.
Qed.

(** The stop rule: [attempts] is the least [k] with [k] whole cycles past
    the timeout. *)
Lemma attempts_stop timeout_ms lookup_ms :
  (attempts timeout_ms lookup_ms - 1) * (lookup_ms + poll_frequency) <= timeout_ms <
  attempts timeout_ms lookup_ms * (lookup_ms + poll_frequency).
Proof.
  unfold attempts, poll_frequency. set (d := lookup_ms + 500).
  assert (Hd : d <> 0) by lia.
  pose proof (Nat.mul_div_le timeout_ms d Hd). pose proof (Nat.mul_succ_div_gt timeout_ms d Hd). nia.
Qed.
End lemmas.

(** A page still loading: the element [7] appears after two poll
    intervals. *)
Definition loading_browser : Browser := {|
  bpage := nat;
  belem := nat;
  b_find p _ _ := if p <? 2 then [] else [7];
  b_alert _ := false;
  b_dismiss p := p;
  b_load p _ := 0;
  b_click p _ := p;
  b_clear p _ := p;
  b_send_keys p _ _ := p
|}.
#[local] Existing Instance loading_browser.

(** ** Theorems *)

(** C30: [wait_to_appear] returns the first match as soon as a lookup
    finds one: when the lookups of the first [k] attempts find nothing and
    raise nothing else, [k] below the attempts the timeout allows with
    failed lookups of [lookup_ms], it returns the element found at the
    [k]-th after [k] sleeps of [poll_frequency]. *)
Theorem wait_to_appear_found `{Browser} tick lookup_ms selector element seconds_to_wait k p t e rest :
  k < attempts (1000 * seconds_to_wait) lookup_ms ->
  (forall i, i < k -> b_alert (Nat.iter i tick p) = false /\
                      b_find (Nat.iter i tick p) selector element = []) ->
  b_alert (Nat.iter k tick p) = false ->
  b_find (Nat.iter k tick p) selector element = e :: rest ->
  wait_to_appear tick lookup_ms selector element seconds_to_wait (mkWorld p t) =
    (Ok e, mkWorld (Nat.iter k tick p) (t ++ repeat (ESleep poll_frequency) k)).
Proof.
  intros Hk Hi Ha Hf. unfold wait_to_appear. rewrite (until_misses tick _ k) by (done || lia).
  destruct (attempts _ _ - k) as [|n] eqn:Hn; [lia|]. by eapply until_hit.
Qed.

(** With the default implicit wait of one second, ten seconds allow seven
    attempts; the element appears at the third. *)
Lemma wait_to_appear_found_witness :
  wait_to_appear S 1000 (CssSelector "body") None 10 (mkWorld 0 []) =
    (Ok 7, mkWorld 2 [ESleep 500; ESleep 500]).
Proof.
  apply (@wait_to_appear_found loading_browser S 1000 _ _ 10 2 0 [] 7 []);
    [vm_compute; lia|intros i Hi; destruct i as [|[|]]; [done|done|lia]|done|done].
Defined.

(** [wait_to_appear] on an element that never appears raises
    [TimeoutException] after [attempts] lookups, each followed by a sleep
    of [poll_frequency]. *)
Theorem wait_to_appear_timeout `{Browser} tick lookup_ms selector element seconds_to_wait p t :
  let n := attempts (1000 * seconds_to_wait) lookup_ms in
  (forall i, i < n -> b_alert (Nat.iter i tick p) = false /\ b_find (Nat.iter i tick p) selector element = []) ->
  wait_to_appear tick lookup_ms selector element seconds_to_wait (mkWorld p t) =
    (Err TimeoutException, mkWorld (Nat.iter n tick p) (t ++ repeat (ESleep poll_frequency) n)).
Proof.
  intros n Hi. unfold wait_to_appear. rewrite (until_misses tick _ n) by done.
  by rewrite Nat.sub_diag.
Qed.

(** Two seconds of timeout and failed lookups of one second: two
    attempts, where lookups taking no time would make five. *)
Lemma wait_to_appear_timeout_witness :
  wait_to_appear id 1000 (CssSelector "body") None 2 (mkWorld 0 []) =
    (Err TimeoutException, mkWorld 0 [ESleep 500; ESleep 500]).
Proof.
  refine (@wait_to_appear_timeout loading_browser id 1000 (CssSelector "body") None 2 0 [] _).
  intros i _. split; [done|].
  assert (Hi : Nat.iter i id 0 = 0) by (induction i; [done|exact IHi]).
  change (b_find (Nat.iter i id 0) (CssSelector "body") None = []). by rewrite Hi.
Defined.

(** [wait_to_disappear] returns [True] as soon as a lookup raises
    [NoSuchElementException]: when the element is still found by the first
    [k] attempts and gone at the [k]-th, it returns after [k] sleeps. *)
Theorem wait_to_disappear_gone `{Browser} tick lookup_ms selector element seconds_to_wait k p t :
  k < attempts (1000 * seconds_to_wait) lookup_ms ->
  (forall i, i < k -> b_alert (Nat.iter i tick p) = false /\
                      b_find (Nat.iter i tick p) selector element <> []) ->
  b_alert (Nat.iter k tick p) = false ->
  b_find (Nat.iter k tick p) selector element = [] ->
  wait_to_disappear tick lookup_ms selector element seconds_to_wait (mkWorld p t) =
    (Ok true, mkWorld (Nat.iter k tick p) (t ++ repeat (ESleep poll_frequency) k)).
Proof.
  intros Hk Hi Ha Hf. unfold wait_to_disappear. rewrite (until_not_hits tick _ k) by (done || lia).
  destruct (attempts _ _ - k) as [|n] eqn:Hn; [lia|]. by apply until_not_miss.
Qed.

Lemma wait_to_disappear_gone_witness :
  wait_to_disappear (fun p => p - 1) 0 (CssSelector "div") None 10 (mkWorld 3 []) =
    (Ok true, mkWorld 1 [ESleep 500; ESleep 500]).
Proof.
  apply (@wait_to_disappear_gone loading_browser (fun p => p - 1) 0 _ _ 10 2 3 []);
    [vm_compute; lia|intros i Hi; destruct i as [|[|]]; [done|done|lia]|done|done].
Defined.

End Waits.
