(* ===== verification/InitHelper.v ===== *)
(** The older [SeleniumHelper] of [src/lbrc_selenium/__init__.py] (lines
    60-166), where it differs from the one of [selenium.py]: [get] waits
    for the [body] with [wait_to_appear] instead of looping over
    [get_element], and [get_text], [get_href] and [get_value] have no
    [if element] guard, so [None] raises [AttributeError].  The methods the
    two classes share are those of [Helper], [Actions], [Files] and
    [Waits]. *)

From S2P Require Import Prelude PyStr Dom Helper Actions Waits.

Module InitHelper.
Import Dom Actions Waits.

Section text.
Context `{Driver}.

(** [normalise_text(value)] *)
Definition normalise_text (value : option string) : string :=
  PyStr.strip (PyStr.join " " (PyStr.split (Helper.remove_html_tags (default EmptyString value)))).

(** [get_innerHtml(element)] *)
Definition get_innerHtml (element : elem) : string := normalise_text (inner_html element).

(** [get_text(element)]: [element.text] on [None] raises; otherwise the
    first non-empty of the text, the ["text"] attribute and the inner
    HTML, each normalised. *)
Definition get_text (element : option elem) : result string :=
  match element with
  | None => Err AttributeError
  | Some e =>
      let result := normalise_text (Some (text e)) in
      if String.length result =? 0 then
        let result := normalise_text (get_attribute e "text") in
        if String.length result =? 0 then Ok (get_innerHtml e) else Ok result
      else Ok result
  end.

(** [get_href(element)]: [(element.get_attribute("href") or '').strip()] *)
Definition get_href (element : option elem) : result string :=
  match element with
  | None => Err AttributeError
  | Some e => Ok (PyStr.strip (default EmptyString (get_attribute e "href")))
  end.

(** [get_value(element)]: [normalise_text(element.get_attribute("value"))] *)
Definition get_value (element : option elem) : result string :=
  match element with
  | None => Err AttributeError
  | Some e => Ok (normalise_text (get_attribute e "value"))
  end.

(** [get_elements(selector, element)] *)
Definition get_elements (selector : Selector) (element : option elem) : list elem :=
  find_elements selector element.
End text.

Section browser.
Context `{Browser}.
Variable tick : bpage -> bpage.
(** The time a failed lookup takes: the driver's implicit wait. *)
Variable lookup_ms : nat.
Variable urljoin : string -> string -> string.
Variable base_url : string.

(** [get_element(selector, allow_null, element)]: [NoSuchElementException]
    and [TimeoutException] are re-raised unless [allow_null]. *)
Definition get_element (selector : Selector) (allow_null : bool) (element : option belem)
    : M (option belem) :=
  try_except (e ← find_element selector element; mret (Some e))
    (fun ex => match ex with
               | NoSuchElementException | TimeoutException =>
                   if allow_null then mret None else raise ex
               | _ => raise ex
               end).

(** [get_parent(element)] *)
Definition get_parent (element : belem) : M (option belem) :=
  get_element (XpathSelector "./..") false (Some element).

(** [type_in_textbox(selector, text, element)] *)
Definition type_in_textbox (selector : Selector) (text : string) (element : option belem)
    : M belem :=
  oe ← get_element selector false element;
  match oe with
  | Some e => clear e;; send_keys e text;; mret e
  | None => raise AttributeError
  end.

Variable click_wait_time : nat.

(** [click_element(selector, element)] *)
Definition click_element (selector : Selector) (element : option belem) : M belem :=
  oe ← get_element selector false element;
  match oe with
  | Some e => click e;; sleep click_wait_time;; mret e
  | None => raise AttributeError
  end.

(** [click_all(selector, element)], [while True] with [fuel] iterations. *)
Fixpoint click_all (fuel : nat) (selector : Selector) (element : option belem) : M unit :=
  match fuel with
  | 0 => mret tt
  | S f =>
      oe ← get_element selector true element;
      match oe with
      | None => mret tt
      | Some e => click e;; sleep click_wait_time;; click_all f selector (Some e)
      end
  end.

(** [convert_to_relative_url(url)] *)
Definition convert_to_relative_url (url : string) : string :=
  if PyStr.startswith url base_url then PyStr.drop (String.length base_url) url else url.

(** [get(url)]: [driver.get(urljoin(base_url, url))], then
    [wait_to_appear(CssSelector('body'))] with its default ten seconds. *)
Definition get (url : string) : M unit :=
  navigate (urljoin base_url url);;
  wait_to_appear tick lookup_ms (CssSelector "body") None 10;;
  mret tt.
End browser.

(** ** Lemmas *)

(** A [result] read back as the [option] of [selenium.py]'s getters. *)
Definition of_guarded (r : option string) : result string :=
  match r with
  | Some s => Ok s
  | None => Err AttributeError
  end.

(** The two [get_element]s agree: the lookup never raises
    [TimeoutException], the one exception only the package's catches. *)
Lemma get_element_agree `{Browser} selector allow_null element w :
  get_element selector allow_null element w = Actions.get_element selector allow_null element w.
Proof.
  unfold get_element, Actions.get_element, try_except, mbind, M_bind, find_element.
  destruct (b_alert _); [done|]. by destruct (b_find _ _ _).
Qed.

Lemma bind_get_element_agree `{Browser} {A} selector allow_null element (k : option belem -> M A) w :
  (oe ← get_element selector allow_null element; k oe) w =
  (oe ← Actions.get_element selector allow_null element; k oe) w.
Proof. unfold mbind, M_bind. by rewrite get_element_agree. Qed.

(** Both [get]s navigate first: with no alert open, each goes on with
    its wait on the loaded page. *)
Lemma get_load `{Browser} tick lookup_ms urljoin base_url url w :
  b_alert (w_page w) = false ->
  get tick lookup_ms urljoin base_url url w =
    (_ ← wait_to_appear tick lookup_ms (CssSelector "body") None 10; mret tt)
      (mkWorld (b_load (w_page w) (urljoin base_url url)) (w_trace w ++ [EGet (urljoin base_url url)])) /\
  Actions.get urljoin base_url url w =
    get_body_loop 20
      (mkWorld (b_load (w_page w) (urljoin base_url url)) (w_trace w ++ [EGet (urljoin base_url url)])).
Proof.
  intros Ha. split; unfold get, Actions.get; unfold mbind at 1, M_bind at 1, navigate; by rewrite Ha.
Qed.

(** ** Theorems *)

(** The browser methods [__init__.py] shares with [selenium.py]
    behave alike: [get_element] (which also catches [TimeoutException]),
    [get_parent], [type_in_textbox], [click_element] and [click_all] give
    the same result and world, and [convert_to_relative_url] the same
    URL. *)
Theorem shared_methods_agree `{Browser} click_wait_time base_url selector allow_null text element
    (x : belem) fuel url w :
  get_element selector allow_null element w = Actions.get_element selector allow_null element w /\
  get_parent x w = Actions.get_parent x w /\
  type_in_textbox selector text element w = Actions.type_in_textbox selector text element w /\
  click_element click_wait_time selector element w =
    Actions.click_element click_wait_time selector element w /\
  click_all click_wait_time fuel selector element w =
    Actions.click_all click_wait_time fuel selector element w /\
  convert_to_relative_url base_url url = Helper.convert_to_relative_url base_url url.
Proof.
  split; [apply get_element_agree|]. split; [apply get_element_agree|].
  split; [apply bind_get_element_agree|]. split; [apply bind_get_element_agree|].
  split; [|done].
  revert element w. induction fuel as [|n IH]; intros element w; [done|].
  cbn [click_all Actions.click_all]. rewrite bind_get_element_agree.
  unfold mbind, M_bind. destruct (Actions.get_element _ _ _ w) as [[[e|]|] w1]; [|done|done].
  cbv [click sleep effect]. apply IH.
Qed.

(** The getters of [__init__.py] agree with the guarded ones of
    [selenium.py] on an element and raise [AttributeError] where those
    return [None]. *)
Theorem unguarded_getters_agree `{Driver} (element : option elem) :
  get_text element = of_guarded (Helper.get_text element) /\
  get_href element = of_guarded (Helper.get_href element) /\
  get_value element = of_guarded (Helper.get_value element).
Proof.
  destruct element as [e|]; [|done]. split; [|done].
  unfold get_text, Helper.get_text, Helper.text_of, Helper.get_innerHtml, get_innerHtml.
  simpl. by destruct (String.length _ =? 0); [destruct (String.length _ =? 0)|].
Qed.

(** C31: on a page that has loaded its [body] and shows no alert, the
    [get] of [__init__.py] does what the [get] of [selenium.py] does: it
    loads [urljoin(base_url, url)] and returns without sleeping. *)
Theorem get_equiv `{Browser} tick lookup_ms urljoin base_url url w :
  let p := b_load (w_page w) (urljoin base_url url) in
  b_alert p = false -> b_find p (CssSelector "body") None <> [] ->
  get tick lookup_ms urljoin base_url url w = Actions.get urljoin base_url url w.
Proof.
  intros p Ha Hb. destruct (b_alert (w_page w)) eqn:Hw.
  { unfold get, Actions.get; unfold mbind at 1 3, M_bind at 1 3, navigate. by rewrite Hw. }
  destruct (get_load tick lookup_ms urljoin base_url url w Hw) as [-> ->]. fold p.
  rewrite get_body_loop_no_alert by (done || lia). simpl.
  destruct (b_find p _ None) as [|e rest] eqn:Hf; [done|].
  unfold wait_to_appear, mbind, M_bind.
  destruct (attempts _ _) as [|n] eqn:Hn; [unfold attempts in Hn; lia|].
  by rewrite (until_hit tick n _ _ p _ e rest Ha Hf).
Qed.

Lemma get_equiv_witness :
  @get buttons_browser id 1000 (fun b u => u) "" "/" (@mkWorld buttons_browser tt []) =
    @Actions.get buttons_browser (fun b u => u) "" "/" (@mkWorld buttons_browser tt []).
Proof. apply (@get_equiv buttons_browser); vm_compute; [reflexivity|discriminate]. Defined.

(** With an alert the loaded page opens, the [get] of [__init__.py]
    raises the [UnexpectedAlertPresentException] its first lookup meets,
    where the [get] of [selenium.py] catches it, sleeps once and goes on
    with the page the dismissed alert leaves. *)
Theorem get_alert_diverges `{Browser} tick lookup_ms urljoin base_url url w :
  let u := urljoin base_url url in
  let p := b_load (w_page w) u in
  b_alert (w_page w) = false -> b_alert p = true -> b_alert (b_dismiss p) = false ->
  b_find (b_dismiss p) (CssSelector "body") None <> [] ->
  get tick lookup_ms urljoin base_url url w =
    (Err UnexpectedAlertPresentException, mkWorld (b_dismiss p) (w_trace w ++ [EGet u])) /\
  Actions.get urljoin base_url url w =
    (Ok tt, mkWorld (b_dismiss p) (w_trace w ++ [EGet u; ESleep 1000])).
Proof.
  intros u p Hw Ha Hd Hb. destruct (get_load tick lookup_ms urljoin base_url url w Hw) as [-> ->].
  fold u p. split.
  - unfold wait_to_appear, mbind, M_bind.
    destruct (attempts _ _) as [|n] eqn:Hn; [unfold attempts in Hn; lia|].
    by rewrite (until_alert tick n _ _ p _ Ha).
  - rewrite get_body_loop_S. cbn [w_page w_trace]. rewrite Ha. cbn [w_page w_trace].
    rewrite get_body_loop_no_alert by (done || lia). cbn. rewrite <-app_assoc.
    by destruct (b_find _ _ _).
Qed.

Lemma get_alert_diverges_witness :
  @get onload_alert_browser id 1000 (fun b u => u) "" "/" (@mkWorld onload_alert_browser false []) =
    (Err UnexpectedAlertPresentException, @mkWorld onload_alert_browser false [EGet "/"]) /\
  @Actions.get onload_alert_browser (fun b u => u) "" "/" (@mkWorld onload_alert_browser false []) =
    (Ok tt, @mkWorld onload_alert_browser false [EGet "/"; ESleep 1000]).
Proof.
  exact (@get_alert_diverges onload_alert_browser id 1000 (fun b u => u) "" "/"
           (@mkWorld onload_alert_browser false []) eq_refl eq_refl eq_refl ltac:(discriminate)).
Defined.

End InitHelper.
