(* ===== verification/Setup.v ===== *)
(** The helper object and its construction: [SeleniumHelper.__init__] of
    [src/lbrc_selenium/selenium.py] (lines 129-163) stores its keyword
    arguments and prepares the directories; the package's constructor of
    [src/lbrc_selenium/__init__.py] (lines 60-80) stores fewer fields.
    [make_helper] composes [Factory.get_selenium] with the constructor:
    what a script gets from [get_selenium()], the helper's fields and the
    filesystem after its directories are prepared. *)

From S2P Require Import Prelude PyStr Factory Files.

Module Setup.
Import Factory Files.

Section setup.
Context {float : Type}.
Variable py_float : string -> result float.
Variable float_of_nat : nat -> float.
(** The working directory against which relative paths resolve. *)
Variable cwd : list string.

(** The attributes [SeleniumHelper.__init__] sets, in the order it sets
    them; the two directories as the paths they resolve to. *)
Record helper := mkHelper {
  h_click_wait_time : float;
  h_download_wait_time : float;
  h_page_wait_time : float;
  h_version : string;
  h_driver : driver_spec (float:=float);
  h_base_url : string;
  h_quitter : bool;
  h_email_address : option string;
  h_compare_version : string;
  h_download_directory : list string;
  h_output_directory : list string
}.

(** [SeleniumHelper(driver, download_directory, output_directory, base_url,
    quitter, click_wait_time, download_wait_time, page_wait_time,
    email_address, version, compare_version)]: the attributes, then
    [mkdir] and [_clear_directory] of the download directory and [mkdir]
    of [output_directory / version]; an [OSError] there propagates. *)
Definition SeleniumHelper_init (driver : driver_spec (float:=float))
    (download_directory output_directory base_url : string) (quitter : bool)
    (click_wait_time download_wait_time page_wait_time : float)
    (email_address : option string) (version compare_version : string) (f : fs)
    : result (helper * fs) :=
  let h := mkHelper click_wait_time download_wait_time page_wait_time version driver base_url
             quitter email_address compare_version (download_path cwd download_directory)
             (output_path cwd output_directory version) in
  let* f' := helper_init cwd download_directory output_directory version f in
  Ok (h, f').

(** [helper_class(driver=..., ..., **kwargs)] with the keyword arguments
    the factory computed. *)
Definition from_call (c : helper_call (float:=float)) (f : fs) : result (helper * fs) :=
  SeleniumHelper_init (c_driver c) (c_download_directory c) (c_output_directory c) (c_base_url c)
    (c_quitter c) (c_click_wait_time c) (c_download_wait_time c) (c_page_wait_time c)
    (Some (c_email_address c)) (c_version c) (c_compare_version c) f.

(** [get_selenium()] with its helper constructed: the helper and the
    filesystem, and [DesiredCapabilities.CHROME] afterwards. *)
Definition make_helper (env : environ) (chrome : caps) (f : fs) : result (helper * fs) * caps :=
  let (r, chrome') := get_selenium py_float float_of_nat env chrome in
  ((let* c := r in from_call c f), chrome').

(** ** [__init__.py] *)

(** The attributes of the package's [SeleniumHelper]. *)
Record init_helper := mkInitHelper {
  ih_click_wait_time : float;
  ih_download_wait_time : float;
  ih_page_wait_time : float;
  ih_driver : driver_spec (float:=float);
  ih_base_url : string;
  ih_download_directory : list string;
  ih_close : driver_call
}.

(** [SeleniumHelper.__init__] of [__init__.py], called by the subclass
    whose [close] is [close_call]. *)
Definition InitSeleniumHelper_init (driver : driver_spec (float:=float)) (download_directory base_url : string)
    (click_wait_time download_wait_time page_wait_time : float) (close_call : driver_call) (f : fs)
    : result (init_helper * fs) :=
  let h := mkInitHelper click_wait_time download_wait_time page_wait_time driver base_url
             (download_path cwd download_directory) close_call in
  let* f' := init_helper_init cwd download_directory f in
  Ok (h, f').

Definition init_from_call (c : init_call (float:=float)) (f : fs) : result (init_helper * fs) :=
  InitSeleniumHelper_init (i_driver c) (i_download_directory c) (i_base_url c)
    (i_click_wait_time c) (i_download_wait_time c) (i_page_wait_time c) (i_close c) f.

(** The package's [get_selenium()] with its helper constructed. *)
Definition init_make_helper (env : environ) (chrome : caps) (f : fs)
    : result (init_helper * fs) * caps :=
  let (r, chrome') := init_get_selenium py_float float_of_nat env chrome in
  ((let* c := r in init_from_call c f), chrome').
End setup.

(** ** Theorems *)

(** What the composed construction yields. *)
Lemma make_helper_post {float} (py_float : string -> result float) float_of_nat cwd env chrome f
    h f' chrome' :
  make_helper py_float float_of_nat cwd env chrome f = (Ok (h, f'), chrome') ->
  h_quitter h = env_truthy env "SELENIUM_HOST" /\
  (exists addr, dict_get "EMAIL_ADDRESS" env = Some addr /\ h_email_address h = Some addr) /\
  h_version h = env_get env "VERSION" "0.0" /\
  h_compare_version h = env_get env "COMPARE_VERSION" "0.0" /\
  h_base_url h = env_get env "BASE_URL" EmptyString /\
  (exists dd od, dict_get "DOWNLOAD_DIRECTORY" env = Some dd /\ dict_get "OUTPUT_DIRECTORY" env = Some od /\
     h_download_directory h = download_path cwd dd /\
     h_output_directory h = output_path cwd od (h_version h)) /\
  is_dir f' (h_download_directory h) = true /\ is_dir f' (h_output_directory h) = true /\
  (forall q, child_of (h_download_directory h) q = true -> lookup q f' <> Some File) /\
  (forall q k, lookup q f = Some k -> child_of (h_download_directory h) q = false -> lookup q f' = Some k).
Proof.
  unfold make_helper. destruct (get_selenium py_float float_of_nat env chrome) as [[c|e] ch] eqn:Hg;
    simpl; [|discriminate].
  intros [= Hc _].
  assert (Hc' : fst (get_selenium py_float float_of_nat env chrome) = Ok c) by (by rewrite Hg).
  destruct (get_selenium_ok _ _ _ _ _ Hc') as (a & Ha & Hca). rewrite Hca in Hc.
  destruct (read_args_ok _ _ _ _ Ha) as (Hd & Ho & He & Hb & Hv & Hcv).
  unfold from_call, SeleniumHelper_init in Hc. simpl in Hc.
  destruct (helper_init cwd _ _ _ f) as [f1|] eqn:Hi; simpl in Hc; [|discriminate].
  injection Hc as <- <-. destruct (helper_init_post _ _ _ _ _ _ Hi) as (H1 & H2 & H3 & H4).
  simpl. repeat split; try done; [by exists (email_address a)|].
  by exists (download_directory a), (output_directory a).
Qed.

(** C27: what [get_selenium()] returns, composed with the constructor: a
    helper whose attributes are the environment's settings ([quitter]
    exactly for a grid, the e-mail address, the versions with their
    ["0.0"] defaults, the base URL with its empty default), whose
    directories are [DOWNLOAD_DIRECTORY] and [OUTPUT_DIRECTORY/VERSION]
    and exist, the download directory holding no file, and every entry
    outside the download directory kept. *)
Theorem make_helper_ok {float} (py_float : string -> result float) float_of_nat cwd env chrome f
    h f' chrome' :
  make_helper py_float float_of_nat cwd env chrome f = (Ok (h, f'), chrome') ->
  h_quitter h = env_truthy env "SELENIUM_HOST" /\
  (exists addr, dict_get "EMAIL_ADDRESS" env = Some addr /\ h_email_address h = Some addr) /\
  h_version h = env_get env "VERSION" "0.0" /\
  h_compare_version h = env_get env "COMPARE_VERSION" "0.0" /\
  h_base_url h = env_get env "BASE_URL" EmptyString /\
  (exists dd od, dict_get "DOWNLOAD_DIRECTORY" env = Some dd /\ dict_get "OUTPUT_DIRECTORY" env = Some od /\
     h_download_directory h = download_path cwd dd /\
     h_output_directory h = output_path cwd od (h_version h)) /\
  is_dir f' (h_download_directory h) = true /\ is_dir f' (h_output_directory h) = true /\
  (forall q, child_of (h_download_directory h) q = true -> lookup q f' <> Some File) /\
  (forall q k, lookup q f = Some k -> child_of (h_download_directory h) q = false -> lookup q f' = Some k).
Proof. apply make_helper_post. Qed.



Definition ex_env : environ :=
  [("DOWNLOAD_DIRECTORY", "/tmp/dl"); ("OUTPUT_DIRECTORY", "out");
   ("EMAIL_ADDRESS", "me@example.org"); ("VERSION", "2.1")].

Lemma make_helper_ok_witness :
  exists h f',
    make_helper (fun _ => Err ValueError) id ["home"] ex_env []
      (filter (fun e => e.1 <> ["tmp"; "dl"; "sub"]) ex_fs) = (Ok (h, f'), []) /\
    h_output_directory h = ["home"; "out"; "2.1"] /\ h_quitter h = false.
Proof.
  eexists (mkHelper 1 60 5 "2.1" (Firefox false (firefox_profile "/tmp/dl") 1) "" false
             (Some "me@example.org") "0.0" ["tmp"; "dl"] ["home"; "out"; "2.1"]), _.
  split; [reflexivity|]. split; [reflexivity|].
  exact (proj1 (make_helper_ok (fun _ => Err ValueError) id ["home"] ex_env []
                  (filter (fun e => e.1 <> ["tmp"; "dl"; "sub"]) ex_fs) _ _ [] eq_refl)).
Defined.

End Setup.
