(* ===== verification/Mail.v ===== *)
(** Screenshots: [SeleniumHelper.save_screenshot] and
    [SeleniumHelper.email_screenshot] of [src/lbrc_selenium/selenium.py]
    (lines 277-303), and the package's [email_screenshot(email_address)]
    of [src/lbrc_selenium/__init__.py] (lines 168-191).

    [email_screenshot] builds a MIME message (a [message]: its headers in
    the order they are set, [msg[name] = value] appending one, and its
    parts, each with its type, the headers the code adds and its payload),
    then talks to the SMTP server: [smtplib.SMTP(host)], [send_message],
    [quit].  The server's answers are parameters of Section [mail]; the
    calls made are the log of a small state-and-exception monad [MailM].
    [save_screenshot(path)] calls [driver.save_screenshot(path)], which
    writes the file and answers [False] on an [OSError]: the write is a
    function of [Files]' filesystem. *)

From S2P Require Import Prelude PyStr Factory Files Setup.
From Stdlib Require Import Ascii.

Module Mail.
Import Factory Files Setup.

(** ** Messages *)

Inductive payload :=
  | PNone
  | PText (s : string)
  | PBytes (b : list Byte.byte)
  (** the bytes after [encode_base64] *)
  | PBase64 (b : list Byte.byte).

Record part := mkPart {
  p_maintype : string;
  p_subtype : string;
  p_headers : list (string * string);
  p_payload : payload
}.

Record message := mkMessage {
  m_headers : list (string * option string);
  m_parts : list part
}.

Definition MIMEMultipart : message := mkMessage [] [].

(** [msg[name] = value] adds a header; it never replaces one. *)
Definition set_item (m : message) (name : string) (value : option string) : message :=
  mkMessage (m_headers m ++ [(name, value)]) (m_parts m).

(** [msg.attach(p)] *)
Definition attach (m : message) (p : part) : message :=
  mkMessage (m_headers m) (m_parts m ++ [p]).

Definition MIMEText (text : string) : part := mkPart "text" "plain" [] (PText text).

Definition MIMEBase (maintype subtype : string) : part := mkPart maintype subtype [] PNone.

Definition set_payload (p : part) (b : list Byte.byte) : part :=
  mkPart (p_maintype p) (p_subtype p) (p_headers p) (PBytes b).

(** [encode_base64(part)]: the payload encoded and
    [Content-Transfer-Encoding: base64] added. *)
Definition encode_base64 (p : part) : part :=
  let pl := match p_payload p with PBytes b => PBase64 b | pl => pl end in
  mkPart (p_maintype p) (p_subtype p) (p_headers p ++ [("Content-Transfer-Encoding", "base64")]) pl.

Definition add_header (p : part) (name value : string) : part :=
  mkPart (p_maintype p) (p_subtype p) (p_headers p ++ [(name, value)]) (p_payload p).

Definition subject : string := "Your Requested Screenshot from Selenium".

Definition smtp_host : string := "smtp.xuhl-tr.nhs.uk".

(** [f'Here is the screenshot that you requested of page {url}'] *)
Definition body (url : string) : string :=
  "Here is the screenshot that you requested of page " ++ url.

Definition dquote : string := String (ascii_of_nat 34) EmptyString.

(** [attachment; filename="screenshot.png"] *)
Definition disposition : string :=
  "attachment; filename=" ++ dquote ++ "screenshot.png" ++ dquote.

(** The message [email_screenshot] builds, for the address in [To] and
    [From], the page's URL and its screenshot. *)
Definition screenshot_message (email_address : option string) (url : string)
    (png : list Byte.byte) : message :=
  let msg := MIMEMultipart in
  let msg := set_item msg "Subject" (Some subject) in
  let msg := set_item msg "To" email_address in
  let msg := set_item msg "From" email_address in
  let msg := attach msg (MIMEText (body url)) in
  let part := MIMEBase "image" "png" in
  let part := set_payload part png in
  let part := encode_base64 part in
  let part := add_header part "Content-Disposition" disposition in
  attach msg part.

(** ** The SMTP exchange *)

Inductive smtp_event :=
  | SMTPConnect (host : string)
  | SendMessage (m : message)
  | SMTPQuit.

Definition MailM (A : Type) : Type := list smtp_event -> result A * list smtp_event.

#[export] Instance MailM_ret : MRet MailM := fun A a log => (Ok a, log).
#[export] Instance MailM_bind : MBind MailM := fun A B k m log =>
  match m log with
  | (Ok a, log') => k a log'
  | (Err e, log') => (Err e, log')
  end.

(** A call to the server, logged, with its answer. *)
Definition smtp_call (ev : smtp_event) (answer : option py_exc) : MailM unit := fun log =>
  (match answer with None => Ok tt | Some e => Err e end, log ++ [ev]).

Section mail.
(** The server's answers. *)
Variable smtp_connect : string -> option py_exc.
Variable smtp_send : message -> option py_exc.
Variable smtp_quit : option py_exc.
(** [driver.current_url] and [driver.get_screenshot_as_png()] *)
Variable current_url : string.
Variable screenshot_png : list Byte.byte.

(** [s = smtplib.SMTP(host); s.send_message(msg); s.quit()], with no
    [try]/[finally]. *)
Definition send (msg : message) : MailM unit :=
  smtp_call (SMTPConnect smtp_host) (smtp_connect smtp_host);;
  smtp_call (SendMessage msg) (smtp_send msg);;
  smtp_call SMTPQuit smtp_quit.

(** [SeleniumHelper.email_screenshot()] of [selenium.py]: the address is
    the helper's [email_address] attribute. *)
Definition email_screenshot {float} (h : helper (float:=float)) : MailM unit :=
  send (screenshot_message (h_email_address h) current_url screenshot_png).

(** [email_screenshot(email_address)] of [__init__.py]. *)
Definition init_email_screenshot (email_address : string) : MailM unit :=
  send (screenshot_message (Some email_address) current_url screenshot_png).
End mail.

(** ** Saving a screenshot *)

(** [open(path, "wb")]: a directory raises [IsADirectoryError], a missing
    parent [FileNotFoundError]; otherwise the file is created or
    truncated. *)
Definition write_file (q : list string) (f : fs) : result fs :=
  if is_dir f q then Err OSError
  else if is_dir f (removelast q) then Ok (dict_set q File f)
  else Err OSError.

(** [save_screenshot(path)]: [driver.save_screenshot(path)] answers
    [False] on an [OSError] and the helper discards the answer. *)
Definition save_screenshot (cwd : list string) (path : string) (f : fs) : fs :=
  match write_file (resolve cwd (path_of path)) f with
  | Ok f' => f'
  | Err _ => f
  end.

(** ** Lemmas *)

Lemma smtp_call_bind {A} ev answer (k : unit -> MailM A) log :
  (x ← smtp_call ev answer; k x) log =
  match answer with
  | None => k tt (log ++ [ev])
  | Some e => (Err e, log ++ [ev])
  end.
Proof. unfold mbind, MailM_bind, smtp_call. by destruct answer as [e|]; [|destruct (k tt)]. Qed.

(** The exchange, call by call: a failed call ends it. *)
Lemma send_cases smtp_connect smtp_send smtp_quit msg log :
  send smtp_connect smtp_send smtp_quit msg log =
  match smtp_connect smtp_host with
  | Some e => (Err e, log ++ [SMTPConnect smtp_host])
  | None =>
      match smtp_send msg with
      | Some e => (Err e, log ++ [SMTPConnect smtp_host; SendMessage msg])
      | None =>
          (match smtp_quit with None => Ok tt | Some e => Err e end,
           log ++ [SMTPConnect smtp_host; SendMessage msg; SMTPQuit])
      end
  end.
Proof.
  unfold send. rewrite smtp_call_bind. destruct (smtp_connect _); [done|].
  rewrite smtp_call_bind. destruct (smtp_send msg); [by rewrite <-app_assoc|].
  unfold smtp_call. by rewrite <-!app_assoc.
Qed.

Lemma write_file_lookup q f f' q' :
  write_file q f = Ok f' -> lookup q' f' = if decide (q' = q) then Some File else lookup q' f.
Proof.
  unfold write_file. destruct (is_dir f q); [discriminate|].
  destruct (is_dir f (removelast q)); [|discriminate]. intros [= <-].
  unfold lookup. case_decide as Hq; [subst; apply dict_get_set_eq|by apply dict_get_set_ne].
Qed.

(** ** Theorems *)

(** [email_screenshot] connects to [smtp.xuhl-tr.nhs.uk], sends the
    one message, and quits, each call made only when the one before it
    succeeded: when [send_message] raises, the exception propagates and
    the connection is never quit. *)
Theorem email_screenshot_spec {float} smtp_connect smtp_send smtp_quit url png
    (h : helper (float:=float)) log :
  let msg := screenshot_message (h_email_address h) url png in
  email_screenshot smtp_connect smtp_send smtp_quit url png h log =
  match smtp_connect smtp_host with
  | Some e => (Err e, log ++ [SMTPConnect smtp_host])
  | None =>
      match smtp_send msg with
      | Some e => (Err e, log ++ [SMTPConnect smtp_host; SendMessage msg])
      | None =>
          (match smtp_quit with None => Ok tt | Some e => Err e end,
           log ++ [SMTPConnect smtp_host; SendMessage msg; SMTPQuit])
      end
  end.
Proof. apply send_cases. Qed.

(** C29: the screenshot of a helper from [get_selenium()] goes to the
    configured address: the message sent has the subject, [To] and
    [From] set to [EMAIL_ADDRESS], a text part naming the page's URL and
    the PNG, base64-encoded, attached as [screenshot.png]. *)
Theorem email_screenshot_addressed {float} (py_float : string -> result float) float_of_nat cwd
    env chrome f h f' chrome' smtp_send url png :
  make_helper py_float float_of_nat cwd env chrome f = (Ok (h, f'), chrome') ->
  exists addr msg,
    dict_get "EMAIL_ADDRESS" env = Some addr /\
    email_screenshot (fun _ => None) smtp_send None url png h [] =
      (match smtp_send msg with None => Ok tt | Some e => Err e end,
       SMTPConnect smtp_host :: SendMessage msg ::
         match smtp_send msg with None => [SMTPQuit] | Some _ => [] end) /\
    m_headers msg = [("Subject", Some subject); ("To", Some addr); ("From", Some addr)] /\
    m_parts msg = [mkPart "text" "plain" [] (PText (body url));
                   mkPart "image" "png" [("Content-Transfer-Encoding", "base64");
                                         ("Content-Disposition", disposition)] (PBase64 png)].
Proof.
  intros Hm. destruct (make_helper_post _ _ _ _ _ _ _ _ _ Hm) as (_ & (addr & Ha & He) & _).
  exists addr, (screenshot_message (Some addr) url png). split; [done|].
  unfold email_screenshot. rewrite send_cases, He. simpl.
  split; [by destruct (smtp_send _)|done].
Qed.

Lemma email_screenshot_addressed_witness :
  exists h f' addr msg,
    make_helper (fun _ => Err ValueError) id ["home"] ex_env []
      (filter (fun e => e.1 <> ["tmp"; "dl"; "sub"]) ex_fs) = (Ok (h, f'), []) /\
    dict_get "EMAIL_ADDRESS" ex_env = Some addr /\
    email_screenshot (fun _ => None) (fun _ => None) None "http://x/" [] h [] =
      (Ok tt, [SMTPConnect smtp_host; SendMessage msg; SMTPQuit]).
Proof.
  eexists (mkHelper 1 60 5 "2.1" (Firefox false (firefox_profile "/tmp/dl") 1) "" false
             (Some "me@example.org") "0.0" ["tmp"; "dl"] ["home"; "out"; "2.1"]), _.
  assert (Hm : make_helper (fun _ => Err ValueError) id ["home"] ex_env []
      (filter (fun e => e.1 <> ["tmp"; "dl"; "sub"]) ex_fs) = (Ok (mkHelper 1 60 5 "2.1" (Firefox false (firefox_profile "/tmp/dl") 1) "" false
             (Some "me@example.org") "0.0" ["tmp"; "dl"] ["home"; "out"; "2.1"], _), [])) by reflexivity.
  destruct (email_screenshot_addressed _ _ _ _ _ _ _ _ _ (fun _ => None) "http://x/" [] Hm)
    as (addr & msg & Ha & Hs & _).
  exists addr, msg. split; [exact Hm|]. split; [exact Ha|]. exact Hs.
Defined.

(** [save_screenshot] never raises: it creates or truncates the
    file when its directory exists and the path is not a directory, and
    otherwise, the write having failed with [OSError], it silently leaves
    the filesystem as it was. *)
Theorem save_screenshot_silent cwd path f :
  let q := resolve cwd (path_of path) in
  (is_dir f q = false -> is_dir f (removelast q) = true ->
     forall q', lookup q' (save_screenshot cwd path f) =
                if decide (q' = q) then Some File else lookup q' f) /\
  (is_dir f q = true \/ is_dir f (removelast q) = false -> save_screenshot cwd path f = f).
Proof.
  intros q. unfold save_screenshot. fold q. split.
  - intros Hd Hp q'. destruct (write_file q f) as [f'|] eqn:Hw.
    + by apply write_file_lookup.
    + revert Hw. unfold write_file. by rewrite Hd, Hp.
  - intros Hq. unfold write_file.
    destruct Hq as [-> | Hp]; [done|]. rewrite Hp. by destruct (is_dir f q).
Qed.

Lemma save_screenshot_silent_witness :
  save_screenshot [] "/missing/shot.png" ex_fs = ex_fs /\
  lookup ["tmp"; "shot.png"] (save_screenshot [] "/tmp/shot.png" ex_fs) = Some File.
Proof.
  split.
  - apply (proj2 (save_screenshot_silent [] "/missing/shot.png" ex_fs)). right. reflexivity.
  - rewrite (proj1 (save_screenshot_silent [] "/tmp/shot.png" ex_fs) eq_refl eq_refl).
    reflexivity.
Defined.

End Mail.
