(* ===== verification/Packaging.v ===== *)
(** Packaging: the [setup()] call of [src/setup.py] and the imports the
    package's two modules run when they are loaded
    ([src/lbrc_selenium/__init__.py] lines 1-17,
    [src/lbrc_selenium/selenium.py] lines 1-22).  Loading a module runs
    its imports in order; an import whose top-level package is neither in
    the standard library nor installed raises [ModuleNotFoundError].
    [lbrc_selenium.selenium] is loaded after its package, so its imports
    follow those of [__init__.py].  An installation (pip runs [setup.py]
    with setuptools loaded, which honours [install_requires]) installs the
    declared requirements. *)

From S2P Require Import Prelude PyStr.
From Stdlib Require Import Ascii.

Module Packaging.

(** [x in l] on strings. *)
Definition mem (x : string) (l : list string) : bool := existsb (String.eqb x) l.

(** The keyword arguments of [setup()]. *)
Record setup_args := mkSetup {
  s_name : string;
  s_version : string;
  s_description : string;
  s_author : string;
  s_author_email : string;
  s_url : string;
  s_packages : list string;
  s_install_requires : list string
}.

(** [setup(name='lbrc_selenium', ...)] of [src/setup.py]. *)
Definition setup_py : setup_args :=
  mkSetup "lbrc_selenium" "1.0" "NIHR Leicester BRC Selenium Helper" "Richard Bramley"
    "rabramley@gmail.com" "https://github.com/LCBRU/lbrc_selenium/" ["lbrc_selenium"] ["selenium"].

(** The modules [__init__.py] imports, in order (lines 1-17). *)
Definition init_py_imports : list string :=
  ["os"; "zipfile"; "re"; "smtplib"; "time"; "selenium";
   "selenium.webdriver.firefox.options"; "selenium.webdriver.common.desired_capabilities";
   "selenium.webdriver.common.by"; "selenium.common.exceptions"; "urllib.parse"; "pathlib";
   "email.mime.multipart"; "email.mime.base"; "email.encoders"; "email.mime.text";
   "selenium.webdriver.support.ui"].

(** The modules [selenium.py] imports, in order (lines 1-22). *)
Definition selenium_py_imports : list string :=
  ["collections"; "os"; "zipfile"; "re"; "smtplib"; "typing"; "time"; "selenium";
   "selenium.webdriver.firefox.options"; "selenium.webdriver.common.desired_capabilities";
   "selenium.webdriver.common.by"; "selenium.common.exceptions"; "urllib.parse"; "pathlib";
   "email.mime.multipart"; "email.mime.base"; "email.encoders"; "email.mime.text";
   "selenium.webdriver.support.ui"; "selenium.common.exceptions"; "packaging"; "dataclasses"].

(** The top-level packages of the standard library the modules use. *)
Definition stdlib : list string :=
  ["collections"; "os"; "zipfile"; "re"; "smtplib"; "typing"; "time"; "urllib"; "pathlib";
   "email"; "dataclasses"].

(** The package an import loads first: [m.split('.')[0]], [a] of [a.b.c]. *)
Fixpoint top_level (m : string) : string :=
  match m with
  | EmptyString => EmptyString
  | String c m' => if (c =? ".")%char then EmptyString else String c (top_level m')
  end.

(** The imports in order, with the packages [installed]. *)
Fixpoint import_all (installed : list string) (ms : list string) : result unit :=
  match ms with
  | [] => Ok tt
  | m :: ms' =>
      if mem (top_level m) stdlib || mem (top_level m) installed then import_all installed ms'
      else Err ModuleNotFoundError
  end.

(** [import lbrc_selenium] *)
Definition import_package (installed : list string) : result unit :=
  import_all installed init_py_imports.

(** [import lbrc_selenium.selenium]: the package first. *)
Definition import_selenium_module (installed : list string) : result unit :=
  import_all installed (init_py_imports ++ selenium_py_imports).

(** ** Theorems *)

(** C28: loading the package needs [selenium] installed and loading
    [lbrc_selenium.selenium] needs [selenium] and [packaging], each raising
    [ModuleNotFoundError] otherwise; [setup.py] declares only [selenium],
    so an environment holding exactly the declared requirements loads the
    package but not its [selenium] module. *)
Theorem module_imports_need installed :
  import_package installed =
    (if mem "selenium" installed then Ok tt else Err ModuleNotFoundError) /\
  import_selenium_module installed =
    (if mem "selenium" installed && mem "packaging" installed then Ok tt
     else Err ModuleNotFoundError) /\
  import_package (s_install_requires setup_py) = Ok tt /\
  import_selenium_module (s_install_requires setup_py) = Err ModuleNotFoundError.
Proof.
  unfold import_package, import_selenium_module. cbn.
  destruct (mem "selenium" installed), (mem "packaging" installed); repeat split.
Qed.

End Packaging.
